(** * Email-link sign-in engine of Eskimo: a shallow embedding

    Sources embedded here:
    - [auth/email_link/link_verify.go]: [SignIn], [signIn], [verifySignIn],
      [increaseWrongConfirmationCodeAttemptsCount], [finishAuthProcess],
      [resetLoginSession];
    - the status file of the same package (an earlier revision that polls
      with an OTP): [Status] and its own [resetLoginSession];
    - the DDL of [email_link_sign_ins], [account_metadata], [sign_ins_per_ip].

    Go values are modelled as follows: [int64] is a [Z] with the wrap-around
    written out ([wrap64]); a nilable pointer is an [option]; [error] is an
    [option error] ([None] is [nil]); a nil dereference or a failed type
    assertion is the outcome [Panicked]; instants are [Z] and durations are
    added with [+]. The three tables are finite maps keyed by their primary
    keys, and every SQL statement is a function on the tables. *)

From Stdlib Require Import ZArith List Bool String Lia.
From stdpp Require Import gmap strings list fin_maps.
Import ListNotations.

Local Open Scope string_scope.
Local Open Scope Z_scope.

(** ** Errors: pkg/errors wrapping and hashicorp/go-multierror *)

Inductive sentinel : Type :=
  | ErrNoConfirmationRequired
  | ErrNoPendingLoginSession
  | ErrStatusNotVerified
  | ErrConfirmationCodeWrong
  | ErrConfirmationCodeAttemptsExceeded
  | storage_ErrNotFound
  | Opaque (msg : string).

#[global] Instance sentinel_eq_dec : EqDecision sentinel.
Proof. solve_decision. Defined.

(** [Wrapf] keeps the format string of the call; the rendered arguments are
    not part of the model. [Multi] is a [*multierror.Error]. *)
#[warnings="-register-all"]
Inductive error : Type :=
  | Base (s : sentinel)
  | Wrapf (msg : string) (cause : error)
  | Multi (errs : list error).

(** [errors.Is]: walks the cause chain; a multierror matches when one of its
    members does. *)
Fixpoint errors_Is (e : error) (target : sentinel) : bool :=
  match e with
  | Base s => bool_decide (s = target)
  | Wrapf _ c => errors_Is c target
  | Multi es => existsb (fun e' => errors_Is e' target) es
  end.

(** [errors.Wrapf(err, ...)] returns nil when [err] is nil. *)
Definition errors_Wrapf (err : option error) (msg : string) : option error :=
  match err with
  | None => None
  | Some e => Some (Wrapf msg e)
  end.

(** [multierror.Append(err, errs...)]: nil arguments are dropped, and an
    argument that is itself a multierror is flattened. The accumulator is a
    [*multierror.Error]: [None] is the nil pointer. *)
Definition flatten1 (e : option error) : list error :=
  match e with
  | None => []
  | Some (Multi es) => es
  | Some e' => [e']
  end.

Definition multierror_Append (mErr : option (list error)) (errs : list (option error))
  : option (list error) :=
  Some (default [] mErr ++ concat (map flatten1 errs))%list.

Definition ErrorOrNil (mErr : option (list error)) : option error :=
  match mErr with
  | None => None
  | Some [] => None
  | Some es => Some (Multi es)
  end.

(** ** int64 and BIGINT *)

Definition min_int64 : Z := - 2 ^ 63.
Definition max_int64 : Z := 2 ^ 63 - 1.

(** Go's [+] on [int64] wraps around. *)
Definition wrap64 (z : Z) : Z := (z + 2 ^ 63) mod 2 ^ 64 - 2 ^ 63.

(** PostgreSQL raises "bigint out of range" instead of wrapping. *)
Definition in_bigint (z : Z) : bool := (min_int64 <=? z) && (z <=? max_int64).

(** ** JSON metadata ([users.JSON] is [map[string]any]) *)

Inductive jval : Type :=
  | JStr (s : string)
  | JNum (z : Z)
  | JBool (b : bool)
  | JNull
  | JRaw (text : string).

#[global] Instance jval_eq_dec : EqDecision jval.
Proof. solve_decision. Defined.

Abbreviation JSON := (gmap string jval).

(** [strings.HasPrefix(s, p)] *)
Definition strings_HasPrefix (s p : string) : bool := String.prefix p s.

(** ** Tables *)

(** A row of [email_link_sign_ins]; the primary key [(email,
    device_unique_id)] is the key of the map. [otp] is the column the status
    file reads and matches on. *)
Record Row : Type := {
  created_at : Z;
  token_issued_at : option Z;
  blocked_until : option Z;
  email_confirmed_at : option Z;
  issued_token_seq : Z;
  previously_issued_token_seq : Z;
  confirmation_code_wrong_attempts_count : Z;
  confirmation_code : option string;
  user_id : option string;
  phone_number_to_email_migration_user_id : option string;
  otp : option string
}.

Record DB : Type := {
  email_link_sign_ins : gmap (string * string) Row;
  account_metadata : gmap string JSON;
  (** keyed by [(login_session_number, ip)], the value is [login_attempts] *)
  sign_ins_per_ip : gmap (Z * string) Z
}.

Definition set_sign_ins (t : gmap (string * string) Row) (d : DB) : DB :=
  {| email_link_sign_ins := t;
     account_metadata := account_metadata d;
     sign_ins_per_ip := sign_ins_per_ip d |}.

Definition set_metadata (t : gmap string JSON) (d : DB) : DB :=
  {| email_link_sign_ins := email_link_sign_ins d;
     account_metadata := t;
     sign_ins_per_ip := sign_ins_per_ip d |}.

Definition set_per_ip (t : gmap (Z * string) Z) (d : DB) : DB :=
  {| email_link_sign_ins := email_link_sign_ins d;
     account_metadata := account_metadata d;
     sign_ins_per_ip := t |}.

(** ** SQL statements

    A statement either is rejected by the engine (nothing is written) or
    yields a result and the new tables. *)
Definition stmt (A : Type) : Type := DB -> string + (A * DB).

(** SQL [=] against a nullable column: NULL matches nothing. *)
Definition sql_eq_text (col : option string) (v : string) : bool :=
  match col with
  | None => false
  | Some c => bool_decide (c = v)
  end.

(** [[
UPDATE email_link_sign_ins
  SET confirmation_code_wrong_attempts_count = confirmation_code_wrong_attempts_count + 1
      [,blocked_until = $3]
WHERE email = $1 AND device_unique_id = $2
]]
    The result is the number of rows affected. *)
Definition increase_row (block : option Z) (r : Row) : Row :=
  {| created_at := created_at r;
     token_issued_at := token_issued_at r;
     blocked_until := match block with
                      | Some t => Some t
                      | None => blocked_until r
                      end;
     email_confirmed_at := email_confirmed_at r;
     issued_token_seq := issued_token_seq r;
     previously_issued_token_seq := previously_issued_token_seq r;
     confirmation_code_wrong_attempts_count := confirmation_code_wrong_attempts_count r + 1;
     confirmation_code := confirmation_code r;
     user_id := user_id r;
     phone_number_to_email_migration_user_id := phone_number_to_email_migration_user_id r;
     otp := otp r |}.

Definition sql_increase_attempts (email device : string) (block : option Z) : stmt Z :=
  fun d =>
    match email_link_sign_ins d !! (email, device) with
    | None => inr (0, d)
    | Some r =>
        if in_bigint (confirmation_code_wrong_attempts_count r + 1)
        then inr (1, set_sign_ins (<[(email, device) := increase_row block r]>
                                     (email_link_sign_ins d)) d)
        else inl "bigint out of range"
    end.

(** [[
INSERT INTO account_metadata(user_id, metadata) VALUES ($3, $6::jsonb)
ON CONFLICT(user_id) DO UPDATE SET metadata = EXCLUDED.metadata
WHERE account_metadata.metadata != EXCLUDED.metadata
]] *)
Definition upsert_metadata (userID : string) (md : JSON)
    (t : gmap string JSON) : gmap string JSON :=
  match t !! userID with
  | None => <[userID := md]> t
  | Some old => if decide (old = md) then t else <[userID := md]> t
  end.

(** The SET list of [finishAuthProcess]. Every right-hand side reads the row
    as it was, so both sequence columns receive the old [issued_token_seq]
    plus one; [emailConfirmed] selects [$2] or the literal [null] for
    [email_confirmed_at]. *)
Definition finish_row (now : Z) (userID : string) (emailConfirmed : bool) (r : Row) : Row :=
  {| created_at := created_at r;
     token_issued_at := Some now;
     blocked_until := blocked_until r;
     email_confirmed_at := if emailConfirmed then Some now else None;
     issued_token_seq := issued_token_seq r + 1;
     previously_issued_token_seq := issued_token_seq r + 1;
     confirmation_code_wrong_attempts_count := confirmation_code_wrong_attempts_count r;
     confirmation_code := confirmation_code r;
     user_id := Some userID;
     phone_number_to_email_migration_user_id := None;
     otp := otp r |}.

(** The statement of [finishAuthProcess]: the metadata upsert runs as a
    data-modifying CTE, so it is performed whether or not the UPDATE finds
    its row. The result is the RETURNING row, if any. *)
Definition sql_finish_auth (email : string) (now : Z) (userID device : string)
    (issuedTokenSeq : Z) (emailConfirmed : bool) (md : JSON) : stmt (option Z) :=
  fun d =>
    let d1 := set_metadata (upsert_metadata userID md (account_metadata d)) d in
    match email_link_sign_ins d !! (email, device) with
    | None => inr (None, d1)
    | Some r =>
        if bool_decide (issued_token_seq r = issuedTokenSeq) then
          if in_bigint (issued_token_seq r + 1)
          then inr (Some (issued_token_seq r + 1),
                    set_sign_ins (<[(email, device) := finish_row now userID emailConfirmed r]>
                                    (email_link_sign_ins d)) d1)
          else inl "bigint out of range"
        else inr (None, d1)
    end.

Definition with_confirmation_code (c : option string) (r : Row) : Row :=
  {| created_at := created_at r;
     token_issued_at := token_issued_at r;
     blocked_until := blocked_until r;
     email_confirmed_at := email_confirmed_at r;
     issued_token_seq := issued_token_seq r;
     previously_issued_token_seq := previously_issued_token_seq r;
     confirmation_code_wrong_attempts_count := confirmation_code_wrong_attempts_count r;
     confirmation_code := c;
     user_id := user_id r;
     phone_number_to_email_migration_user_id := phone_number_to_email_migration_user_id r;
     otp := otp r |}.

(** [[
UPDATE sign_ins_per_ip SET login_attempts = GREATEST(sign_ins_per_ip.login_attempts - 1, 0)
WHERE ip = $6 AND login_session_number = $7
]]
    under [CHECK (login_attempts <= 10)]. *)
Definition sql_decrement_ip (ip : string) (loginSessionNumber : Z)
    (t : gmap (Z * string) Z) : string + gmap (Z * string) Z :=
  match t !! (loginSessionNumber, ip) with
  | None => inr t
  | Some n =>
      if in_bigint (n - 1) then
        let n' := Z.max (n - 1) 0 in
        if n' <=? 10 then inr (<[(loginSessionNumber, ip) := n']> t)
        else inl "sign_ins_per_ip_login_attempts_count"
      else inl "bigint out of range"
  end.

(** The statement of [resetLoginSession] in link_verify.go; [refund] is the
    optional [with decrement_ip_login_attempts as (...)] prefix. *)
Definition sql_reset_login_session (userID : option string) (email device prevCode : string)
    (seq : Z) (refund : option (string * Z)) : stmt Z :=
  fun d =>
    match (match refund with
           | None => inr (sign_ins_per_ip d)
           | Some (ip, n) => sql_decrement_ip ip n (sign_ins_per_ip d)
           end) with
    | inl msg => inl msg
    | inr ips =>
        let d1 := set_per_ip ips d in
        match email_link_sign_ins d !! (email, device) with
        | None => inr (0, d1)
        | Some r =>
            if sql_eq_text (confirmation_code r) prevCode
               && bool_decide (issued_token_seq r = seq)
            then inr (1, set_sign_ins (<[(email, device) := with_confirmation_code userID r]>
                                         (email_link_sign_ins d)) d1)
            else inr (0, d1)
        end
    end.

(** The statement of [resetLoginSession] in the status file. *)
Definition sql_reset_login_session_otp (userID : option string)
    (email device otpv prevCode : string) (seq : Z) : stmt Z :=
  fun d =>
    match email_link_sign_ins d !! (email, device) with
    | None => inr (0, d)
    | Some r =>
        if sql_eq_text (otp r) otpv
           && sql_eq_text (confirmation_code r) prevCode
           && bool_decide (issued_token_seq r = seq)
        then inr (1, set_sign_ins (<[(email, device) := with_confirmation_code userID r]>
                                     (email_link_sign_ins d)) d)
        else inr (0, d)
    end.

(** ** Go values of the package *)

Record loginID : Type := {
  id_Email : string;
  id_DeviceUniqueID : string
}.

Record loginFlowToken : Type := {
  Subject : string;
  tok_DeviceUniqueID : string;
  OldEmail : string;
  NotifyEmail : string;
  ClientIP : string;
  LoginSessionNumber : Z;
  tok_ConfirmationCode : string
}.

(** The struct [emailLinkSignIn] is declared outside the shown files; its
    fields are the ones the functions read and write, typed by their uses
    (a field compared with [nil] or dereferenced is a pointer). *)
Record emailLinkSignIn : Type := {
  CreatedAt : option Z;
  TokenIssuedAt : option Z;
  BlockedUntil : option Z;
  EmailConfirmedAt : option Z;
  UserID : option string;
  PhoneNumberToEmailMigrationUserID : option string;
  Metadata : option JSON;
  Email : string;
  OTP : string;
  ConfirmationCode : string;
  IssuedTokenSeq : Z;
  ConfirmationCodeWrongAttemptsCount : Z
}.

Definition set_Email (e : string) (els : emailLinkSignIn) : emailLinkSignIn :=
  {| CreatedAt := CreatedAt els; TokenIssuedAt := TokenIssuedAt els;
     BlockedUntil := BlockedUntil els; EmailConfirmedAt := EmailConfirmedAt els;
     UserID := UserID els;
     PhoneNumberToEmailMigrationUserID := PhoneNumberToEmailMigrationUserID els;
     Metadata := Metadata els; Email := e; OTP := OTP els;
     ConfirmationCode := ConfirmationCode els; IssuedTokenSeq := IssuedTokenSeq els;
     ConfirmationCodeWrongAttemptsCount := ConfirmationCodeWrongAttemptsCount els |}.

Definition set_TokenIssuedAt (t : option Z) (els : emailLinkSignIn) : emailLinkSignIn :=
  {| CreatedAt := CreatedAt els; TokenIssuedAt := t;
     BlockedUntil := BlockedUntil els; EmailConfirmedAt := EmailConfirmedAt els;
     UserID := UserID els;
     PhoneNumberToEmailMigrationUserID := PhoneNumberToEmailMigrationUserID els;
     Metadata := Metadata els; Email := Email els; OTP := OTP els;
     ConfirmationCode := ConfirmationCode els; IssuedTokenSeq := IssuedTokenSeq els;
     ConfirmationCodeWrongAttemptsCount := ConfirmationCodeWrongAttemptsCount els |}.

Record Tokens : Type := {
  RefreshToken : string;
  AccessToken : string
}.

(** Process configuration ([c.cfg]) and the constants of the package and of
    [wintr/auth] that the functions name. *)
Record Config : Type := {
  EmailValidation_JwtSecret : string;
  EmailValidation_BlockDuration : Z;
  LoginSession_JwtSecret : string;
  ConfirmationCode_MaxWrongAttemptsCount : Z;
  iceIDPrefix : string;
  auth_IceIDClaim : string;
  auth_RegisteredWithProviderClaim : string;
  auth_FirebaseIDClaim : string;
  auth_ProviderFirebase : string
}.

(** ** The world and its collaborators

    [calls] counts the interactions with the outside (clock readings,
    statements, calls of collaborators), so that a collaborator may answer
    differently each time it is asked. *)
Record World : Type := {
  db : DB;
  calls : nat
}.

(** Everything the shown functions call and do not define: the clock, the
    storage transport, mergo, the token codec, the two reads of the sign-in
    record, the email-migration helpers. A helper receives the record by
    pointer; it is taken to report its result and leave the record as it
    is. *)
Record Extern : Type := {
  wall : nat -> Z;
  fault : nat -> option string;
  mergo_Merge : JSON -> JSON -> error + JSON;
  parseJwtToken : nat -> string -> string -> error + loginFlowToken;
  getEmailLinkSignInByPk : nat -> DB -> loginID -> string -> error + emailLinkSignIn;
  getConfirmedEmailLinkSignIn : nat -> DB -> loginID -> string -> error + emailLinkSignIn;
  handleEmailModification : nat -> emailLinkSignIn -> string -> string -> string -> option error;
  resetEmailModification : nat -> string -> string -> option error;
  resetFirebaseEmailModification : nat -> option JSON -> string -> option error;
  generateTokens : nat -> option Z -> emailLinkSignIn -> Z -> error + Tokens
}.

(** ** State and panics *)

Inductive outcome (A : Type) : Type :=
  | Val (a : A)
  | Panicked (why : string).
Arguments Val {A} a.
Arguments Panicked {A} why.

Definition M (A : Type) : Type := World -> outcome A * World.

Definition ret {A : Type} (a : A) : M A := fun w => (Val a, w).

Definition bind {A B : Type} (m : M A) (k : A -> M B) : M B :=
  fun w =>
    match m w with
    | (Val a, w') => k a w'
    | (Panicked why, w') => (Panicked why, w')
    end.

Definition panic {A : Type} (why : string) : M A := fun w => (Panicked why, w).

(** A computation that touches nothing. *)
Definition lift {A : Type} (o : outcome A) : M A := fun w => (o, w).

Notation "x <- m ;; k" := (bind m (fun x => k))
  (at level 20, m at level 99, k at level 200, only parsing).
Notation "' p <- m ;; k" := (bind m (fun x => match x with p => k end))
  (at level 20, p pattern, m at level 99, k at level 200, only parsing).

Definition bump (w : World) : World := {| db := db w; calls := S (calls w) |}.

(** One interaction with a collaborator that only reads the tables. *)
Definition ask {A : Type} (f : nat -> DB -> A) : M A :=
  fun w => (Val (f (calls w) (db w)), bump w).

(** ** link_verify.go *)

Section Engine.

Variable cfg : Config.
Variable ext : Extern.

(** [time.Now()]: one reading of the wall clock. *)
Definition time_Now : M Z :=
  fun w => (Val (wall ext (calls w)), bump w).

(** One statement sent to the store: the transport may fail before the
    engine sees it, the engine may reject it; either way nothing is
    written. *)
Definition run_stmt {A : Type} (s : stmt A) : M (error + A) :=
  fun w =>
    match fault ext (calls w) with
    | Some msg => (Val (inl (Base (Opaque msg))), bump w)
    | None =>
        match s (db w) with
        | inl msg => (Val (inl (Base (Opaque msg))), bump w)
        | inr (a, d) => (Val (inr a), {| db := d; calls := S (calls w) |})
        end
    end.

(** [storage.Exec]: rows affected, or the failure. *)
Definition storage_Exec (s : stmt Z) : M (Z * option error) :=
  r <- run_stmt s ;;
  ret (match r with
       | inl e => (0, Some e)
       | inr n => (n, None)
       end).

(** [storage.ExecOne]: the returned row; no row is [storage.ErrNotFound]. *)
Definition storage_ExecOne {A : Type} (s : stmt (option A)) : M (error + A) :=
  r <- run_stmt s ;;
  ret (match r with
       | inl e => inl e
       | inr None => inl (Base storage_ErrNotFound)
       | inr (Some a) => inr a
       end).

Definition increaseWrongConfirmationCodeAttemptsCount (id : loginID)
    (shouldBeBlocked : bool) : M (option error) :=
  block <- (if shouldBeBlocked
            then (now <- time_Now ;; ret (Some (now + EmailValidation_BlockDuration cfg)))
            else ret None) ;;
  '(_, err) <- storage_Exec
                 (sql_increase_attempts (id_Email id) (id_DeviceUniqueID id) block) ;;
  ret (errors_Wrapf err "can't update email link sign ins for the user with pk:%#v").

Definition attempts_exceeded_error : error :=
  Wrapf "confirmation code wrong attempts count exceeded for id:%#v"
        (Base ErrConfirmationCodeAttemptsExceeded).

(** The first [if] of [verifySignIn]: [inl] is the early return, [inr] the
    values of [shouldBeBlocked] and [mErr] after it. The method calls on
    [els.BlockedUntil] and the dereference of [els.CreatedAt.Time] come
    before the nil test of the source, and [&&] evaluates its right operand
    only when the left one holds. *)
Definition over_budget_check (els : emailLinkSignIn)
  : M (error + bool * option (list error)) :=
  if ConfirmationCode_MaxWrongAttemptsCount cfg <=? ConfirmationCodeWrongAttemptsCount els
  then
    now <- time_Now ;;
    let blockEndTime := now + EmailValidation_BlockDuration cfg in
    match BlockedUntil els with
    | None => panic "nil pointer dereference: els.BlockedUntil"
    | Some blockedUntil =>
        blockTimeFitsNow <-
          (if blockedUntil <? blockEndTime
           then match CreatedAt els with
                | None => panic "nil pointer dereference: els.CreatedAt"
                | Some createdAt => ret (createdAt <? blockedUntil)
                end
           else ret false) ;;
        let shouldBeBlocked :=
          match BlockedUntil els with None => true | Some _ => false end
          || negb blockTimeFitsNow in
        if negb shouldBeBlocked
        then ret (inl attempts_exceeded_error)
        else ret (inr (shouldBeBlocked,
                       multierror_Append None [Some attempts_exceeded_error]))
    end
  else ret (inr (false, None)).

Definition verifySignIn (els : emailLinkSignIn) (id : loginID)
    (confirmationCode : string) : M (option error) :=
  pre <- over_budget_check els ;;
  match pre with
  | inl e => ret (Some e)
  | inr (shouldBeBlocked, mErr) =>
      if negb (bool_decide (ConfirmationCode els = confirmationCode)) || shouldBeBlocked
      then
        let shouldBeBlocked :=
          if ConfirmationCode_MaxWrongAttemptsCount cfg
             <=? wrap64 (ConfirmationCodeWrongAttemptsCount els + 1)
          then true else shouldBeBlocked in
        iErr <- increaseWrongConfirmationCodeAttemptsCount id shouldBeBlocked ;;
        let mErr :=
          match iErr with
          | Some _ =>
              multierror_Append mErr
                [errors_Wrapf iErr
                   "can't increment wrong confirmation code attempts count for email:%v,deviceUniqueID:%v"]
          | None => mErr
          end in
        let mErr :=
          multierror_Append mErr
            [errors_Wrapf (Some (Base ErrConfirmationCodeWrong)) "wrong confirmation code:%v"] in
        ret (ErrorOrNil mErr)
      else ret None
  end.

(** Lines 142-160 of [finishAuthProcess]: the metadata to write. The type
    assertion [firebaseID.(string)] panics on a claim that is not a string. *)
Definition metadata_to_update (userID : string) (md : option JSON) : outcome (error + JSON) :=
  let mdToUpdate : JSON := {[ auth_IceIDClaim cfg := JStr userID ]} in
  let md : JSON := default ∅ md in
  let merge (mdToUpdate : JSON) : outcome (error + JSON) :=
    match mergo_Merge ext mdToUpdate md with
    | inl err => Val (inl (Wrapf "failed to merge %#v and %v:%v" err))
    | inr merged => Val (inr merged)
    end in
  match md !! auth_RegisteredWithProviderClaim cfg with
  | Some _ => merge mdToUpdate
  | None =>
      match md !! auth_FirebaseIDClaim cfg with
      | None => merge mdToUpdate
      | Some (JStr firebaseID) =>
          if negb (strings_HasPrefix firebaseID (iceIDPrefix cfg))
             && negb (strings_HasPrefix userID (iceIDPrefix cfg))
          then merge (<[ auth_RegisteredWithProviderClaim cfg :=
                          JStr (auth_ProviderFirebase cfg) ]> mdToUpdate)
          else merge mdToUpdate
      | Some _ => Panicked "interface conversion: interface {} is not string"
      end
  end.

Definition finishAuthProcess (now : Z) (id : loginID) (userID : string)
    (issuedTokenSeq : Z) (emailConfirmed : bool) (md : option JSON)
  : M (Z * option error) :=
  m <- lift (metadata_to_update userID md) ;;
  match m with
  | inl err => ret (0, Some err)
  | inr mdToUpdate =>
      r <- storage_ExecOne
             (sql_finish_auth (id_Email id) now userID (id_DeviceUniqueID id)
                              issuedTokenSeq emailConfirmed mdToUpdate) ;;
      match r with
      | inl err =>
          if errors_Is err storage_ErrNotFound
          then ret (0, Some (Wrapf "[finishAuthProcess] No records were updated to finish: race condition"
                                   (Base ErrNoConfirmationRequired)))
          else ret (0, Some (Wrapf "failed to insert generated token data for:%#v" err))
      | inr updatedValue => ret (updatedValue, None)
      end
  end.

Definition resetLoginSession (id : loginID) (els : emailLinkSignIn)
    (prevConfirmationCode clientIP : string) (loginSessionNumber : Z)
  : M (option error) :=
  let refund :=
    if negb (bool_decide (clientIP = "")) && (0 <? loginSessionNumber)
    then Some (clientIP, loginSessionNumber) else None in
  '(_, err) <- storage_Exec
                 (sql_reset_login_session (UserID els) (id_Email id) (id_DeviceUniqueID id)
                    prevConfirmationCode (wrap64 (IssuedTokenSeq els + 1)) refund) ;;
  ret (errors_Wrapf err "failed to reset login session by id:%#v and confirmationCode:%v").

(** [signIn] writes [els.Email] through the pointer; the record as the
    caller sees it afterwards is returned next to the results. *)
Definition signIn (now : Z) (els : emailLinkSignIn) (id : loginID)
    (oldEmail notifyEmail confirmationCode : string)
  : M (emailLinkSignIn * (bool * Z * option error)) :=
  if match UserID els with
     | Some userID => bool_decide (ConfirmationCode els = userID)
     | None => false
     end
  then ret (els, (false, 0,
                  Some (Wrapf "tokens already provided for id:%#v" (Base ErrNoPendingLoginSession))))
  else
    vErr <- verifySignIn els id confirmationCode ;;
    match vErr with
    | Some e => ret (els, (false, 0, Some (Wrapf "can't verify sign in for id:%#v" e)))
    | None =>
        let modifies :=
          negb (bool_decide (oldEmail = ""))
          || match PhoneNumberToEmailMigrationUserID els with
             | Some m => negb (bool_decide (m = ""))
             | None => false
             end in
        step <-
          (if modifies
           then
             err <- ask (fun n _ => handleEmailModification ext n els (id_Email id)
                                      oldEmail notifyEmail) ;;
             match err with
             | Some e => ret (inl (Wrapf "failed to handle email modification:%v" e))
             | None => ret (inr (negb (bool_decide (oldEmail = "")),
                                 set_Email (id_Email id) els))
             end
           else ret (inr (false, els))) ;;
        match step with
        | inl e => ret (els, (false, 0, Some e))
        | inr (emailConfirmed, els) =>
            match UserID els with
            | None => panic "nil pointer dereference: *els.UserID"
            | Some userID =>
                '(issuedTokenSeq, fErr) <-
                   finishAuthProcess now id userID (IssuedTokenSeq els)
                                     emailConfirmed (Metadata els) ;;
                match fErr with
                | Some _ =>
                    mErr <-
                      (if negb (bool_decide (oldEmail = ""))
                       then
                         r1 <- ask (fun n _ => resetEmailModification ext n userID oldEmail) ;;
                         r2 <- ask (fun n _ => resetFirebaseEmailModification ext n
                                                 (Metadata els) oldEmail) ;;
                         ret (multierror_Append None
                                [errors_Wrapf r1 "[reset] resetEmailModification failed for email:%v";
                                 errors_Wrapf r2 "[reset] resetEmailModification failed for email:%v"])
                       else ret None) ;;
                    let mErr :=
                      multierror_Append mErr
                        [errors_Wrapf fErr "can't finish auth process for userID:%v,email:%v"] in
                    ret (els, (false, 0, ErrorOrNil mErr))
                | None => ret (els, (emailConfirmed, issuedTokenSeq, None))
                end
            end
        end
    end.

Definition SignIn (loginSession confirmationCode : string)
  : M (option Tokens * bool * option error) :=
  now <- time_Now ;;
  parsed <- ask (fun n _ => parseJwtToken ext n loginSession (EmailValidation_JwtSecret cfg)) ;;
  match parsed with
  | inl err => ret (None, false, Some (Wrapf "invalid login flow token:%v" err))
  | inr token =>
      let email := Subject token in
      let id := {| id_Email := email; id_DeviceUniqueID := tok_DeviceUniqueID token |} in
      found <- ask (fun n d => getEmailLinkSignInByPk ext n d id (OldEmail token)) ;;
      match found with
      | inl err =>
          if errors_Is err storage_ErrNotFound
          then ret (None, false,
                    Some (Wrapf "[getEmailLinkSignInByPk] no pending confirmation for email:%v"
                                (Base ErrNoConfirmationRequired)))
          else ret (None, false,
                    Some (Wrapf "failed to get user info by email:%v(old email:%v)" err))
      | inr els =>
          '(els, (emailConfirmed, issuedTokenSeq, err)) <-
             signIn now els id (OldEmail token) (NotifyEmail token) confirmationCode ;;
          match err with
          | Some e =>
              ret (None, false,
                   Some (Wrapf "can't sign in for email:%v, deviceUniqueID:%v" e))
          | None =>
              let els := set_TokenIssuedAt (Some now) els in
              generated <- ask (fun n _ => generateTokens ext n (TokenIssuedAt els) els
                                             issuedTokenSeq) ;;
              match generated with
              | inl e => ret (None, false, Some (Wrapf "can't generate tokens for id:%#v" e))
              | inr tokens =>
                  rErr <- resetLoginSession id els confirmationCode (ClientIP token)
                                            (LoginSessionNumber token) ;;
                  match rErr with
                  | Some e =>
                      ret (None, false,
                           Some (Wrapf "can't reset login session for id:%#v" e))
                  | None => ret (Some tokens, emailConfirmed, None)
                  end
              end
          end
      end
  end.

End Engine.

(** ** The status file: [Status] and its [resetLoginSession] *)

Module Polling.
Section Engine.

Variable cfg : Config.
Variable ext : Extern.

Definition resetLoginSession (id : loginID) (els : emailLinkSignIn)
    (prevConfirmationCode : string) : M (option error) :=
  '(_, err) <- storage_Exec ext
                 (sql_reset_login_session_otp (UserID els) (id_Email id)
                    (id_DeviceUniqueID id) (OTP els) prevConfirmationCode
                    (IssuedTokenSeq els)) ;;
  ret (errors_Wrapf err "failed to reset login session by id:%#v and confirmationCode:%v").

Definition Status (loginSession : string) : M (option Tokens * bool * option error) :=
  parsed <- ask (fun n _ => parseJwtToken ext n loginSession (LoginSession_JwtSecret cfg)) ;;
  match parsed with
  | inl err => ret (None, false, Some (Wrapf "can't parse login session:%v" err))
  | inr token =>
      let id := {| id_Email := Subject token; id_DeviceUniqueID := tok_DeviceUniqueID token |} in
      found <- ask (fun n d => getConfirmedEmailLinkSignIn ext n d id
                                 (tok_ConfirmationCode token)) ;;
      match found with
      | inl err =>
          if errors_Is err storage_ErrNotFound
          then ret (None, false,
                    Some (Wrapf "no pending login session:%v,id:%#v"
                                (Base ErrNoPendingLoginSession)))
          else ret (None, false,
                    Some (Wrapf "failed to get confirmed email link sign in for loginSession:%v,id:%#v"
                                err))
      | inr els =>
          match UserID els with
          | None =>
              ret (None, false, Some (Wrapf "not verified for id:%#v" (Base ErrStatusNotVerified)))
          | Some userID =>
              if negb (bool_decide (OTP els = userID))
              then ret (None, false,
                        Some (Wrapf "not verified for id:%#v" (Base ErrStatusNotVerified)))
              else if bool_decide (ConfirmationCode els = userID)
              then ret (None, false,
                        Some (Wrapf "tokens already provided for id:%#v"
                                    (Base ErrNoPendingLoginSession)))
              else
                generated <- ask (fun n _ => generateTokens ext n (TokenIssuedAt els) els
                                               (IssuedTokenSeq els)) ;;
                match generated with
                | inl e => ret (None, false, Some (Wrapf "can't generate tokens for id:%#v" e))
                | inr tokens =>
                    rErr <- resetLoginSession id els (tok_ConfirmationCode token) ;;
                    match rErr with
                    | Some e =>
                        ret (None, false,
                             Some (Wrapf "can't reset login session for id:%#v" e))
                    | None =>
                        ret (Some tokens,
                             match EmailConfirmedAt els with Some _ => true | None => false end,
                             None)
                    end
                end
          end
      end
  end.

End Engine.
End Polling.

(** ** The rate limiter's admit step *)

Module RateLimiter.

(** Modelled from the spec: the statement that counts an attempt belongs to
    the link-issuing file, which is not among the sources. Section 4.7:
    [admit(ip, loginSessionNumber) -> ok | fails(TooManyAttempts)], enforced
    by the check constraint of the DDL; a first attempt creates the row. *)
Definition sql_admit (ip : string) (loginSessionNumber : Z) : stmt Z :=
  fun d =>
    let n' := match sign_ins_per_ip d !! (loginSessionNumber, ip) with
              | None => 1
              | Some n => n + 1
              end in
    if in_bigint n' then
      if n' <=? 10
      then inr (1, set_per_ip (<[(loginSessionNumber, ip) := n']> (sign_ins_per_ip d)) d)
      else inl "sign_ins_per_ip_login_attempts_count"
    else inl "bigint out of range".

(** Modelled from the spec: the Go side of admit, which reports the
    rejected statement as [TooManyAttempts]. *)
Definition admit_attempt (ext : Extern) (ip : string) (loginSessionNumber : Z) : M (option error) :=
  '(_, err) <- storage_Exec ext (sql_admit ip loginSessionNumber) ;;
  ret (errors_Wrapf err "TooManyAttempts").

End RateLimiter.

(** ** Calls into the engine

    Every function of the shown files that writes, with arbitrary
    arguments, and the admit step. [exec] is the world after the call,
    whatever it returned. *)
Inductive call : Type :=
  | CallSignIn (loginSession confirmationCode : string)
  | CallStatus (loginSession : string)
  | CallSignInInner (now : Z) (els : emailLinkSignIn) (id : loginID)
      (oldEmail notifyEmail confirmationCode : string)
  | CallVerifySignIn (els : emailLinkSignIn) (id : loginID) (confirmationCode : string)
  | CallIncreaseAttempts (id : loginID) (shouldBeBlocked : bool)
  | CallFinishAuthProcess (now : Z) (id : loginID) (userID : string) (issuedTokenSeq : Z)
      (emailConfirmed : bool) (md : option JSON)
  | CallResetLoginSession (id : loginID) (els : emailLinkSignIn)
      (prevConfirmationCode clientIP : string) (loginSessionNumber : Z)
  | CallPollingReset (id : loginID) (els : emailLinkSignIn) (prevConfirmationCode : string)
  | CallAdmit (ip : string) (loginSessionNumber : Z).

Definition exec (cfg : Config) (ext : Extern) (c : call) (w : World) : World :=
  match c with
  | CallSignIn ls code => snd (SignIn cfg ext ls code w)
  | CallStatus ls => snd (Polling.Status cfg ext ls w)
  | CallSignInInner now els id o n code => snd (signIn cfg ext now els id o n code w)
  | CallVerifySignIn els id code => snd (verifySignIn cfg ext els id code w)
  | CallIncreaseAttempts id b => snd (increaseWrongConfirmationCodeAttemptsCount cfg ext id b w)
  | CallFinishAuthProcess now id u s ec md => snd (finishAuthProcess cfg ext now id u s ec md w)
  | CallResetLoginSession id els p ip n => snd (resetLoginSession ext id els p ip n w)
  | CallPollingReset id els p => snd (Polling.resetLoginSession ext id els p w)
  | CallAdmit ip n => snd (RateLimiter.admit_attempt ext ip n w)
  end.

Definition run (cfg : Config) (ext : Extern) (cs : list call) (w : World) : World :=
  fold_left (fun w c => exec cfg ext c w) cs w.

(** ** The read of [Status] *)

(** Modelled from the spec: the record that a read of the sign-in table
    yields for a row; the functions that read are not among the sources.
    The record carries the columns of the row, with the account's metadata;
    a NULL text column reads as the empty string. *)
Definition record_of_row (email : string) (md : option JSON) (r : Row) : emailLinkSignIn :=
  {| CreatedAt := Some (created_at r);
     TokenIssuedAt := token_issued_at r;
     BlockedUntil := blocked_until r;
     EmailConfirmedAt := email_confirmed_at r;
     UserID := user_id r;
     PhoneNumberToEmailMigrationUserID := phone_number_to_email_migration_user_id r;
     Metadata := md;
     Email := email;
     OTP := default "" (otp r);
     ConfirmationCode := default "" (confirmation_code r);
     IssuedTokenSeq := issued_token_seq r;
     ConfirmationCodeWrongAttemptsCount := confirmation_code_wrong_attempts_count r |}.

(** Modelled from the spec: [getConfirmedEmailLinkSignIn] is in a file that
    is not among the sources. Section 4.2:
    [getConfirmed(email, deviceID, code) -> SignInRecord | fails(NotFound)];
    [Status] passes it the confirmation code of its token. The read is
    keyed on the code: it finds the row of the key only if the row holds
    that confirmation code. *)
Definition getConfirmed (d : DB) (id : loginID) (confirmationCode : string)
  : error + emailLinkSignIn :=
  match email_link_sign_ins d !! (id_Email id, id_DeviceUniqueID id) with
  | None => inl (Base storage_ErrNotFound)
  | Some r =>
      if sql_eq_text (confirmation_code r) confirmationCode
      then inr (record_of_row (id_Email id)
                  match user_id r with
                  | Some u => account_metadata d !! u
                  | None => None
                  end r)
      else inl (Base storage_ErrNotFound)
  end.

(** ** Concrete configurations and records used by the examples *)

Module Demo.

Definition cfg : Config :=
  {| EmailValidation_JwtSecret := "email-secret";
     EmailValidation_BlockDuration := 600;
     LoginSession_JwtSecret := "session-secret";
     ConfirmationCode_MaxWrongAttemptsCount := 3;
     iceIDPrefix := "ice_";
     auth_IceIDClaim := "iceID";
     auth_RegisteredWithProviderClaim := "registeredWithProvider";
     auth_FirebaseIDClaim := "firebaseID";
     auth_ProviderFirebase := "firebase" |}.

Definition token : loginFlowToken :=
  {| Subject := "alice@x.com";
     tok_DeviceUniqueID := "D1";
     OldEmail := "";
     NotifyEmail := "";
     ClientIP := "10.0.0.1";
     LoginSessionNumber := 7;
     tok_ConfirmationCode := "123456" |}.

Definition id : loginID := {| id_Email := "alice@x.com"; id_DeviceUniqueID := "D1" |}.

(** A pending row: two wrong attempts so far, tokens issued five times. *)
Definition row : Row :=
  {| created_at := 100;
     token_issued_at := None;
     blocked_until := None;
     email_confirmed_at := Some 77;
     issued_token_seq := 5;
     previously_issued_token_seq := 4;
     confirmation_code_wrong_attempts_count := 2;
     confirmation_code := Some "123456";
     user_id := Some "u1";
     phone_number_to_email_migration_user_id := None;
     otp := Some "654321" |}.

(** The record as a read of [row] yields it. *)
Definition els : emailLinkSignIn :=
  {| CreatedAt := Some 100;
     TokenIssuedAt := None;
     BlockedUntil := None;
     EmailConfirmedAt := Some 77;
     UserID := Some "u1";
     PhoneNumberToEmailMigrationUserID := None;
     Metadata := None;
     Email := "alice@x.com";
     OTP := "654321";
     ConfirmationCode := "123456";
     IssuedTokenSeq := 5;
     ConfirmationCodeWrongAttemptsCount := 2 |}.

Definition with_UserID (u : option string) (e : emailLinkSignIn) : emailLinkSignIn :=
  {| CreatedAt := CreatedAt e; TokenIssuedAt := TokenIssuedAt e;
     BlockedUntil := BlockedUntil e; EmailConfirmedAt := EmailConfirmedAt e;
     UserID := u;
     PhoneNumberToEmailMigrationUserID := PhoneNumberToEmailMigrationUserID e;
     Metadata := Metadata e; Email := Email e; OTP := OTP e;
     ConfirmationCode := ConfirmationCode e; IssuedTokenSeq := IssuedTokenSeq e;
     ConfirmationCodeWrongAttemptsCount := ConfirmationCodeWrongAttemptsCount e |}.

Definition with_ConfirmationCode (c : string) (e : emailLinkSignIn) : emailLinkSignIn :=
  {| CreatedAt := CreatedAt e; TokenIssuedAt := TokenIssuedAt e;
     BlockedUntil := BlockedUntil e; EmailConfirmedAt := EmailConfirmedAt e;
     UserID := UserID e;
     PhoneNumberToEmailMigrationUserID := PhoneNumberToEmailMigrationUserID e;
     Metadata := Metadata e; Email := Email e; OTP := OTP e;
     ConfirmationCode := c; IssuedTokenSeq := IssuedTokenSeq e;
     ConfirmationCodeWrongAttemptsCount := ConfirmationCodeWrongAttemptsCount e |}.

Definition with_block (count : Z) (blockedUntil : option Z) (e : emailLinkSignIn)
  : emailLinkSignIn :=
  {| CreatedAt := CreatedAt e; TokenIssuedAt := TokenIssuedAt e;
     BlockedUntil := blockedUntil; EmailConfirmedAt := EmailConfirmedAt e;
     UserID := UserID e;
     PhoneNumberToEmailMigrationUserID := PhoneNumberToEmailMigrationUserID e;
     Metadata := Metadata e; Email := Email e; OTP := OTP e;
     ConfirmationCode := ConfirmationCode e; IssuedTokenSeq := IssuedTokenSeq e;
     ConfirmationCodeWrongAttemptsCount := count |}.

Definition tables : DB :=
  {| email_link_sign_ins := {[ ("alice@x.com", "D1") := row ]};
     account_metadata := ∅;
     sign_ins_per_ip := {[ (7, "10.0.0.1") := 1 ]} |}.

Definition world : World := {| db := tables; calls := 0 |}.

(** Collaborators that always succeed: the clock advances by one per
    reading, mergo lets the stored claims override the fresh ones, the
    reads return [els]. *)
Definition ext : Extern :=
  {| wall := fun n => 1000 + Z.of_nat n;
     fault := fun _ => None;
     mergo_Merge := fun dst src => inr (src ∪ dst);
     parseJwtToken := fun _ _ _ => inr token;
     getEmailLinkSignInByPk := fun _ _ _ _ => inr els;
     getConfirmedEmailLinkSignIn := fun _ _ _ _ => inr els;
     handleEmailModification := fun _ _ _ _ _ => None;
     resetEmailModification := fun _ _ _ => None;
     resetFirebaseEmailModification := fun _ _ _ => None;
     generateTokens := fun _ _ _ _ =>
       inr {| RefreshToken := "refresh"; AccessToken := "access" |} |}.

(** The same collaborators, with both reads returning [e]. *)
Definition with_reads (e : emailLinkSignIn) (x : Extern) : Extern :=
  {| wall := wall x;
     fault := fault x;
     mergo_Merge := mergo_Merge x;
     parseJwtToken := parseJwtToken x;
     getEmailLinkSignInByPk := fun _ _ _ _ => inr e;
     getConfirmedEmailLinkSignIn := fun _ _ _ _ => inr e;
     handleEmailModification := handleEmailModification x;
     resetEmailModification := resetEmailModification x;
     resetFirebaseEmailModification := resetFirebaseEmailModification x;
     generateTokens := generateTokens x |}.

(** A consumed record: the confirmation code has been rewritten to the
    user id. Its OTP is still the polling secret. *)
Definition consumed : emailLinkSignIn := with_ConfirmationCode "u1" els.

(** The same collaborators, with every statement failing in transit. *)
Definition ext_storage_down : Extern :=
  {| wall := wall ext;
     fault := fun _ => Some "connection reset";
     mergo_Merge := mergo_Merge ext;
     parseJwtToken := parseJwtToken ext;
     getEmailLinkSignInByPk := getEmailLinkSignInByPk ext;
     getConfirmedEmailLinkSignIn := getConfirmedEmailLinkSignIn ext;
     handleEmailModification := handleEmailModification ext;
     resetEmailModification := resetEmailModification ext;
     resetFirebaseEmailModification := resetFirebaseEmailModification ext;
     generateTokens := generateTokens ext |}.

(** The same collaborators, with the email modification failing. *)
Definition ext_migration_fails : Extern :=
  {| wall := wall ext;
     fault := fault ext;
     mergo_Merge := mergo_Merge ext;
     parseJwtToken := parseJwtToken ext;
     getEmailLinkSignInByPk := getEmailLinkSignInByPk ext;
     getConfirmedEmailLinkSignIn := getConfirmedEmailLinkSignIn ext;
     handleEmailModification := fun _ _ _ _ _ => Some (Base (Opaque "modify user failed"));
     resetEmailModification := resetEmailModification ext;
     resetFirebaseEmailModification := resetFirebaseEmailModification ext;
     generateTokens := generateTokens ext |}.

(** The same collaborators, with both reversions of the email modification
    failing. *)
Definition ext_reversions_fail : Extern :=
  {| wall := wall ext;
     fault := fault ext;
     mergo_Merge := mergo_Merge ext;
     parseJwtToken := parseJwtToken ext;
     getEmailLinkSignInByPk := getEmailLinkSignInByPk ext;
     getConfirmedEmailLinkSignIn := getConfirmedEmailLinkSignIn ext;
     handleEmailModification := handleEmailModification ext;
     resetEmailModification := fun _ _ _ => Some (Base (Opaque "revert failed"));
     resetFirebaseEmailModification := fun _ _ _ => Some (Base (Opaque "firebase revert failed"));
     generateTokens := generateTokens ext |}.

(** A world in which the row has gone: every [finishAuthProcess] loses. *)
Definition empty_world : World :=
  {| db := {| email_link_sign_ins := ∅; account_metadata := ∅; sign_ins_per_ip := ∅ |};
     calls := 0 |}.

(** The row of the examples after three wrong attempts, blocked until 500,
    and a world that holds it. *)
Definition blocked_row : Row :=
  {| created_at := 100;
     token_issued_at := None;
     blocked_until := Some 500;
     email_confirmed_at := Some 77;
     issued_token_seq := 5;
     previously_issued_token_seq := 4;
     confirmation_code_wrong_attempts_count := 3;
     confirmation_code := Some "123456";
     user_id := Some "u1";
     phone_number_to_email_migration_user_id := None;
     otp := Some "654321" |}.

Definition blocked_world : World :=
  {| db := {| email_link_sign_ins := {[ ("alice@x.com", "D1") := blocked_row ]};
              account_metadata := ∅;
              sign_ins_per_ip := ∅ |};
     calls := 0 |}.

(** A read that copies the row of the key into the record, with the
    account's metadata; NULL text columns read as the empty string. The
    examples use it where a call has to see what the previous one wrote. *)
Definition read_row (d : DB) (i : loginID) : error + emailLinkSignIn :=
  match email_link_sign_ins d !! (id_Email i, id_DeviceUniqueID i) with
  | None => inl (Base storage_ErrNotFound)
  | Some r =>
      inr {| CreatedAt := Some (created_at r);
             TokenIssuedAt := token_issued_at r;
             BlockedUntil := blocked_until r;
             EmailConfirmedAt := email_confirmed_at r;
             UserID := user_id r;
             PhoneNumberToEmailMigrationUserID := phone_number_to_email_migration_user_id r;
             Metadata := match user_id r with
                         | Some u => account_metadata d !! u
                         | None => None
                         end;
             Email := id_Email i;
             OTP := default "" (otp r);
             ConfirmationCode := default "" (confirmation_code r);
             IssuedTokenSeq := issued_token_seq r;
             ConfirmationCodeWrongAttemptsCount := confirmation_code_wrong_attempts_count r |}
  end.

Definition ext_live : Extern :=
  {| wall := wall ext;
     fault := fault ext;
     mergo_Merge := mergo_Merge ext;
     parseJwtToken := parseJwtToken ext;
     getEmailLinkSignInByPk := fun _ d i _ => read_row d i;
     getConfirmedEmailLinkSignIn := fun _ d i _ => read_row d i;
     handleEmailModification := handleEmailModification ext;
     resetEmailModification := resetEmailModification ext;
     resetFirebaseEmailModification := resetFirebaseEmailModification ext;
     generateTokens := generateTokens ext |}.

(** A row just created by a link request, and a world that holds it. *)
Definition fresh_row : Row :=
  {| created_at := 100;
     token_issued_at := None;
     blocked_until := None;
     email_confirmed_at := None;
     issued_token_seq := 0;
     previously_issued_token_seq := 0;
     confirmation_code_wrong_attempts_count := 0;
     confirmation_code := Some "123456";
     user_id := Some "u1";
     phone_number_to_email_migration_user_id := None;
     otp := Some "654321" |}.

Definition fresh_world : World :=
  {| db := {| email_link_sign_ins := {[ ("alice@x.com", "D1") := fresh_row ]};
              account_metadata := ∅;
              sign_ins_per_ip := {[ (7, "10.0.0.1") := 1 ]} |};
     calls := 0 |}.

(** A record verified through the link, as [Status] reads it: the OTP has
    become the user id, the confirmation code is still the emailed one; and
    a world whose row is in that state. *)
Definition verified : emailLinkSignIn :=
  {| CreatedAt := Some 100;
     TokenIssuedAt := Some 900;
     BlockedUntil := None;
     EmailConfirmedAt := Some 900;
     UserID := Some "u1";
     PhoneNumberToEmailMigrationUserID := None;
     Metadata := None;
     Email := "alice@x.com";
     OTP := "u1";
     ConfirmationCode := "123456";
     IssuedTokenSeq := 6;
     ConfirmationCodeWrongAttemptsCount := 0 |}.

Definition verified_row : Row :=
  {| created_at := 100;
     token_issued_at := Some 900;
     blocked_until := None;
     email_confirmed_at := Some 900;
     issued_token_seq := 6;
     previously_issued_token_seq := 6;
     confirmation_code_wrong_attempts_count := 0;
     confirmation_code := Some "123456";
     user_id := Some "u1";
     phone_number_to_email_migration_user_id := None;
     otp := Some "u1" |}.

Definition verified_world : World :=
  {| db := {| email_link_sign_ins := {[ ("alice@x.com", "D1") := verified_row ]};
              account_metadata := ∅;
              sign_ins_per_ip := ∅ |};
     calls := 0 |}.

(** A world whose row carries the largest sequence number. *)
Definition saturated_row : Row :=
  {| created_at := 100;
     token_issued_at := None;
     blocked_until := None;
     email_confirmed_at := None;
     issued_token_seq := max_int64;
     previously_issued_token_seq := max_int64;
     confirmation_code_wrong_attempts_count := 0;
     confirmation_code := Some "123456";
     user_id := Some "u1";
     phone_number_to_email_migration_user_id := None;
     otp := Some "654321" |}.

Definition saturated_world : World :=
  {| db := {| email_link_sign_ins := {[ ("alice@x.com", "D1") := saturated_row ]};
              account_metadata := ∅;
              sign_ins_per_ip := ∅ |};
     calls := 0 |}.

(** The record of the examples as [finishAuthProcess] leaves it in memory
    for [resetLoginSession]: the sequence is still the one read. *)
Definition finished_world : World :=
  {| db := {| email_link_sign_ins :=
                {[ ("alice@x.com", "D1") := finish_row 1000 "u1" false row ]};
              account_metadata := ∅;
              sign_ins_per_ip := {[ (7, "10.0.0.1") := 1 ]} |};
     calls := 0 |}.

(** The collaborators of [ext_live], with the read of [Status] keyed on
    the code of the token. *)
Definition ext_keyed : Extern :=
  {| wall := wall ext;
     fault := fault ext;
     mergo_Merge := mergo_Merge ext;
     parseJwtToken := parseJwtToken ext;
     getEmailLinkSignInByPk := fun _ d i _ => read_row d i;
     getConfirmedEmailLinkSignIn := fun _ d i c => getConfirmed d i c;
     handleEmailModification := handleEmailModification ext;
     resetEmailModification := resetEmailModification ext;
     resetFirebaseEmailModification := resetFirebaseEmailModification ext;
     generateTokens := generateTokens ext |}.

(** The fresh row after a sign-in with its code at the reading 1000: the
    confirmation code is the user id, the OTP is still the polling secret. *)
Definition consumed_row : Row :=
  with_confirmation_code (Some "u1") (finish_row 1000 "u1" false fresh_row).

Definition consumed_world : World :=
  {| db := {| email_link_sign_ins := {[ ("alice@x.com", "D1") := consumed_row ]};
              account_metadata := {[ "u1" := ({[ "iceID" := JStr "u1" ]} : JSON) ]};
              sign_ins_per_ip := {[ (7, "10.0.0.1") := 0 ]} |};
     calls := 0 |}.

(** The world after three sign-in attempts with a wrong code. *)
Definition after_three_wrong_codes : World :=
  run cfg ext_live (repeat (CallSignIn "token" "000000") 3) fresh_world.

End Demo.

(** ** Predicates of the properties *)

(** [stmt_keeps R s]: a statement that is carried out leaves tables that
    are [R]-related to the ones it found. [keeps R m]: the same for a
    function of the engine, whatever it returns. *)
Definition stmt_keeps (R : DB -> DB -> Prop) {A : Type} (s : stmt A) : Prop :=
  forall d a d', s d = inr (a, d') -> R d d'.

Definition keeps (R : DB -> DB -> Prop) {A : Type} (m : M A) : Prop :=
  forall w, R (db w) (db (snd (m w))).

Definition ip_ok (d : DB) : Prop :=
  map_Forall (fun _ (n : Z) => 0 <= n <= 10) (sign_ins_per_ip d).

Definition ip_kept (d d' : DB) : Prop := ip_ok d -> ip_ok d'.

(** The columns of the blocking policy never move backwards: the counter
    does not decrease, [created_at] is fixed, a block once set stays set. *)
Definition row_le (r r' : Row) : Prop :=
  confirmation_code_wrong_attempts_count r <= confirmation_code_wrong_attempts_count r'
  /\ created_at r' = created_at r
  /\ (is_Some (blocked_until r) -> is_Some (blocked_until r')).

Definition rows_grow (d d' : DB) : Prop :=
  forall k r,
    email_link_sign_ins d !! k = Some r ->
    exists r', email_link_sign_ins d' !! k = Some r' /\ row_le r r'.

(** The record in memory carries the blocking columns of the row. *)
Definition reads_block_state (els : emailLinkSignIn) (r : Row) : Prop :=
  CreatedAt els = Some (created_at r)
  /\ BlockedUntil els = blocked_until r
  /\ ConfirmationCodeWrongAttemptsCount els = confirmation_code_wrong_attempts_count r.

Definition race_lost_error : error :=
  Wrapf "[finishAuthProcess] No records were updated to finish: race condition"
        (Base ErrNoConfirmationRequired).

Definition storage_failure (msg : string) : error :=
  Wrapf "failed to insert generated token data for:%#v" (Base (Opaque msg)).

Definition tokens_already_provided : error :=
  Wrapf "tokens already provided for id:%#v" (Base ErrNoPendingLoginSession).

Definition wrong_code_error : error :=
  Wrapf "wrong confirmation code:%v" (Base ErrConfirmationCodeWrong).

(** The condition of [signIn] under which the email-migration step runs. *)
Definition email_modification_due (els : emailLinkSignIn) (oldEmail : string) : bool :=
  negb (bool_decide (oldEmail = ""))
  || match PhoneNumberToEmailMigrationUserID els with
     | Some m => negb (bool_decide (m = ""))
     | None => false
     end.

(** The members of the multierror that [signIn] builds when
    [finishAuthProcess] fails in a flow with an old email: the two
    reversions, each present when it failed, then the failure of
    [finishAuthProcess]. *)
Definition finalize_failure_causes (r1 r2 : option error) (fErr : error) : list error :=
  (flatten1 (errors_Wrapf r1 "[reset] resetEmailModification failed for email:%v")
   ++ flatten1 (errors_Wrapf r2 "[reset] resetEmailModification failed for email:%v")
   ++ [Wrapf "can't finish auth process for userID:%v,email:%v" fErr])%list.

(** Eleven admissions and two refunds on the row of [Demo.world]. *)
Definition admit_refund_calls : list call :=
  (repeat (CallAdmit "10.0.0.1" 7) 11
   ++ repeat (CallResetLoginSession Demo.id Demo.els "123456" "10.0.0.1" 7) 2)%list.

(** The second [if] of [verifySignIn] when it is entered with
    [shouldBeBlocked] and the members [mErr] collected so far: the
    increment is sent, blocking if the incremented counter reaches the
    limit, and the wrong-code error closes the multierror. *)
Definition count_wrong_attempt (cfg : Config) (ext : Extern) (els : emailLinkSignIn)
    (id : loginID) (shouldBeBlocked : bool) (mErr : list error) : M (option error) :=
  fun w =>
    let b := if ConfirmationCode_MaxWrongAttemptsCount cfg
                <=? wrap64 (ConfirmationCodeWrongAttemptsCount els + 1)
             then true else shouldBeBlocked in
    match increaseWrongConfirmationCodeAttemptsCount cfg ext id b w with
    | (Val iErr, w') =>
        (Val (Some (Multi ((mErr
                            ++ match iErr with
                               | Some e =>
                                   [Wrapf "can't increment wrong confirmation code attempts count for email:%v,deviceUniqueID:%v" e]
                               | None => []
                               end)
                           ++ [wrong_code_error])%list)),
         w')
    | (Panicked why, w') => (Panicked why, w')
    end.

(** [rows_related P d d']: the sign-in table of [d'] has the keys of the
    one of [d], and each row is [P]-related to what it was. *)
Definition rows_related (P : Row -> Row -> Prop) (d d' : DB) : Prop :=
  (forall k r, email_link_sign_ins d !! k = Some r ->
               exists r', email_link_sign_ins d' !! k = Some r' /\ P r r')
  /\ (forall k, email_link_sign_ins d !! k = None -> email_link_sign_ins d' !! k = None).

(** The token sequence of a row does not go back, the previous sequence
    does not overtake it, and a user id once set stays set. *)
Definition seq_le (r r' : Row) : Prop :=
  issued_token_seq r <= issued_token_seq r'
  /\ (previously_issued_token_seq r <= issued_token_seq r ->
      previously_issued_token_seq r' <= issued_token_seq r')
  /\ (is_Some (user_id r) -> is_Some (user_id r')).

(** * Properties *)

(** ** Errors *)

Lemma errors_Is_Wrapf (msg : string) (e : error) (s : sentinel) :
  errors_Is (Wrapf msg e) s = errors_Is e s.
Proof. reflexivity. Qed.

Lemma errors_Is_Base (s t : sentinel) :
  errors_Is (Base s) t = bool_decide (s = t).
Proof. reflexivity. Qed.

Lemma errors_Is_Multi_app (xs ys : list error) (s : sentinel) :
  errors_Is (Multi (xs ++ ys)%list) s = errors_Is (Multi xs) s || errors_Is (Multi ys) s.
Proof. cbn [errors_Is]. apply existsb_app. Qed.

Lemma wrap64_id (z : Z) : min_int64 <= z <= max_int64 -> wrap64 z = z.
Proof.
  unfold min_int64, max_int64, wrap64. intros H.
  rewrite Z.mod_small by lia. lia.
Qed.

(** ** What a call can do to the tables

    For a reflexive and transitive [R] that every statement respects, every
    function of the engine respects it. *)

Section Frame.

Variable cfg : Config.
Variable ext : Extern.
Variable R : DB -> DB -> Prop.
Hypothesis R_refl : forall d, R d d.
Hypothesis R_trans : forall a b c, R a b -> R b c -> R a c.

Lemma keeps_ret {A : Type} (a : A) : keeps R (ret a).
Proof. intros w. apply R_refl. Qed.

Lemma keeps_panic {A : Type} (why : string) : keeps R (@panic A why).
Proof. intros w. apply R_refl. Qed.

Lemma keeps_lift {A : Type} (o : outcome A) : keeps R (lift o).
Proof. intros w. apply R_refl. Qed.

Lemma keeps_ask {A : Type} (f : nat -> DB -> A) : keeps R (ask f).
Proof. intros w. apply R_refl. Qed.

Lemma keeps_time_Now : keeps R (time_Now ext).
Proof. intros w. apply R_refl. Qed.

Lemma keeps_bind {A B : Type} (m : M A) (k : A -> M B) :
  keeps R m -> (forall a, keeps R (k a)) -> keeps R (bind m k).
Proof.
  intros Hm Hk w. unfold bind.
  specialize (Hm w). destruct (m w) as [[a|why] w1]; cbn [snd] in *.
  - eapply R_trans; [exact Hm | apply Hk].
  - exact Hm.
Qed.

Lemma keeps_run_stmt {A : Type} (s : stmt A) : stmt_keeps R s -> keeps R (run_stmt ext s).
Proof.
  intros Hs w. unfold run_stmt.
  destruct (fault ext (calls w)); [apply R_refl|].
  destruct (s (db w)) as [msg|[a d]] eqn:E; [apply R_refl|].
  cbn. eapply Hs, E.
Qed.

Lemma keeps_storage_Exec (s : stmt Z) : stmt_keeps R s -> keeps R (storage_Exec ext s).
Proof.
  intros Hs. unfold storage_Exec.
  apply keeps_bind; [apply keeps_run_stmt, Hs | intros; apply keeps_ret].
Qed.

Lemma keeps_storage_ExecOne {A : Type} (s : stmt (option A)) :
  stmt_keeps R s -> keeps R (storage_ExecOne ext s).
Proof.
  intros Hs. unfold storage_ExecOne.
  apply keeps_bind; [apply keeps_run_stmt, Hs | intros; apply keeps_ret].
Qed.

Hypothesis increase_keeps : forall e dv b, stmt_keeps R (sql_increase_attempts e dv b).
Hypothesis finish_keeps :
  forall e now u dv s ec md, stmt_keeps R (sql_finish_auth e now u dv s ec md).
Hypothesis reset_keeps :
  forall u e dv p s rf, stmt_keeps R (sql_reset_login_session u e dv p s rf).
Hypothesis reset_otp_keeps :
  forall u e dv o p s, stmt_keeps R (sql_reset_login_session_otp u e dv o p s).
Hypothesis admit_keeps : forall ip n, stmt_keeps R (RateLimiter.sql_admit ip n).

Ltac keeps_step :=
  first
    [ apply keeps_ret | apply keeps_panic | apply keeps_ask | apply keeps_time_Now
    | apply keeps_storage_Exec | apply keeps_storage_ExecOne
    | apply increase_keeps | apply finish_keeps | apply reset_keeps
    | apply reset_otp_keeps | apply admit_keeps
    | assumption
    | apply keeps_bind; [ | intros ? ]
    | match goal with
      | |- keeps _ (match ?x with _ => _ end) => destruct x
      | |- keeps _ (if ?x then _ else _) => destruct x
      end
    | progress cbv zeta ].

Ltac keeps_tac := repeat keeps_step.

Lemma keeps_increase (id : loginID) (b : bool) :
  keeps R (increaseWrongConfirmationCodeAttemptsCount cfg ext id b).
Proof. unfold increaseWrongConfirmationCodeAttemptsCount. keeps_tac. Qed.

Lemma keeps_over_budget_check (els : emailLinkSignIn) :
  keeps R (over_budget_check cfg ext els).
Proof. unfold over_budget_check. keeps_tac. Qed.

Lemma keeps_verifySignIn (els : emailLinkSignIn) (id : loginID) (code : string) :
  keeps R (verifySignIn cfg ext els id code).
Proof.
  unfold verifySignIn.
  pose proof keeps_over_budget_check. pose proof keeps_increase.
  apply keeps_bind; [auto|]. intros [e|[b mErr]]; [apply keeps_ret|].
  match goal with |- keeps _ (if ?c then _ else _) => destruct c end;
    [|apply keeps_ret].
  cbv zeta. apply keeps_bind; [auto|]. intros; apply keeps_ret.
Qed.


Lemma keeps_finishAuthProcess (now : Z) (id : loginID) (userID : string) (seq : Z)
    (ec : bool) (md : option JSON) :
  keeps R (finishAuthProcess cfg ext now id userID seq ec md).
Proof.
  unfold finishAuthProcess.
  apply keeps_bind; [apply keeps_lift|]. intros [e|m]; keeps_tac.
Qed.

Lemma keeps_resetLoginSession (id : loginID) (els : emailLinkSignIn)
    (prev ip : string) (n : Z) :
  keeps R (resetLoginSession ext id els prev ip n).
Proof. unfold resetLoginSession. keeps_tac. Qed.

Lemma keeps_signIn (now : Z) (els : emailLinkSignIn) (id : loginID)
    (oldEmail notifyEmail code : string) :
  keeps R (signIn cfg ext now els id oldEmail notifyEmail code).
Proof.
  unfold signIn.
  pose proof keeps_verifySignIn. pose proof keeps_finishAuthProcess.
  match goal with |- keeps _ (if ?c then _ else _) => destruct c end;
    [apply keeps_ret|].
  apply keeps_bind; [auto|]. intros [e|]; [apply keeps_ret|].
  cbv zeta. apply keeps_bind; [keeps_tac|].
  intros [e|[ec els']]; [apply keeps_ret|].
  destruct (UserID els'); [|apply keeps_panic].
  apply keeps_bind; [auto|]. intros [sq fErr]. keeps_tac.
Qed.

Lemma keeps_SignIn (loginSession code : string) :
  keeps R (SignIn cfg ext loginSession code).
Proof.
  unfold SignIn. pose proof keeps_signIn. pose proof keeps_resetLoginSession.
  apply keeps_bind; [apply keeps_time_Now|]. intros now.
  apply keeps_bind; [apply keeps_ask|]. intros [e|token]; [apply keeps_ret|].
  cbv zeta. apply keeps_bind; [apply keeps_ask|]. intros [e|els]; [keeps_tac|].
  apply keeps_bind; [auto|]. intros [els' [[ec sq] err]].
  destruct err; [apply keeps_ret|].
  apply keeps_bind; [apply keeps_ask|]. intros [e|tokens]; [apply keeps_ret|].
  apply keeps_bind; [auto|]. intros; keeps_tac.
Qed.

Lemma keeps_Polling_resetLoginSession (id : loginID) (els : emailLinkSignIn)
    (prev : string) :
  keeps R (Polling.resetLoginSession ext id els prev).
Proof. unfold Polling.resetLoginSession. keeps_tac. Qed.

Lemma keeps_Status (loginSession : string) :
  keeps R (Polling.Status cfg ext loginSession).
Proof.
  unfold Polling.Status. pose proof keeps_Polling_resetLoginSession.
  apply keeps_bind; [apply keeps_ask|]. intros [e|token]; [apply keeps_ret|].
  cbv zeta. apply keeps_bind; [apply keeps_ask|]. intros [e|els]; [keeps_tac|].
  destruct (UserID els); [|apply keeps_ret].
  repeat match goal with |- keeps _ (if ?c then _ else _) => destruct c end;
    try apply keeps_ret.
  apply keeps_bind; [apply keeps_ask|]. intros [e|tokens]; [apply keeps_ret|].
  apply keeps_bind; [auto|]. intros; keeps_tac.
Qed.

Lemma keeps_admit (ip : string) (n : Z) : keeps R (RateLimiter.admit_attempt ext ip n).
Proof. unfold RateLimiter.admit_attempt. keeps_tac. Qed.

Lemma exec_keeps (c : call) (w : World) : R (db w) (db (exec cfg ext c w)).
Proof.
  destruct c; cbn [exec].
  - apply keeps_SignIn.
  - apply keeps_Status.
  - apply keeps_signIn.
  - apply keeps_verifySignIn.
  - apply keeps_increase.
  - apply keeps_finishAuthProcess.
  - apply keeps_resetLoginSession.
  - apply keeps_Polling_resetLoginSession.
  - apply keeps_admit.
Qed.

Lemma run_keeps (cs : list call) (w : World) : R (db w) (db (run cfg ext cs w)).
Proof.
  revert w. induction cs as [|c cs IH]; intros w; cbn.
  - apply R_refl.
  - eapply R_trans; [apply exec_keeps | apply IH].
Qed.

End Frame.

(** ** The per-IP attempt counter *)

Lemma ip_kept_refl (d : DB) : ip_kept d d.
Proof. intros H; exact H. Qed.

Lemma ip_kept_trans (a b c : DB) : ip_kept a b -> ip_kept b c -> ip_kept a c.
Proof. unfold ip_kept; auto. Qed.

Lemma ip_kept_same (d d' : DB) : sign_ins_per_ip d' = sign_ins_per_ip d -> ip_kept d d'.
Proof. intros E H. unfold ip_ok. rewrite E. exact H. Qed.

Lemma increase_ip_kept (e dv : string) (b : option Z) :
  stmt_keeps ip_kept (sql_increase_attempts e dv b).
Proof.
  intros d a d'. unfold sql_increase_attempts.
  destruct (email_link_sign_ins d !! (e, dv)) as [r|].
  - destruct (in_bigint _); [|discriminate].
    intros [= _ <-]. apply ip_kept_same. reflexivity.
  - intros [= _ <-]. apply ip_kept_refl.
Qed.

Lemma finish_ip_kept (e : string) (now : Z) (u dv : string) (s : Z) (ec : bool) (md : JSON) :
  stmt_keeps ip_kept (sql_finish_auth e now u dv s ec md).
Proof.
  intros d a d'. unfold sql_finish_auth. cbv zeta.
  destruct (email_link_sign_ins d !! (e, dv)) as [r|].
  - destruct (bool_decide _).
    + destruct (in_bigint _); [|discriminate].
      intros [= _ <-]. apply ip_kept_same. reflexivity.
    + intros [= _ <-]. apply ip_kept_same. reflexivity.
  - intros [= _ <-]. apply ip_kept_same. reflexivity.
Qed.

(** The refund itself: [GREATEST(n - 1, 0)] under the check constraint. *)
Lemma sql_decrement_ip_bounds (ip : string) (n : Z) (t t' : gmap (Z * string) Z) :
  sql_decrement_ip ip n t = inr t' ->
  map_Forall (fun _ (v : Z) => 0 <= v <= 10) t ->
  map_Forall (fun _ (v : Z) => 0 <= v <= 10) t'.
Proof.
  unfold sql_decrement_ip.
  destruct (t !! (n, ip)) as [v|] eqn:E.
  - destruct (in_bigint _); [|discriminate].
    destruct (Z.leb_spec (Z.max (v - 1) 0) 10) as [Hle|]; [|discriminate].
    intros [= <-] Hall. apply map_Forall_insert_2; [lia | exact Hall].
  - intros [= <-] Hall. exact Hall.
Qed.

Lemma reset_ip_kept (u : option string) (e dv p : string) (s : Z) (rf : option (string * Z)) :
  stmt_keeps ip_kept (sql_reset_login_session u e dv p s rf).
Proof.
  intros d a d'. unfold sql_reset_login_session.
  destruct (match rf with
            | Some (ip, n) => sql_decrement_ip ip n (sign_ins_per_ip d)
            | None => inr (sign_ins_per_ip d)
            end) as [msg|ips] eqn:E; [discriminate|].
  assert (Hips : ip_ok d -> map_Forall (fun _ (v : Z) => 0 <= v <= 10) ips).
  { destruct rf as [[ip n]|].
    - intros H. eapply sql_decrement_ip_bounds; [exact E | exact H].
    - injection E as <-. auto. }
  cbv zeta.
  destruct (email_link_sign_ins d !! (e, dv)) as [r|];
    [destruct (_ && _)|]; intros [= _ <-]; exact Hips.
Qed.

Lemma reset_otp_ip_kept (u : option string) (e dv o p : string) (s : Z) :
  stmt_keeps ip_kept (sql_reset_login_session_otp u e dv o p s).
Proof.
  intros d a d'. unfold sql_reset_login_session_otp.
  destruct (email_link_sign_ins d !! (e, dv)) as [r|];
    [destruct (_ && _)|]; intros [= _ <-];
    first [apply ip_kept_refl | apply ip_kept_same; reflexivity].
Qed.

Lemma admit_ip_kept (ip : string) (n : Z) :
  stmt_keeps ip_kept (RateLimiter.sql_admit ip n).
Proof.
  intros d a d'. unfold RateLimiter.sql_admit. cbv zeta.
  destruct (in_bigint _); [|discriminate].
  destruct (Z.leb_spec (match sign_ins_per_ip d !! (n, ip) with
                        | Some v => v + 1
                        | None => 1
                        end) 10) as [Hle|]; [|discriminate].
  intros [= _ <-] H. unfold ip_ok. cbn.
  apply map_Forall_insert_2; [|exact H].
  destruct (sign_ins_per_ip d !! (n, ip)) as [v|] eqn:E; [|lia].
  pose proof (map_Forall_lookup_1 _ _ _ _ H E) as Hv. cbn in Hv. lia.
Qed.

(** C6. Whatever sequence of calls is run (admissions, the refunds of
    [resetLoginSession], and every other function of the engine, with any
    arguments and any storage failures), every [login_attempts] counter that
    was within 0..10 is still within 0..10. *)
Theorem login_attempts_stay_within_0_10 (cfg : Config) (ext : Extern)
    (cs : list call) (w : World) :
  ip_ok (db w) -> ip_ok (db (run cfg ext cs w)).
Proof.
  apply (run_keeps cfg ext ip_kept ip_kept_refl ip_kept_trans
           increase_ip_kept finish_ip_kept reset_ip_kept reset_otp_ip_kept admit_ip_kept).
Qed.

Lemma login_attempts_stay_within_0_10_witness :
  ip_ok (db Demo.world)
  /\ ip_ok (db (run Demo.cfg Demo.ext admit_refund_calls Demo.world)).
Proof.
  assert (H : ip_ok (db Demo.world)).
  { apply map_Forall_singleton. lia. }
  split; [exact H|].
  apply (login_attempts_stay_within_0_10 Demo.cfg Demo.ext admit_refund_calls Demo.world H).
Defined.

(** The cap is reached and held: after eleven admissions the counter is 10,
    and the two refunds bring it to 8. *)
Example admit_refund_counter :
  sign_ins_per_ip (db (run Demo.cfg Demo.ext (repeat (CallAdmit "10.0.0.1" 7) 11) Demo.world))
    !! (7, "10.0.0.1") = Some 10
  /\ sign_ins_per_ip (db (run Demo.cfg Demo.ext admit_refund_calls Demo.world))
       !! (7, "10.0.0.1") = Some 8.
Proof. split; vm_compute; reflexivity. Qed.

(** ** [finishAuthProcess] *)

(** The function, case by case. *)
Lemma finishAuthProcess_cases (cfg : Config) (ext : Extern) (now : Z) (id : loginID)
    (userID : string) (seq : Z) (ec : bool) (md : option JSON) (w : World) :
  finishAuthProcess cfg ext now id userID seq ec md w =
  match metadata_to_update cfg ext userID md with
  | Panicked why => (Panicked why, w)
  | Val (inl err) => (Val (0, Some err), w)
  | Val (inr m) =>
      match fault ext (calls w) with
      | Some msg => (Val (0, Some (storage_failure msg)), bump w)
      | None =>
          match sql_finish_auth (id_Email id) now userID (id_DeviceUniqueID id) seq ec m (db w) with
          | inl msg => (Val (0, Some (storage_failure msg)), bump w)
          | inr (None, d) => (Val (0, Some race_lost_error), {| db := d; calls := S (calls w) |})
          | inr (Some s, d) => (Val (s, None), {| db := d; calls := S (calls w) |})
          end
      end
  end.
Proof.
  unfold finishAuthProcess, bind, lift, storage_ExecOne, run_stmt, bind, ret.
  destruct (metadata_to_update cfg ext userID md) as [[err|m]|why]; try reflexivity.
  destruct (fault ext (calls w)) as [msg|]; [reflexivity|].
  destruct (sql_finish_auth _ _ _ _ _ _ _ _) as [msg|[[s|] d]]; reflexivity.
Qed.

Lemma sql_finish_auth_some (e : string) (now : Z) (u dv : string) (seq : Z) (ec : bool)
    (md : JSON) (d d' : DB) (s : Z) :
  sql_finish_auth e now u dv seq ec md d = inr (Some s, d') ->
  exists r,
    email_link_sign_ins d !! (e, dv) = Some r
    /\ issued_token_seq r = seq
    /\ s = issued_token_seq r + 1
    /\ email_link_sign_ins d' = <[(e, dv) := finish_row now u ec r]> (email_link_sign_ins d).
Proof.
  unfold sql_finish_auth. cbv zeta.
  destruct (email_link_sign_ins d !! (e, dv)) as [r|]; [|discriminate].
  destruct (bool_decide_reflect (issued_token_seq r = seq)) as [E|]; [|discriminate].
  destruct (in_bigint _); [|discriminate].
  intros [= <- <-]. exists r. auto.
Qed.

Lemma sql_finish_auth_none (e : string) (now : Z) (u dv : string) (seq : Z) (ec : bool)
    (md : JSON) (d : DB) :
  (forall r, email_link_sign_ins d !! (e, dv) = Some r -> issued_token_seq r <> seq) ->
  sql_finish_auth e now u dv seq ec md d
  = inr (None, set_metadata (upsert_metadata u md (account_metadata d)) d).
Proof.
  intros Hne. unfold sql_finish_auth. cbv zeta.
  destruct (email_link_sign_ins d !! (e, dv)) as [r|]; [|reflexivity].
  destruct (bool_decide_reflect (issued_token_seq r = seq)) as [E|]; [|reflexivity].
  exfalso. exact (Hne r eq_refl E).
Qed.

(** What a successful call did to the row. *)
Lemma finishAuthProcess_success (cfg : Config) (ext : Extern) (now : Z) (id : loginID)
    (userID : string) (seq : Z) (ec : bool) (md : option JSON) (w w' : World) (s : Z) :
  finishAuthProcess cfg ext now id userID seq ec md w = (Val (s, None), w') ->
  exists r,
    email_link_sign_ins (db w) !! (id_Email id, id_DeviceUniqueID id) = Some r
    /\ issued_token_seq r = seq
    /\ s = issued_token_seq r + 1
    /\ email_link_sign_ins (db w')
       = <[(id_Email id, id_DeviceUniqueID id) := finish_row now userID ec r]>
           (email_link_sign_ins (db w)).
Proof.
  rewrite finishAuthProcess_cases.
  destruct (metadata_to_update cfg ext userID md) as [[err|m]|why]; try discriminate.
  destruct (fault ext (calls w)) as [msg|]; [discriminate|].
  destruct (sql_finish_auth _ _ _ _ _ _ _ _) as [msg|[[s0|] d]] eqn:E; try discriminate.
  intros [= <- <-]. cbn [db]. eapply sql_finish_auth_some, E.
Qed.

(** C1. When the statement of [finishAuthProcess] is sent and the stored
    [issued_token_seq] is not the value the caller read (no row is updated):
    the call fails with an error that is [ErrNoConfirmationRequired] and the
    sign-in table is as it was; the call cannot succeed; and when instead
    the storage fails, the error is not [ErrNoConfirmationRequired]. *)
Theorem finishAuthProcess_race_lost (cfg : Config) (ext : Extern) (now : Z) (id : loginID)
    (userID : string) (seq : Z) (ec : bool) (md : option JSON) (m : JSON) (w : World) :
  metadata_to_update cfg ext userID md = Val (inr m) ->
  (forall r, email_link_sign_ins (db w) !! (id_Email id, id_DeviceUniqueID id) = Some r ->
             issued_token_seq r <> seq) ->
  (fault ext (calls w) = None ->
   exists e w',
     finishAuthProcess cfg ext now id userID seq ec md w = (Val (0, Some e), w')
     /\ errors_Is e ErrNoConfirmationRequired = true
     /\ email_link_sign_ins (db w') = email_link_sign_ins (db w))
  /\ (forall s w', finishAuthProcess cfg ext now id userID seq ec md w <> (Val (s, None), w'))
  /\ (forall msg, fault ext (calls w) = Some msg ->
      exists e,
        finishAuthProcess cfg ext now id userID seq ec md w = (Val (0, Some e), bump w)
        /\ errors_Is e ErrNoConfirmationRequired = false
        /\ errors_Is e (Opaque msg) = true).
Proof.
  intros Hmd Hne. repeat split.
  - intros Hf. rewrite finishAuthProcess_cases, Hmd, Hf, (sql_finish_auth_none _ _ _ _ _ _ _ _ Hne).
    eexists _, _. repeat split.
  - intros s w' H. apply finishAuthProcess_success in H as (r & Hr & Hs & _).
    exact (Hne r Hr Hs).
  - intros msg Hf. rewrite finishAuthProcess_cases, Hmd, Hf.
    eexists. split; [reflexivity|]. split; [reflexivity|].
    cbn. apply bool_decide_eq_true_2. reflexivity.
Qed.

(** The caller read 4 while the row of [Demo.world] holds 5. *)
Lemma finishAuthProcess_race_lost_witness :
  (exists e w',
     finishAuthProcess Demo.cfg Demo.ext 1000 Demo.id "u1" 4 true None Demo.world
     = (Val (0, Some e), w')
     /\ errors_Is e ErrNoConfirmationRequired = true
     /\ email_link_sign_ins (db w') = email_link_sign_ins (db Demo.world)).
Proof.
  refine (proj1 (finishAuthProcess_race_lost Demo.cfg Demo.ext 1000 Demo.id "u1" 4 true None
                   ({[ "iceID" := JStr "u1" ]} : JSON) Demo.world _ _) _).
  - vm_compute. reflexivity.
  - intros r Hr. vm_compute in Hr. injection Hr as <-. vm_compute. discriminate.
  - reflexivity.
Defined.

Example finishAuthProcess_storage_down :
  exists e,
    finishAuthProcess Demo.cfg Demo.ext_storage_down 1000 Demo.id "u1" 4 true None Demo.world
    = (Val (0, Some e), bump Demo.world)
    /\ errors_Is e ErrNoConfirmationRequired = false.
Proof. eexists. split; vm_compute; reflexivity. Qed.

(** C2, as amended. A successful [finishAuthProcess] found the row with the
    caller's [issued_token_seq], returns that value plus one, and leaves
    both [issued_token_seq] and [previously_issued_token_seq] at that new
    value. *)
Theorem finishAuthProcess_advances_both_seqs (cfg : Config) (ext : Extern) (now : Z)
    (id : loginID) (userID : string) (seq : Z) (ec : bool) (md : option JSON)
    (w w' : World) (s : Z) :
  finishAuthProcess cfg ext now id userID seq ec md w = (Val (s, None), w') ->
  exists r r',
    email_link_sign_ins (db w) !! (id_Email id, id_DeviceUniqueID id) = Some r
    /\ issued_token_seq r = seq
    /\ email_link_sign_ins (db w') !! (id_Email id, id_DeviceUniqueID id) = Some r'
    /\ s = issued_token_seq r + 1
    /\ issued_token_seq r' = issued_token_seq r + 1
    /\ previously_issued_token_seq r' = issued_token_seq r + 1.
Proof.
  intros H. apply finishAuthProcess_success in H as (r & Hr & Hseq & Hs & Hw').
  exists r, (finish_row now userID ec r). rewrite Hw', lookup_insert_eq.
  repeat split; auto.
Qed.

Lemma finishAuthProcess_advances_both_seqs_witness :
  exists r r',
    email_link_sign_ins (db Demo.world) !! ("alice@x.com", "D1") = Some r
    /\ issued_token_seq r = 5
    /\ email_link_sign_ins
         (db (snd (finishAuthProcess Demo.cfg Demo.ext 1000 Demo.id "u1" 5 false None Demo.world)))
         !! ("alice@x.com", "D1") = Some r'
    /\ 6 = issued_token_seq r + 1
    /\ issued_token_seq r' = issued_token_seq r + 1
    /\ previously_issued_token_seq r' = issued_token_seq r + 1.
Proof.
  apply (finishAuthProcess_advances_both_seqs Demo.cfg Demo.ext 1000 Demo.id "u1" 5 false None
           Demo.world _ 6).
  vm_compute. reflexivity.
Defined.

(** C2 as stated fails: the row of [Demo.world] holds [issued_token_seq = 5];
    the call succeeds and returns 6, and [previously_issued_token_seq] is 6
    afterwards, not the prior value 5. *)
Lemma previously_issued_token_seq_is_not_prior :
  fst (finishAuthProcess Demo.cfg Demo.ext 1000 Demo.id "u1" 5 false None Demo.world)
  = Val (6, None)
  /\ issued_token_seq Demo.row = 5
  /\ exists r',
       email_link_sign_ins
         (db (snd (finishAuthProcess Demo.cfg Demo.ext 1000 Demo.id "u1" 5 false None Demo.world)))
         !! ("alice@x.com", "D1") = Some r'
       /\ previously_issued_token_seq r' = 6
       /\ previously_issued_token_seq r' <> issued_token_seq Demo.row.
Proof.
  split; [vm_compute; reflexivity|]. split; [reflexivity|].
  eexists. split; [vm_compute; reflexivity|]. split; [reflexivity|].
  vm_compute. discriminate.
Qed.

(** C8, as amended. A successful [finishAuthProcess] leaves
    [email_confirmed_at] at [now] when [emailConfirmed] holds and at NULL
    otherwise, whatever the column held before; the columns the statement
    does not assign are as they were. *)
Theorem finishAuthProcess_email_confirmed_at (cfg : Config) (ext : Extern) (now : Z)
    (id : loginID) (userID : string) (seq : Z) (ec : bool) (md : option JSON)
    (w w' : World) (s : Z) :
  finishAuthProcess cfg ext now id userID seq ec md w = (Val (s, None), w') ->
  exists r r',
    email_link_sign_ins (db w) !! (id_Email id, id_DeviceUniqueID id) = Some r
    /\ email_link_sign_ins (db w') !! (id_Email id, id_DeviceUniqueID id) = Some r'
    /\ email_confirmed_at r' = (if ec then Some now else None)
    /\ (email_confirmed_at r' = Some now <-> ec = true)
    /\ token_issued_at r' = Some now
    /\ user_id r' = Some userID
    /\ phone_number_to_email_migration_user_id r' = None
    /\ created_at r' = created_at r
    /\ blocked_until r' = blocked_until r
    /\ confirmation_code r' = confirmation_code r
    /\ confirmation_code_wrong_attempts_count r' = confirmation_code_wrong_attempts_count r.
Proof.
  intros H. apply finishAuthProcess_success in H as (r & Hr & Hseq & Hs & Hw').
  exists r, (finish_row now userID ec r). rewrite Hw', lookup_insert_eq.
  repeat split; auto; cbn; destruct ec; congruence.
Qed.

Lemma finishAuthProcess_email_confirmed_at_witness :
  exists r r',
    email_link_sign_ins (db Demo.world) !! ("alice@x.com", "D1") = Some r
    /\ email_link_sign_ins
         (db (snd (finishAuthProcess Demo.cfg Demo.ext 1000 Demo.id "u1" 5 true None Demo.world)))
         !! ("alice@x.com", "D1") = Some r'
    /\ email_confirmed_at r' = Some 1000.
Proof.
  destruct (finishAuthProcess_email_confirmed_at Demo.cfg Demo.ext 1000 Demo.id "u1" 5 true None
              Demo.world _ 6 eq_refl) as (r & r' & H1 & H2 & H3 & _).
  exists r, r'. auto.
Defined.

(** C8 as stated fails: the row of [Demo.world] has [email_confirmed_at = 77];
    a successful call with [emailConfirmed = false] leaves the column NULL. *)
Lemma email_confirmed_at_is_overwritten :
  email_confirmed_at Demo.row = Some 77
  /\ fst (finishAuthProcess Demo.cfg Demo.ext 1000 Demo.id "u1" 5 false None Demo.world)
     = Val (6, None)
  /\ exists r',
       email_link_sign_ins
         (db (snd (finishAuthProcess Demo.cfg Demo.ext 1000 Demo.id "u1" 5 false None Demo.world)))
         !! ("alice@x.com", "D1") = Some r'
       /\ email_confirmed_at r' = None
       /\ email_confirmed_at r' <> email_confirmed_at Demo.row.
Proof.
  split; [reflexivity|]. split; [vm_compute; reflexivity|].
  eexists. split; [vm_compute; reflexivity|]. split; [reflexivity|].
  vm_compute. discriminate.
Qed.

(** ** The terminal marker *)

Lemma signIn_consumed (cfg : Config) (ext : Extern) (now : Z) (els : emailLinkSignIn)
    (id : loginID) (oldEmail notifyEmail code u : string) (w : World) :
  UserID els = Some u -> ConfirmationCode els = u ->
  signIn cfg ext now els id oldEmail notifyEmail code w
  = (Val (els, (false, 0, Some tokens_already_provided)), w).
Proof.
  intros Hu Hc. unfold signIn. rewrite Hu, Hc.
  rewrite bool_decide_eq_true_2 by reflexivity. reflexivity.
Qed.



(** The same row answers a sign-in with the emailed code in the same way. *)
Example consumed_row_rejects_sign_in :
  exists e,
    fst (SignIn Demo.cfg Demo.ext_keyed "token" "123456" Demo.consumed_world)
    = Val (None, false, Some e)
    /\ errors_Is e ErrNoPendingLoginSession = true.
Proof. eexists. split; [vm_compute; reflexivity | reflexivity]. Qed.

(** ** [verifySignIn] *)

Lemma increase_blocking_cases (cfg : Config) (ext : Extern) (id : loginID) (w : World) :
  increaseWrongConfirmationCodeAttemptsCount cfg ext id true w =
  match fault ext (S (calls w)) with
  | Some msg =>
      (Val (Some (Wrapf "can't update email link sign ins for the user with pk:%#v"
                        (Base (Opaque msg)))),
       bump (bump w))
  | None =>
      match sql_increase_attempts (id_Email id) (id_DeviceUniqueID id)
              (Some (wall ext (calls w) + EmailValidation_BlockDuration cfg)) (db w) with
      | inl msg =>
          (Val (Some (Wrapf "can't update email link sign ins for the user with pk:%#v"
                            (Base (Opaque msg)))),
           bump (bump w))
      | inr (_, d) => (Val None, {| db := d; calls := S (S (calls w)) |})
      end
  end.
Proof.
  unfold increaseWrongConfirmationCodeAttemptsCount, storage_Exec, run_stmt, bind, time_Now, ret.
  cbn [calls bump db].
  destruct (fault ext (S (calls w))) as [msg|]; [reflexivity|].
  destruct (sql_increase_attempts _ _ _ _) as [msg|[n d]]; reflexivity.
Qed.

(** Inside the window the first [if] of [verifySignIn] returns. *)
Lemma verifySignIn_inside_window (cfg : Config) (ext : Extern)
    (els : emailLinkSignIn) (id : loginID) (code : string) (w : World)
    (blockedUntil createdAt : Z) :
  ConfirmationCode_MaxWrongAttemptsCount cfg <= ConfirmationCodeWrongAttemptsCount els ->
  BlockedUntil els = Some blockedUntil ->
  CreatedAt els = Some createdAt ->
  createdAt < blockedUntil ->
  blockedUntil < wall ext (calls w) + EmailValidation_BlockDuration cfg ->
  verifySignIn cfg ext els id code w = (Val (Some attempts_exceeded_error), bump w).
Proof.
  intros Hmax Hbu Hca Hlo Hhi.
  unfold verifySignIn, over_budget_check, bind, time_Now, ret.
  rewrite (proj2 (Z.leb_le _ _) Hmax), Hbu.
  rewrite (proj2 (Z.ltb_lt _ _) Hhi), Hca.
  rewrite (proj2 (Z.ltb_lt _ _) Hlo). reflexivity.
Qed.

(** C5. A record over budget whose [BlockedUntil] lies strictly after
    [CreatedAt] and strictly before the clock reading plus the block
    duration: [verifySignIn] returns the wrapped
    [ErrConfirmationCodeAttemptsExceeded] and nothing else, for every
    presented code, and sends no statement (the tables are as they were;
    only the clock was read). *)
Theorem verifySignIn_blocked_is_rejected_without_write (cfg : Config) (ext : Extern)
    (els : emailLinkSignIn) (id : loginID) (code : string) (w : World)
    (blockedUntil createdAt : Z) :
  ConfirmationCode_MaxWrongAttemptsCount cfg <= ConfirmationCodeWrongAttemptsCount els ->
  BlockedUntil els = Some blockedUntil ->
  CreatedAt els = Some createdAt ->
  createdAt < blockedUntil ->
  blockedUntil < wall ext (calls w) + EmailValidation_BlockDuration cfg ->
  verifySignIn cfg ext els id code w = (Val (Some attempts_exceeded_error), bump w)
  /\ db (snd (verifySignIn cfg ext els id code w)) = db w
  /\ errors_Is attempts_exceeded_error ErrConfirmationCodeAttemptsExceeded = true
  /\ errors_Is attempts_exceeded_error ErrConfirmationCodeWrong = false.
Proof.
  intros Hmax Hbu Hca Hlo Hhi.
  rewrite (verifySignIn_inside_window cfg ext els id code w blockedUntil createdAt)
    by assumption.
  repeat split.
Qed.

(** Three wrong attempts, blocked until 500: at the reading 1000 the block
    has expired, and the record is rejected all the same. *)
Lemma verifySignIn_blocked_is_rejected_without_write_witness :
  verifySignIn Demo.cfg Demo.ext (Demo.with_block 3 (Some 500) Demo.els) Demo.id "123456"
    Demo.world
  = (Val (Some attempts_exceeded_error), bump Demo.world).
Proof.
  refine (proj1 (verifySignIn_blocked_is_rejected_without_write Demo.cfg Demo.ext
                   (Demo.with_block 3 (Some 500) Demo.els) Demo.id "123456" Demo.world
                   500 100 _ _ _ _ _)); cbn; first [reflexivity | lia].
Defined.

(** C4, as amended. A wrong code on a record with
    [wrongAttemptsCount = maxAttempts - 1]: [verifySignIn] sends the
    increment with [blocked_until = now + blockDuration], where [now] is the
    clock reading of that call; when the statement is carried out, the row
    has its counter raised by one and that block in the same write. The
    error returned is [ErrConfirmationCodeWrong] (joined by the failure of
    the statement, if any) and is not
    [ErrConfirmationCodeAttemptsExceeded]. *)
Theorem verifySignIn_last_attempt_wrong_code (cfg : Config) (ext : Extern)
    (els : emailLinkSignIn) (id : loginID) (code : string) (w : World) :
  min_int64 <= ConfirmationCode_MaxWrongAttemptsCount cfg <= max_int64 ->
  ConfirmationCodeWrongAttemptsCount els = ConfirmationCode_MaxWrongAttemptsCount cfg - 1 ->
  ConfirmationCode els <> code ->
  exists e w',
    verifySignIn cfg ext els id code w = (Val (Some e), w')
    /\ errors_Is e ErrConfirmationCodeWrong = true
    /\ errors_Is e ErrConfirmationCodeAttemptsExceeded = false
    /\ (forall r,
          email_link_sign_ins (db w) !! (id_Email id, id_DeviceUniqueID id) = Some r ->
          fault ext (S (calls w)) = None ->
          in_bigint (confirmation_code_wrong_attempts_count r + 1) = true ->
          e = Multi [wrong_code_error]
          /\ exists r',
               email_link_sign_ins (db w') !! (id_Email id, id_DeviceUniqueID id) = Some r'
               /\ confirmation_code_wrong_attempts_count r'
                  = confirmation_code_wrong_attempts_count r + 1
               /\ blocked_until r'
                  = Some (wall ext (calls w) + EmailValidation_BlockDuration cfg)).
Proof.
  intros Hrange Hcount Hcode.
  unfold verifySignIn, over_budget_check.
  rewrite (proj2 (Z.leb_gt _ _)) by lia.
  unfold bind at 1. unfold ret at 1.
  rewrite (bool_decide_eq_false_2 _ Hcode). cbn [negb orb].
  rewrite Hcount, Z.sub_add, (wrap64_id _ Hrange), Z.leb_refl.
  unfold bind. rewrite increase_blocking_cases.
  destruct (fault ext (S (calls w))) as [msg|] eqn:Hf.
  { eexists _, _. split; [reflexivity|]. split; [reflexivity|]. split; [reflexivity|].
    intros r _ Hf'. discriminate Hf'. }
  unfold sql_increase_attempts.
  destruct (email_link_sign_ins (db w) !! (id_Email id, id_DeviceUniqueID id)) as [r|] eqn:Hr.
  - destruct (in_bigint (confirmation_code_wrong_attempts_count r + 1)) eqn:Hb.
    + eexists _, _. split; [reflexivity|]. split; [reflexivity|]. split; [reflexivity|].
      intros r0 [= <-] _ _. split; [reflexivity|].
      exists (increase_row (Some (wall ext (calls w) + EmailValidation_BlockDuration cfg)) r).
      cbn [db email_link_sign_ins set_sign_ins]. rewrite lookup_insert_eq.
      split; [reflexivity|]. split; reflexivity.
    + eexists _, _. split; [reflexivity|]. split; [reflexivity|]. split; [reflexivity|].
      intros r0 [= <-] _ Hb'. congruence.
  - eexists _, _. split; [reflexivity|]. split; [reflexivity|]. split; [reflexivity|].
    intros r0 Hr0. discriminate Hr0.
Qed.

Lemma verifySignIn_last_attempt_wrong_code_witness :
  exists e w',
    verifySignIn Demo.cfg Demo.ext Demo.els Demo.id "000000" Demo.world = (Val (Some e), w')
    /\ errors_Is e ErrConfirmationCodeWrong = true
    /\ errors_Is e ErrConfirmationCodeAttemptsExceeded = false.
Proof.
  destruct (verifySignIn_last_attempt_wrong_code Demo.cfg Demo.ext Demo.els Demo.id "000000"
              Demo.world) as (e & w' & H1 & H2 & H3 & _).
  - cbn. unfold min_int64, max_int64. lia.
  - reflexivity.
  - discriminate.
  - exists e, w'. auto.
Defined.

(** C4 as stated fails: two wrong attempts so far with a limit of three;
    the wrong code installs the block, and the error returned holds
    [ErrConfirmationCodeWrong] only. *)
Lemma last_attempt_error_lacks_attempts_exceeded :
  ConfirmationCodeWrongAttemptsCount Demo.els
  = ConfirmationCode_MaxWrongAttemptsCount Demo.cfg - 1
  /\ fst (verifySignIn Demo.cfg Demo.ext Demo.els Demo.id "000000" Demo.world)
     = Val (Some (Multi [wrong_code_error]))
  /\ errors_Is (Multi [wrong_code_error]) ErrConfirmationCodeAttemptsExceeded = false
  /\ (exists r',
        email_link_sign_ins
          (db (snd (verifySignIn Demo.cfg Demo.ext Demo.els Demo.id "000000" Demo.world)))
          !! ("alice@x.com", "D1") = Some r'
        /\ confirmation_code_wrong_attempts_count r' = 3
        /\ blocked_until r' = Some 1600).
Proof.
  split; [reflexivity|]. split; [vm_compute; reflexivity|]. split; [reflexivity|].
  eexists. split; [vm_compute; reflexivity|]. split; reflexivity.
Qed.

(** ** [signIn] past the verification *)

(** C9. A record with a nil [UserID] whose verification succeeds. Whenever
    [signIn] gets to invoke [finishAuthProcess] (no email modification is
    due, or it is due and [handleEmailModification] succeeds), the argument
    [*els.UserID] is evaluated with no nil test before it and the call
    panics. The only other outcome is the failure of a due email
    modification, returned before the call site is reached. *)
Theorem signIn_nil_UserID (cfg : Config) (ext : Extern) (now : Z) (els : emailLinkSignIn)
    (id : loginID) (oldEmail notifyEmail code : string) (w w1 : World) :
  UserID els = None ->
  verifySignIn cfg ext els id code w = (Val None, w1) ->
  signIn cfg ext now els id oldEmail notifyEmail code w =
  if email_modification_due els oldEmail
  then match handleEmailModification ext (calls w1) els (id_Email id) oldEmail notifyEmail with
       | Some e =>
           (Val (els, (false, 0, Some (Wrapf "failed to handle email modification:%v" e))),
            bump w1)
       | None => (Panicked "nil pointer dereference: *els.UserID", bump w1)
       end
  else (Panicked "nil pointer dereference: *els.UserID", w1).
Proof.
  intros Hu Hv. unfold signIn, email_modification_due. rewrite Hu.
  unfold bind at 1. rewrite Hv. cbv zeta.
  destruct (negb (bool_decide (oldEmail = "")) || _).
  - unfold bind, ask.
    destruct (handleEmailModification ext (calls w1) els (id_Email id) oldEmail notifyEmail);
      cbn; [reflexivity|]. rewrite Hu. reflexivity.
  - unfold bind, ret. rewrite Hu. reflexivity.
Qed.

(** The record of the examples with no user id, presented with its own
    code: the panic is reached. *)
Lemma signIn_nil_UserID_witness :
  signIn Demo.cfg Demo.ext 1000 (Demo.with_UserID None Demo.els) Demo.id "" "" "123456"
    Demo.world
  = (Panicked "nil pointer dereference: *els.UserID", Demo.world).
Proof.
  exact (signIn_nil_UserID Demo.cfg Demo.ext 1000 (Demo.with_UserID None Demo.els) Demo.id
           "" "" "123456" Demo.world Demo.world eq_refl eq_refl).
Defined.

(** The same record in a flow that carries an old email, with
    [handleEmailModification] failing: the failure is returned and the
    call of [finishAuthProcess] is not reached. *)
Example signIn_nil_UserID_failed_modification :
  exists e,
    fst (signIn Demo.cfg Demo.ext_migration_fails 1000 (Demo.with_UserID None Demo.els)
           Demo.id "old@x.com" "" "123456" Demo.world)
    = Val (Demo.with_UserID None Demo.els, (false, 0, Some e)).
Proof. eexists. reflexivity. Qed.

(** C7, as amended. A flow that carries an old email, verified, with the
    email modification done, in which [finishAuthProcess] fails with [fErr]:
    [signIn] calls both reversions and returns one multierror whose members
    are the failure of [resetEmailModification] if it failed, the failure
    of [resetFirebaseEmailModification] if it failed, and [fErr], each
    wrapped, in that order. A reversion that succeeds adds no member; with
    both reversions failing the members are the three causes. *)
Theorem signIn_aggregates_finalize_failure (cfg : Config) (ext : Extern) (now : Z)
    (els : emailLinkSignIn) (id : loginID) (oldEmail notifyEmail code u : string)
    (w w1 w2 : World) (s : Z) (fErr : error) :
  oldEmail <> "" ->
  UserID els = Some u ->
  ConfirmationCode els <> u ->
  verifySignIn cfg ext els id code w = (Val None, w1) ->
  handleEmailModification ext (calls w1) els (id_Email id) oldEmail notifyEmail = None ->
  finishAuthProcess cfg ext now id u (IssuedTokenSeq els) true (Metadata els) (bump w1)
  = (Val (s, Some fErr), w2) ->
  let r1 := resetEmailModification ext (calls w2) u oldEmail in
  let r2 := resetFirebaseEmailModification ext (S (calls w2)) (Metadata els) oldEmail in
  let causes := finalize_failure_causes r1 r2 fErr in
  signIn cfg ext now els id oldEmail notifyEmail code w
  = (Val (set_Email (id_Email id) els, (false, 0, Some (Multi causes))), bump (bump w2))
  /\ In (Wrapf "can't finish auth process for userID:%v,email:%v" fErr) causes
  /\ (forall e1, r1 = Some e1 ->
        In (Wrapf "[reset] resetEmailModification failed for email:%v" e1) causes)
  /\ (forall e2, r2 = Some e2 ->
        In (Wrapf "[reset] resetEmailModification failed for email:%v" e2) causes)
  /\ (forall e1 e2, r1 = Some e1 -> r2 = Some e2 ->
        causes = [Wrapf "[reset] resetEmailModification failed for email:%v" e1;
                  Wrapf "[reset] resetEmailModification failed for email:%v" e2;
                  Wrapf "can't finish auth process for userID:%v,email:%v" fErr]).
Proof.
  intros Hold Hu Hc Hv Hh Hf r1 r2 causes.
  split.
  - unfold signIn. rewrite Hu, (bool_decide_eq_false_2 _ Hc).
    unfold bind at 1. rewrite Hv. cbv zeta.
    rewrite (bool_decide_eq_false_2 _ Hold). cbn [negb orb].
    unfold bind at 1. unfold bind at 1. unfold ask at 1. cbn [calls bump db].
    rewrite Hh. unfold ret at 1. cbn [UserID set_Email IssuedTokenSeq Metadata].
    rewrite Hu. unfold bind at 1. rewrite Hf.
    unfold bind, ask, ret. cbn [calls bump db].
    fold r1 r2. unfold multierror_Append. cbn [default concat map errors_Wrapf flatten1].
    subst causes. unfold finalize_failure_causes. clearbody r1 r2.
    destruct r1 as [e1|], r2 as [e2|]; reflexivity.
  - unfold causes, finalize_failure_causes.
    split; [rewrite !in_app_iff; right; right; left; reflexivity|].
    split; [|split].
    + intros e1 ->. rewrite !in_app_iff. left. left. reflexivity.
    + intros e2 ->. rewrite !in_app_iff. right. left. left. reflexivity.
    + intros e1 e2 -> ->. reflexivity.
Qed.

Lemma signIn_aggregates_finalize_failure_witness :
  fst (signIn Demo.cfg Demo.ext_reversions_fail 1000 Demo.els Demo.id "old@x.com" "" "123456"
         Demo.empty_world)
  = Val (set_Email "alice@x.com" Demo.els,
         (false, 0,
          Some (Multi [Wrapf "[reset] resetEmailModification failed for email:%v"
                         (Base (Opaque "revert failed"));
                       Wrapf "[reset] resetEmailModification failed for email:%v"
                         (Base (Opaque "firebase revert failed"));
                       Wrapf "can't finish auth process for userID:%v,email:%v"
                         race_lost_error]))).
Proof.
  destruct (signIn_aggregates_finalize_failure Demo.cfg Demo.ext_reversions_fail 1000
              Demo.els Demo.id "old@x.com" "" "123456" "u1"
              Demo.empty_world Demo.empty_world
              (snd (finishAuthProcess Demo.cfg Demo.ext_reversions_fail 1000 Demo.id "u1" 5 true
                      None (bump Demo.empty_world)))
              0 race_lost_error) as [H _].
  - discriminate.
  - reflexivity.
  - discriminate.
  - reflexivity.
  - reflexivity.
  - vm_compute. reflexivity.
  - rewrite H. reflexivity.
Defined.

(** C7 as stated fails: the same call with both reversions succeeding. The
    finalization fails, the two reversions return nil, and the error that
    [signIn] returns has one member, the finalize error: it contains the
    result of neither reversion. *)
Lemma finalize_failure_with_reversions_done_has_one_cause :
  resetEmailModification Demo.ext 2 "u1" "old@x.com" = None
  /\ resetFirebaseEmailModification Demo.ext 3 (Metadata Demo.els) "old@x.com" = None
  /\ fst (signIn Demo.cfg Demo.ext 1000 Demo.els Demo.id "old@x.com" "" "123456"
            Demo.empty_world)
     = Val (set_Email "alice@x.com" Demo.els,
            (false, 0,
             Some (Multi [Wrapf "can't finish auth process for userID:%v,email:%v"
                            race_lost_error]))).
Proof. split; [reflexivity|]. split; [reflexivity|]. vm_compute. reflexivity. Qed.

(** ** The blocking columns over time *)

Lemma row_le_refl (r : Row) : row_le r r.
Proof. unfold row_le. repeat split; [lia | auto]. Qed.

Lemma row_le_trans (a b c : Row) : row_le a b -> row_le b c -> row_le a c.
Proof.
  unfold row_le. intros (H1 & H2 & H3) (H4 & H5 & H6).
  repeat split; [lia | congruence | auto].
Qed.

Lemma rows_grow_refl (d : DB) : rows_grow d d.
Proof. intros k r H. exists r. split; [exact H | apply row_le_refl]. Qed.

Lemma rows_grow_trans (a b c : DB) : rows_grow a b -> rows_grow b c -> rows_grow a c.
Proof.
  intros Hab Hbc k r H.
  destruct (Hab k r H) as (r1 & H1 & L1).
  destruct (Hbc k r1 H1) as (r2 & H2 & L2).
  exists r2. split; [exact H2 | eapply row_le_trans; eassumption].
Qed.

Lemma rows_grow_same (d d' : DB) :
  email_link_sign_ins d' = email_link_sign_ins d -> rows_grow d d'.
Proof. intros E k r H. exists r. rewrite E. split; [exact H | apply row_le_refl]. Qed.

Lemma rows_grow_update (d d' : DB) (k0 : string * string) (r0 r0' : Row) :
  email_link_sign_ins d !! k0 = Some r0 ->
  row_le r0 r0' ->
  email_link_sign_ins d' = <[k0 := r0']> (email_link_sign_ins d) ->
  rows_grow d d'.
Proof.
  intros H0 L E k r H. rewrite E.
  destruct (decide (k0 = k)) as [<-|Hne].
  - exists r0'. rewrite lookup_insert_eq. split; [reflexivity|]. congruence.
  - exists r. rewrite lookup_insert_ne by exact Hne. split; [exact H | apply row_le_refl].
Qed.

Lemma increase_row_le (b : option Z) (r : Row) : row_le r (increase_row b r).
Proof.
  unfold row_le. cbn. repeat split; [lia|]. destruct b; [eauto | auto].
Qed.

Lemma finish_row_le (now : Z) (u : string) (ec : bool) (r : Row) :
  row_le r (finish_row now u ec r).
Proof. unfold row_le. cbn. repeat split; [lia | auto]. Qed.

Lemma with_confirmation_code_le (c : option string) (r : Row) :
  row_le r (with_confirmation_code c r).
Proof. unfold row_le. cbn. repeat split; [lia | auto]. Qed.

Lemma increase_rows_grow (e dv : string) (b : option Z) :
  stmt_keeps rows_grow (sql_increase_attempts e dv b).
Proof.
  intros d a d'. unfold sql_increase_attempts.
  destruct (email_link_sign_ins d !! (e, dv)) as [r|] eqn:Hr.
  - destruct (in_bigint _); [|discriminate].
    intros [= _ <-]. eapply rows_grow_update; [exact Hr | apply increase_row_le | reflexivity].
  - intros [= _ <-]. apply rows_grow_refl.
Qed.

Lemma finish_rows_grow (e : string) (now : Z) (u dv : string) (s : Z) (ec : bool) (md : JSON) :
  stmt_keeps rows_grow (sql_finish_auth e now u dv s ec md).
Proof.
  intros d a d'. unfold sql_finish_auth. cbv zeta.
  destruct (email_link_sign_ins d !! (e, dv)) as [r|] eqn:Hr.
  - destruct (bool_decide _).
    + destruct (in_bigint _); [|discriminate].
      intros [= _ <-]. eapply rows_grow_update; [exact Hr | apply finish_row_le | reflexivity].
    + intros [= _ <-]. apply rows_grow_same. reflexivity.
  - intros [= _ <-]. apply rows_grow_same. reflexivity.
Qed.

Lemma reset_rows_grow (u : option string) (e dv p : string) (s : Z) (rf : option (string * Z)) :
  stmt_keeps rows_grow (sql_reset_login_session u e dv p s rf).
Proof.
  intros d a d'. unfold sql_reset_login_session.
  destruct (match rf with
            | Some (ip, n) => sql_decrement_ip ip n (sign_ins_per_ip d)
            | None => inr (sign_ins_per_ip d)
            end) as [msg|ips]; [discriminate|].
  cbv zeta.
  destruct (email_link_sign_ins d !! (e, dv)) as [r|] eqn:Hr.
  - destruct (_ && _); intros [= _ <-].
    + eapply rows_grow_update; [exact Hr | apply with_confirmation_code_le | reflexivity].
    + apply rows_grow_same. reflexivity.
  - intros [= _ <-]. apply rows_grow_same. reflexivity.
Qed.

Lemma reset_otp_rows_grow (u : option string) (e dv o p : string) (s : Z) :
  stmt_keeps rows_grow (sql_reset_login_session_otp u e dv o p s).
Proof.
  intros d a d'. unfold sql_reset_login_session_otp.
  destruct (email_link_sign_ins d !! (e, dv)) as [r|] eqn:Hr.
  - destruct (_ && _); intros [= _ <-].
    + eapply rows_grow_update; [exact Hr | apply with_confirmation_code_le | reflexivity].
    + apply rows_grow_refl.
  - intros [= _ <-]. apply rows_grow_refl.
Qed.

Lemma admit_rows_grow (ip : string) (n : Z) :
  stmt_keeps rows_grow (RateLimiter.sql_admit ip n).
Proof.
  intros d a d'. unfold RateLimiter.sql_admit. cbv zeta.
  destruct (in_bigint _); [|discriminate].
  destruct (_ <=? 10); [|discriminate].
  intros [= _ <-]. apply rows_grow_same. reflexivity.
Qed.

Lemma run_rows_grow (cfg : Config) (ext : Extern) (cs : list call) (w : World) :
  rows_grow (db w) (db (run cfg ext cs w)).
Proof.
  apply (run_keeps cfg ext rows_grow rows_grow_refl rows_grow_trans
           increase_rows_grow finish_rows_grow reset_rows_grow reset_otp_rows_grow
           admit_rows_grow).
Qed.

(** A record over budget with a block set never verifies: the call returns
    an error that is [ErrConfirmationCodeAttemptsExceeded], at any clock
    reading and whatever the storage does. *)
Lemma verifySignIn_over_budget (cfg : Config) (ext : Extern) (els : emailLinkSignIn)
    (id : loginID) (code : string) (w : World) (blockedUntil createdAt : Z) :
  ConfirmationCode_MaxWrongAttemptsCount cfg <= ConfirmationCodeWrongAttemptsCount els ->
  BlockedUntil els = Some blockedUntil ->
  CreatedAt els = Some createdAt ->
  exists e w',
    verifySignIn cfg ext els id code w = (Val (Some e), w')
    /\ errors_Is e ErrConfirmationCodeAttemptsExceeded = true.
Proof.
  intros Hmax Hbu Hca.
  unfold verifySignIn, over_budget_check.
  rewrite (proj2 (Z.leb_le _ _) Hmax), Hbu.
  unfold bind at 1. unfold bind at 1. unfold time_Now at 1.
  set (fits := if blockedUntil <? _ then _ else _).
  assert (Hfits : exists b, fits (bump w) = (Val b, bump w)).
  { unfold fits. destruct (blockedUntil <? _).
    - rewrite Hca. eexists. reflexivity.
    - eexists. reflexivity. }
  destruct Hfits as (b & Hfits). unfold bind at 1. rewrite Hfits.
  destruct b; cbn [negb orb].
  - eexists _, _. split; reflexivity.
  - unfold ret at 1. rewrite orb_true_r.
    assert (Hb : (if ConfirmationCode_MaxWrongAttemptsCount cfg
                     <=? wrap64 (ConfirmationCodeWrongAttemptsCount els + 1)
                  then true else true) = true) by (destruct (_ <=? _); reflexivity).
    rewrite Hb. unfold bind. rewrite increase_blocking_cases.
    destruct (fault ext (S (calls (bump w)))) as [msg|].
    { eexists _, _. split; reflexivity. }
    destruct (sql_increase_attempts _ _ _ _) as [msg|[n d]];
      eexists _, _; split; reflexivity.
Qed.

(** C10. A row over budget whose block lies strictly between [created_at]
    and a clock reading [t0] plus the block duration. (1) After any calls
    into the engine, with any arguments, the row is still there, its
    counter has not decreased, its block is still set, and [verifySignIn]
    on a record that carries its blocking columns returns an error that is
    [ErrConfirmationCodeAttemptsExceeded]: it never returns nil. (2) On the
    row as it is, at any reading from [t0] on, also one past
    [blocked_until], [verifySignIn] returns exactly the wrapped
    [ErrConfirmationCodeAttemptsExceeded] and sends no statement. (3) No
    call decreases the counter of any row. *)
Theorem over_budget_record_never_verifies_again (cfg : Config) (ext : Extern) (w : World)
    (k : string * string) (r : Row) (blockedUntil t0 : Z) :
  email_link_sign_ins (db w) !! k = Some r ->
  ConfirmationCode_MaxWrongAttemptsCount cfg <= confirmation_code_wrong_attempts_count r ->
  blocked_until r = Some blockedUntil ->
  created_at r < blockedUntil ->
  blockedUntil < t0 + EmailValidation_BlockDuration cfg ->
  (forall cs, exists r',
      email_link_sign_ins (db (run cfg ext cs w)) !! k = Some r'
      /\ confirmation_code_wrong_attempts_count r <= confirmation_code_wrong_attempts_count r'
      /\ ConfirmationCode_MaxWrongAttemptsCount cfg <= confirmation_code_wrong_attempts_count r'
      /\ is_Some (blocked_until r')
      /\ forall els id code w2,
           reads_block_state els r' ->
           (forall w3, verifySignIn cfg ext els id code w2 <> (Val None, w3))
           /\ exists e w3,
                verifySignIn cfg ext els id code w2 = (Val (Some e), w3)
                /\ errors_Is e ErrConfirmationCodeAttemptsExceeded = true)
  /\ (forall els id code w2,
        reads_block_state els r ->
        t0 <= wall ext (calls w2) ->
        verifySignIn cfg ext els id code w2 = (Val (Some attempts_exceeded_error), bump w2))
  /\ (forall cs k2 r2,
        email_link_sign_ins (db w) !! k2 = Some r2 ->
        exists r2',
          email_link_sign_ins (db (run cfg ext cs w)) !! k2 = Some r2'
          /\ confirmation_code_wrong_attempts_count r2
             <= confirmation_code_wrong_attempts_count r2').
Proof.
  intros Hr Hmax Hbu Hlo Hhi. split; [|split].
  - intros cs.
    destruct (run_rows_grow cfg ext cs w k r Hr) as (r' & Hr' & Hc & Hca & Hb).
    destruct (Hb (ex_intro _ _ Hbu)) as (bu' & Hbu').
    exists r'. split; [exact Hr'|]. split; [exact Hc|]. split; [lia|].
    split; [eauto|].
    intros els id code w2 (E1 & E2 & E3).
    destruct (verifySignIn_over_budget cfg ext els id code w2 bu' (created_at r'))
      as (e & w3 & Hv & He); [lia | congruence | exact E1 |].
    split; [intros w3' H; congruence | eauto].
  - intros els id code w2 (E1 & E2 & E3) Ht.
    apply (verifySignIn_inside_window cfg ext els id code w2 blockedUntil (created_at r));
      [lia | congruence | exact E1 | exact Hlo | lia].
  - intros cs k2 r2 Hr2.
    destruct (run_rows_grow cfg ext cs w k2 r2 Hr2) as (r2' & Hr2' & Hc & _).
    eauto.
Qed.

(** The blocked row of the examples, whose block ended at 500: after a
    sign-in attempt and a poll, a presentation of the right code at the
    reading 1000 is rejected. *)
Lemma over_budget_record_never_verifies_again_witness :
  (exists r',
     email_link_sign_ins
       (db (run Demo.cfg Demo.ext [CallSignIn "token" "123456"; CallStatus "token"]
              Demo.blocked_world))
       !! ("alice@x.com", "D1") = Some r'
     /\ 3 <= confirmation_code_wrong_attempts_count r')
  /\ verifySignIn Demo.cfg Demo.ext (Demo.with_block 3 (Some 500) Demo.els) Demo.id "123456"
       Demo.blocked_world
     = (Val (Some attempts_exceeded_error), bump Demo.blocked_world).
Proof.
  destruct (over_budget_record_never_verifies_again Demo.cfg Demo.ext Demo.blocked_world
              ("alice@x.com", "D1") Demo.blocked_row 500 0) as (H1 & H2 & _).
  - reflexivity.
  - cbn. lia.
  - reflexivity.
  - cbn. lia.
  - cbn. lia.
  - split.
    + destruct (H1 [CallSignIn "token" "123456"; CallStatus "token"])
        as (r' & Hr' & Hc & _).
      exists r'. split; [exact Hr' | exact Hc].
    + apply H2; [repeat split | cbn; lia].
Defined.

(** ** The engine on the examples, with reads that see the writes *)

(** The right code on a fresh row: tokens are returned, both sequence
    columns go from 0 to 1, the code becomes the user id, the attempt is
    refunded, and a second presentation of the code is answered with
    [ErrNoPendingLoginSession]. *)
Example sign_in_then_replay :
  fst (SignIn Demo.cfg Demo.ext_live "token" "123456" Demo.fresh_world)
  = Val (Some {| RefreshToken := "refresh"; AccessToken := "access" |}, false, None)
  /\ (exists r,
        email_link_sign_ins (db (run Demo.cfg Demo.ext_live [CallSignIn "token" "123456"]
                                   Demo.fresh_world)) !! ("alice@x.com", "D1") = Some r
        /\ issued_token_seq r = 1
        /\ previously_issued_token_seq r = 1
        /\ confirmation_code r = Some "u1")
  /\ sign_ins_per_ip (db (run Demo.cfg Demo.ext_live [CallSignIn "token" "123456"]
                            Demo.fresh_world)) !! (7, "10.0.0.1") = Some 0
  /\ (exists e,
        fst (SignIn Demo.cfg Demo.ext_live "token" "123456"
               (run Demo.cfg Demo.ext_live [CallSignIn "token" "123456"] Demo.fresh_world))
        = Val (None, false, Some e)
        /\ errors_Is e ErrNoPendingLoginSession = true).
Proof.
  split; [vm_compute; reflexivity|].
  split; [eexists; split; [vm_compute; reflexivity | repeat split]|].
  split; [vm_compute; reflexivity|].
  eexists. split; [vm_compute; reflexivity | reflexivity].
Qed.

(** Three wrong codes with a limit of three: the third installs the block;
    the right code is then answered with
    [ErrConfirmationCodeAttemptsExceeded] and not with
    [ErrConfirmationCodeWrong], and the row is not written. *)
Example three_wrong_codes_then_the_right_one :
  (exists r,
     email_link_sign_ins (db Demo.after_three_wrong_codes) !! ("alice@x.com", "D1") = Some r
     /\ confirmation_code_wrong_attempts_count r = 3
     /\ blocked_until r = Some 1611)
  /\ (exists e,
        fst (SignIn Demo.cfg Demo.ext_live "token" "123456" Demo.after_three_wrong_codes)
        = Val (None, false, Some e)
        /\ errors_Is e ErrConfirmationCodeAttemptsExceeded = true
        /\ errors_Is e ErrConfirmationCodeWrong = false)
  /\ email_link_sign_ins
       (db (snd (SignIn Demo.cfg Demo.ext_live "token" "123456" Demo.after_three_wrong_codes)))
     = email_link_sign_ins (db Demo.after_three_wrong_codes).
Proof.
  split; [eexists; split; [vm_compute; reflexivity | split; reflexivity]|].
  split; [eexists; split; [vm_compute; reflexivity | split; reflexivity]|].
  vm_compute. reflexivity.
Qed.

(** Two calls of [finishAuthProcess] with the same pre-read sequence 5: the
    first returns 6, the second finds no row to update and loses. *)
Example two_finalizers_same_sequence :
  fst (finishAuthProcess Demo.cfg Demo.ext 1000 Demo.id "u1" 5 true None Demo.world)
  = Val (6, None)
  /\ fst (finishAuthProcess Demo.cfg Demo.ext 1001 Demo.id "u1" 5 true None
            (snd (finishAuthProcess Demo.cfg Demo.ext 1000 Demo.id "u1" 5 true None Demo.world)))
     = Val (0, Some race_lost_error).
Proof. split; vm_compute; reflexivity. Qed.

(** * Further properties of the engine *)

(** ** [verifySignIn], case by case *)

Lemma increase_cases (cfg : Config) (ext : Extern) (id : loginID) (b : bool) (w : World) :
  increaseWrongConfirmationCodeAttemptsCount cfg ext id b w =
  let w1 := if b then bump w else w in
  let block := if b then Some (wall ext (calls w) + EmailValidation_BlockDuration cfg)
               else None in
  match fault ext (calls w1) with
  | Some msg =>
      (Val (Some (Wrapf "can't update email link sign ins for the user with pk:%#v"
                        (Base (Opaque msg)))),
       bump w1)
  | None =>
      match sql_increase_attempts (id_Email id) (id_DeviceUniqueID id) block (db w) with
      | inl msg =>
          (Val (Some (Wrapf "can't update email link sign ins for the user with pk:%#v"
                            (Base (Opaque msg)))),
           bump w1)
      | inr (_, d) => (Val None, {| db := d; calls := S (calls w1) |})
      end
  end.
Proof.
  unfold increaseWrongConfirmationCodeAttemptsCount, storage_Exec, run_stmt, bind, time_Now, ret.
  destruct b; cbn [calls bump db].
  - destruct (fault ext (S (calls w))) as [msg|]; [reflexivity|].
    destruct (sql_increase_attempts _ _ _ _) as [msg|[n d]]; reflexivity.
  - destruct (fault ext (calls w)) as [msg|]; [reflexivity|].
    destruct (sql_increase_attempts _ _ _ _) as [msg|[n d]]; reflexivity.
Qed.

(** The increment never panics and never reports success as a failure of
    its own making: it returns. *)
Lemma increase_returns (cfg : Config) (ext : Extern) (id : loginID) (b : bool) (w : World) :
  exists iErr w',
    increaseWrongConfirmationCodeAttemptsCount cfg ext id b w = (Val iErr, w').
Proof.
  rewrite increase_cases. cbv zeta.
  destruct (fault ext _) as [msg|]; [eauto|].
  destruct (sql_increase_attempts _ _ _ _) as [msg|[n d]]; eauto.
Qed.

(** The tail of [verifySignIn] after the increment: a multierror that ends
    with the wrong-code error, never nil. *)
Lemma wrong_code_tail (mErr : option (list error)) (iErr : option error) :
  ErrorOrNil
    (multierror_Append
       match iErr with
       | Some _ =>
           multierror_Append mErr
             [errors_Wrapf iErr
                "can't increment wrong confirmation code attempts count for email:%v,deviceUniqueID:%v"]
       | None => mErr
       end
       [errors_Wrapf (Some (Base ErrConfirmationCodeWrong)) "wrong confirmation code:%v"])
  = Some (Multi ((default [] mErr
                  ++ match iErr with
                     | Some e =>
                         [Wrapf "can't increment wrong confirmation code attempts count for email:%v,deviceUniqueID:%v" e]
                     | None => []
                     end)
                 ++ [wrong_code_error])%list).
Proof.
  assert (H : forall xs : list error,
             ErrorOrNil (Some (xs ++ [wrong_code_error])%list)
             = Some (Multi (xs ++ [wrong_code_error])%list)).
  { intros [|x xs]; reflexivity. }
  destruct iErr as [e|]; unfold multierror_Append;
    cbn [map concat flatten1 errors_Wrapf default from_option id];
    rewrite ?app_nil_r; apply H.
Qed.

Lemma verifySignIn_cases (cfg : Config) (ext : Extern) (els : emailLinkSignIn)
    (id : loginID) (code : string) (w : World) :
  verifySignIn cfg ext els id code w =
  if ConfirmationCode_MaxWrongAttemptsCount cfg <=? ConfirmationCodeWrongAttemptsCount els
  then
    match BlockedUntil els with
    | None => (Panicked "nil pointer dereference: els.BlockedUntil", bump w)
    | Some blockedUntil =>
        if blockedUntil <? wall ext (calls w) + EmailValidation_BlockDuration cfg
        then match CreatedAt els with
             | None => (Panicked "nil pointer dereference: els.CreatedAt", bump w)
             | Some createdAt =>
                 if createdAt <? blockedUntil
                 then (Val (Some attempts_exceeded_error), bump w)
                 else count_wrong_attempt cfg ext els id true [attempts_exceeded_error] (bump w)
             end
        else count_wrong_attempt cfg ext els id true [attempts_exceeded_error] (bump w)
    end
  else if bool_decide (ConfirmationCode els = code)
       then (Val None, w)
       else count_wrong_attempt cfg ext els id false [] w.
Proof.
  assert (Htail : forall sb mErr w1,
            bind (increaseWrongConfirmationCodeAttemptsCount cfg ext id
                    (if ConfirmationCode_MaxWrongAttemptsCount cfg
                        <=? wrap64 (ConfirmationCodeWrongAttemptsCount els + 1)
                     then true else sb))
                 (fun iErr =>
                    ret (ErrorOrNil
                           (multierror_Append
                              match iErr with
                              | Some _ =>
                                  multierror_Append mErr
                                    [errors_Wrapf iErr
                                       "can't increment wrong confirmation code attempts count for email:%v,deviceUniqueID:%v"]
                              | None => mErr
                              end
                              [errors_Wrapf (Some (Base ErrConfirmationCodeWrong))
                                 "wrong confirmation code:%v"]))) w1
            = count_wrong_attempt cfg ext els id sb (default [] mErr) w1).
  { intros sb mErr w1. unfold bind, count_wrong_attempt. cbv zeta.
    destruct (increaseWrongConfirmationCodeAttemptsCount _ _ _ _ _) as [[iErr|why] w2];
      [|reflexivity].
    unfold ret. rewrite wrong_code_tail. reflexivity. }
  unfold verifySignIn, over_budget_check.
  destruct (ConfirmationCode_MaxWrongAttemptsCount cfg <=? ConfirmationCodeWrongAttemptsCount els).
  - unfold bind at 1. unfold bind at 1. unfold time_Now at 1.
    destruct (BlockedUntil els) as [bu|]; [|reflexivity].
    unfold bind at 1.
    destruct (bu <? wall ext (calls w) + EmailValidation_BlockDuration cfg).
    + destruct (CreatedAt els) as [ca|]; [|reflexivity].
      unfold ret at 1. destruct (ca <? bu); cbn [negb orb].
      * reflexivity.
      * unfold ret at 1. cbv beta iota. rewrite orb_true_r.
        exact (Htail true (multierror_Append None [Some attempts_exceeded_error]) (bump w)).
    + unfold ret at 1. cbn [negb orb]. unfold ret at 1. cbv beta iota. rewrite orb_true_r.
      exact (Htail true (multierror_Append None [Some attempts_exceeded_error]) (bump w)).
  - unfold bind at 1. unfold ret at 1.
    destruct (bool_decide (ConfirmationCode els = code)); cbn [negb orb].
    + reflexivity.
    + exact (Htail false None w).
Qed.

Lemma count_wrong_attempt_returns (cfg : Config) (ext : Extern) (els : emailLinkSignIn)
    (id : loginID) (sb : bool) (mErr : list error) (w : World) :
  exists iErr w',
    count_wrong_attempt cfg ext els id sb mErr w
    = (Val (Some (Multi ((mErr
                          ++ match iErr with
                             | Some e =>
                                 [Wrapf "can't increment wrong confirmation code attempts count for email:%v,deviceUniqueID:%v" e]
                             | None => []
                             end)
                         ++ [wrong_code_error])%list)),
       w').
Proof.
  unfold count_wrong_attempt. cbv zeta.
  destruct (increase_returns cfg ext id
              (if ConfirmationCode_MaxWrongAttemptsCount cfg
                  <=? wrap64 (ConfirmationCodeWrongAttemptsCount els + 1)
               then true else sb) w) as (iErr & w' & E).
  rewrite E. eauto.
Qed.

Lemma verifySignIn_nil_iff (cfg : Config) (ext : Extern) (els : emailLinkSignIn)
    (id : loginID) (code : string) (w w' : World) :
  verifySignIn cfg ext els id code w = (Val None, w')
  <-> (ConfirmationCodeWrongAttemptsCount els < ConfirmationCode_MaxWrongAttemptsCount cfg
       /\ ConfirmationCode els = code
       /\ w' = w).
Proof.
  rewrite verifySignIn_cases. split.
  - destruct (Z.leb_spec (ConfirmationCode_MaxWrongAttemptsCount cfg)
                         (ConfirmationCodeWrongAttemptsCount els)) as [Hle|Hlt].
    + destruct (BlockedUntil els) as [bu|]; [|discriminate].
      destruct (bu <? _).
      * destruct (CreatedAt els) as [ca|]; [|discriminate].
        destruct (ca <? bu); [discriminate|].
        destruct (count_wrong_attempt_returns cfg ext els id true [attempts_exceeded_error]
                    (bump w)) as (iErr & w2 & E).
        rewrite E. discriminate.
      * destruct (count_wrong_attempt_returns cfg ext els id true [attempts_exceeded_error]
                    (bump w)) as (iErr & w2 & E).
        rewrite E. discriminate.
    + destruct (bool_decide_reflect (ConfirmationCode els = code)) as [Heq|Hne].
      * intros [= <-]. auto.
      * destruct (count_wrong_attempt_returns cfg ext els id false [] w) as (iErr & w2 & E).
        rewrite E. discriminate.
  - intros (Hlt & Heq & ->).
    rewrite (proj2 (Z.leb_gt _ _) Hlt), (bool_decide_eq_true_2 _ Heq). reflexivity.
Qed.

(** X1. [verifySignIn] returns nil exactly when the record is under budget
    and the presented code is the stored one; it then reads no clock and
    sends no statement. *)
Theorem verifySignIn_accepts_iff (cfg : Config) (ext : Extern) (els : emailLinkSignIn)
    (id : loginID) (code : string) (w w' : World) :
  verifySignIn cfg ext els id code w = (Val None, w')
  <-> (ConfirmationCodeWrongAttemptsCount els < ConfirmationCode_MaxWrongAttemptsCount cfg
       /\ ConfirmationCode els = code
       /\ w' = w).
Proof. apply verifySignIn_nil_iff. Qed.

(** X2. [verifySignIn] panics exactly when the record is over budget and
    either [BlockedUntil] is nil, or [BlockedUntil] lies before the clock
    reading plus the block duration and [CreatedAt] is nil: the nil test of
    the source comes after the method calls. *)
Theorem verifySignIn_panics_iff (cfg : Config) (ext : Extern) (els : emailLinkSignIn)
    (id : loginID) (code : string) (w : World) :
  (exists why w', verifySignIn cfg ext els id code w = (Panicked why, w'))
  <-> (ConfirmationCode_MaxWrongAttemptsCount cfg <= ConfirmationCodeWrongAttemptsCount els
       /\ (BlockedUntil els = None
           \/ exists blockedUntil,
                BlockedUntil els = Some blockedUntil
                /\ blockedUntil < wall ext (calls w) + EmailValidation_BlockDuration cfg
                /\ CreatedAt els = None)).
Proof.
  rewrite verifySignIn_cases. split.
  - intros (why & w' & H).
    destruct (Z.leb_spec (ConfirmationCode_MaxWrongAttemptsCount cfg)
                         (ConfirmationCodeWrongAttemptsCount els)) as [Hle|Hlt].
    + split; [exact Hle|].
      destruct (BlockedUntil els) as [bu|]; [|auto]. right. exists bu.
      destruct (Z.ltb_spec bu (wall ext (calls w) + EmailValidation_BlockDuration cfg)).
      * destruct (CreatedAt els) as [ca|]; [|auto]. exfalso.
        destruct (ca <? bu); [discriminate|].
        destruct (count_wrong_attempt_returns cfg ext els id true [attempts_exceeded_error]
                    (bump w)) as (iErr & w2 & E).
        rewrite E in H. discriminate.
      * exfalso.
        destruct (count_wrong_attempt_returns cfg ext els id true [attempts_exceeded_error]
                    (bump w)) as (iErr & w2 & E).
        rewrite E in H. discriminate.
    + exfalso. destruct (bool_decide (ConfirmationCode els = code)); [discriminate|].
      destruct (count_wrong_attempt_returns cfg ext els id false [] w) as (iErr & w2 & E).
      rewrite E in H. discriminate.
  - intros (Hle & [Hnil | (bu & Hbu & Hlt & Hca)]).
    + rewrite (proj2 (Z.leb_le _ _) Hle), Hnil. eauto.
    + rewrite (proj2 (Z.leb_le _ _) Hle), Hbu, (proj2 (Z.ltb_lt _ _) Hlt), Hca. eauto.
Qed.

(** X3. A wrong code on a record that stays under budget after the
    increment: [verifySignIn] reads no clock and sends one statement, the
    increment without a block; the error is [ErrConfirmationCodeWrong] and
    not [ErrConfirmationCodeAttemptsExceeded]. When the statement is carried
    out, the counter of the row is one higher and [blocked_until] is as it
    was. *)
Theorem verifySignIn_wrong_code_under_budget (cfg : Config) (ext : Extern)
    (els : emailLinkSignIn) (id : loginID) (code : string) (w : World) :
  min_int64 <= ConfirmationCodeWrongAttemptsCount els ->
  ConfirmationCodeWrongAttemptsCount els + 1 < ConfirmationCode_MaxWrongAttemptsCount cfg ->
  ConfirmationCode_MaxWrongAttemptsCount cfg <= max_int64 ->
  ConfirmationCode els <> code ->
  exists e w',
    verifySignIn cfg ext els id code w = (Val (Some e), w')
    /\ calls w' = S (calls w)
    /\ errors_Is e ErrConfirmationCodeWrong = true
    /\ errors_Is e ErrConfirmationCodeAttemptsExceeded = false
    /\ (forall r,
          email_link_sign_ins (db w) !! (id_Email id, id_DeviceUniqueID id) = Some r ->
          fault ext (calls w) = None ->
          in_bigint (confirmation_code_wrong_attempts_count r + 1) = true ->
          e = Multi [wrong_code_error]
          /\ exists r',
               email_link_sign_ins (db w') !! (id_Email id, id_DeviceUniqueID id) = Some r'
               /\ confirmation_code_wrong_attempts_count r'
                  = confirmation_code_wrong_attempts_count r + 1
               /\ blocked_until r' = blocked_until r).
Proof.
  intros Hmin Hlt Hmax Hne.
  rewrite verifySignIn_cases.
  rewrite (proj2 (Z.leb_gt _ _)) by lia.
  rewrite (bool_decide_eq_false_2 _ Hne).
  unfold count_wrong_attempt. cbv zeta.
  rewrite wrap64_id by lia.
  rewrite (proj2 (Z.leb_gt _ _)) by lia.
  rewrite increase_cases. cbv zeta.
  destruct (fault ext (calls w)) as [msg|] eqn:Hf.
  { eexists _, _. split; [reflexivity|]. split; [reflexivity|].
    split; [reflexivity|]. split; [reflexivity|]. intros r _ Hf'. discriminate Hf'. }
  unfold sql_increase_attempts.
  destruct (email_link_sign_ins (db w) !! (id_Email id, id_DeviceUniqueID id)) as [r|] eqn:Hr.
  - destruct (in_bigint (confirmation_code_wrong_attempts_count r + 1)) eqn:Hb.
    + eexists _, _. split; [reflexivity|]. split; [reflexivity|].
      split; [reflexivity|]. split; [reflexivity|].
      intros r0 [= <-] _ _. split; [reflexivity|].
      exists (increase_row None r).
      cbn [db email_link_sign_ins set_sign_ins]. rewrite lookup_insert_eq.
      split; [reflexivity|]. split; reflexivity.
    + eexists _, _. split; [reflexivity|]. split; [reflexivity|].
      split; [reflexivity|]. split; [reflexivity|].
      intros r0 [= <-] _ Hb'. congruence.
  - eexists _, _. split; [reflexivity|]. split; [reflexivity|].
    split; [reflexivity|]. split; [reflexivity|].
    intros r0 Hr0. discriminate Hr0.
Qed.

Lemma verifySignIn_wrong_code_under_budget_witness :
  exists e w',
    verifySignIn Demo.cfg Demo.ext (Demo.with_block 0 None Demo.els) Demo.id "000000"
      Demo.fresh_world = (Val (Some e), w')
    /\ calls w' = S (calls Demo.fresh_world)
    /\ errors_Is e ErrConfirmationCodeWrong = true
    /\ errors_Is e ErrConfirmationCodeAttemptsExceeded = false.
Proof.
  destruct (verifySignIn_wrong_code_under_budget Demo.cfg Demo.ext
              (Demo.with_block 0 None Demo.els) Demo.id "000000" Demo.fresh_world)
    as (e & w' & H1 & H2 & H3 & H4 & _).
  - cbn. unfold min_int64. lia.
  - cbn. lia.
  - cbn. unfold max_int64. lia.
  - discriminate.
  - exists e, w'. auto.
Defined.

(** X4. A record over budget whose block does not fit the window
    ([BlockedUntil] not before the clock reading plus the block duration,
    or not after [CreatedAt]): [verifySignIn] rejects every code, the
    stored one too, with an error that is both
    [ErrConfirmationCodeAttemptsExceeded] and [ErrConfirmationCodeWrong],
    and sends the increment with a new block computed from a second clock
    reading. *)
Theorem verifySignIn_over_budget_outside_window (cfg : Config) (ext : Extern)
    (els : emailLinkSignIn) (id : loginID) (code : string) (w : World)
    (blockedUntil createdAt : Z) :
  ConfirmationCode_MaxWrongAttemptsCount cfg <= ConfirmationCodeWrongAttemptsCount els ->
  BlockedUntil els = Some blockedUntil ->
  CreatedAt els = Some createdAt ->
  wall ext (calls w) + EmailValidation_BlockDuration cfg <= blockedUntil
  \/ blockedUntil <= createdAt ->
  exists e w',
    verifySignIn cfg ext els id code w = (Val (Some e), w')
    /\ calls w' = S (S (S (calls w)))
    /\ errors_Is e ErrConfirmationCodeAttemptsExceeded = true
    /\ errors_Is e ErrConfirmationCodeWrong = true
    /\ (forall r,
          email_link_sign_ins (db w) !! (id_Email id, id_DeviceUniqueID id) = Some r ->
          fault ext (S (S (calls w))) = None ->
          in_bigint (confirmation_code_wrong_attempts_count r + 1) = true ->
          e = Multi [attempts_exceeded_error; wrong_code_error]
          /\ exists r',
               email_link_sign_ins (db w') !! (id_Email id, id_DeviceUniqueID id) = Some r'
               /\ confirmation_code_wrong_attempts_count r'
                  = confirmation_code_wrong_attempts_count r + 1
               /\ blocked_until r'
                  = Some (wall ext (S (calls w)) + EmailValidation_BlockDuration cfg)).
Proof.
  intros Hle Hbu Hca Hout.
  assert (E : verifySignIn cfg ext els id code w
              = count_wrong_attempt cfg ext els id true [attempts_exceeded_error] (bump w)).
  { rewrite verifySignIn_cases, (proj2 (Z.leb_le _ _) Hle), Hbu, Hca.
    destruct (Z.ltb_spec blockedUntil
                (wall ext (calls w) + EmailValidation_BlockDuration cfg)); [|reflexivity].
    rewrite (proj2 (Z.ltb_ge _ _)) by lia. reflexivity. }
  rewrite E. unfold count_wrong_attempt. cbv zeta.
  assert (Hb : (if ConfirmationCode_MaxWrongAttemptsCount cfg
                   <=? wrap64 (ConfirmationCodeWrongAttemptsCount els + 1)
                then true else true) = true) by (destruct (_ <=? _); reflexivity).
  rewrite Hb, increase_cases. cbv zeta. cbn [calls bump db].
  destruct (fault ext (S (S (calls w)))) as [msg|] eqn:Hf.
  { eexists _, _. split; [reflexivity|]. split; [reflexivity|].
    split; [reflexivity|]. split; [reflexivity|]. intros r _ Hf'. discriminate Hf'. }
  unfold sql_increase_attempts.
  destruct (email_link_sign_ins (db w) !! (id_Email id, id_DeviceUniqueID id)) as [r|] eqn:Hr.
  - destruct (in_bigint (confirmation_code_wrong_attempts_count r + 1)) eqn:Hbig.
    + eexists _, _. split; [reflexivity|]. split; [reflexivity|].
      split; [reflexivity|]. split; [reflexivity|].
      intros r0 [= <-] _ _. split; [reflexivity|].
      exists (increase_row
                (Some (wall ext (S (calls w)) + EmailValidation_BlockDuration cfg)) r).
      cbn [db email_link_sign_ins set_sign_ins]. rewrite lookup_insert_eq.
      split; [reflexivity|]. split; reflexivity.
    + eexists _, _. split; [reflexivity|]. split; [reflexivity|].
      split; [reflexivity|]. split; [reflexivity|].
      intros r0 [= <-] _ Hb'. congruence.
  - eexists _, _. split; [reflexivity|]. split; [reflexivity|].
    split; [reflexivity|]. split; [reflexivity|].
    intros r0 Hr0. discriminate Hr0.
Qed.

(** A block that ends at 5000, later than the reading 1000 plus 600: the
    stored code is rejected with both errors. *)
Lemma verifySignIn_over_budget_outside_window_witness :
  exists e w',
    verifySignIn Demo.cfg Demo.ext (Demo.with_block 3 (Some 5000) Demo.els) Demo.id "123456"
      Demo.world = (Val (Some e), w')
    /\ errors_Is e ErrConfirmationCodeAttemptsExceeded = true
    /\ errors_Is e ErrConfirmationCodeWrong = true.
Proof.
  destruct (verifySignIn_over_budget_outside_window Demo.cfg Demo.ext
              (Demo.with_block 3 (Some 5000) Demo.els) Demo.id "123456" Demo.world 5000 100)
    as (e & w' & H1 & _ & H3 & H4 & _).
  - cbn. lia.
  - reflexivity.
  - reflexivity.
  - left. cbn. lia.
  - exists e, w'. auto.
Defined.

(** ** [finishAuthProcess]: what else it writes, and what it leaves *)

Lemma upsert_metadata_lookup (u : string) (m : JSON) (t : gmap string JSON) :
  upsert_metadata u m t !! u = Some m.
Proof.
  unfold upsert_metadata. destruct (t !! u) as [old|] eqn:E.
  - destruct (decide (old = m)) as [->|]; [exact E | apply lookup_insert_eq].
  - apply lookup_insert_eq.
Qed.

Lemma upsert_metadata_other (u u' : string) (m : JSON) (t : gmap string JSON) :
  u' <> u -> upsert_metadata u m t !! u' = t !! u'.
Proof.
  intros Hne. unfold upsert_metadata. destruct (t !! u) as [old|].
  - destruct (decide (old = m)); [reflexivity|]. apply lookup_insert_ne. congruence.
  - apply lookup_insert_ne. congruence.
Qed.

(** X5. Whatever [finishAuthProcess] returns, it leaves every other row of
    the sign-in table, the per-IP counters and the metadata of every other
    user as they were. *)
Theorem finishAuthProcess_touches_one_row_one_account (cfg : Config) (ext : Extern)
    (now : Z) (id : loginID) (userID : string) (seq : Z) (ec : bool) (md : option JSON)
    (w : World) :
  (forall k, k <> (id_Email id, id_DeviceUniqueID id) ->
     email_link_sign_ins (db (snd (finishAuthProcess cfg ext now id userID seq ec md w))) !! k
     = email_link_sign_ins (db w) !! k)
  /\ sign_ins_per_ip (db (snd (finishAuthProcess cfg ext now id userID seq ec md w)))
     = sign_ins_per_ip (db w)
  /\ (forall u, u <> userID ->
        account_metadata (db (snd (finishAuthProcess cfg ext now id userID seq ec md w))) !! u
        = account_metadata (db w) !! u).
Proof.
  rewrite finishAuthProcess_cases.
  destruct (metadata_to_update cfg ext userID md) as [[err|m]|why]; try (repeat split; fail).
  destruct (fault ext (calls w)) as [msg|]; [repeat split|].
  unfold sql_finish_auth. cbv zeta.
  destruct (email_link_sign_ins (db w) !! (id_Email id, id_DeviceUniqueID id)) as [r|].
  - destruct (bool_decide _).
    + destruct (in_bigint _); [|repeat split].
      cbn [snd db email_link_sign_ins sign_ins_per_ip account_metadata set_sign_ins set_metadata].
      split; [|split].
      * intros k Hk. apply lookup_insert_ne. congruence.
      * reflexivity.
      * intros u Hu. apply upsert_metadata_other, Hu.
    + cbn [snd db email_link_sign_ins sign_ins_per_ip account_metadata set_metadata].
      split; [|split]; [reflexivity | reflexivity |].
      intros u Hu. apply upsert_metadata_other, Hu.
  - cbn [snd db email_link_sign_ins sign_ins_per_ip account_metadata set_metadata].
    split; [|split]; [reflexivity | reflexivity |].
    intros u Hu. apply upsert_metadata_other, Hu.
Qed.

(** X6. When the statement of [finishAuthProcess] is carried out, the
    merged metadata is stored for the user, also when the UPDATE finds no
    row and the call loses the race: the upsert is a data-modifying CTE of
    the same statement. *)
Theorem finishAuthProcess_stores_metadata (cfg : Config) (ext : Extern)
    (now : Z) (id : loginID) (userID : string) (seq : Z) (ec : bool) (md : option JSON)
    (m : JSON) (w : World) :
  metadata_to_update cfg ext userID md = Val (inr m) ->
  fault ext (calls w) = None ->
  (forall r, email_link_sign_ins (db w) !! (id_Email id, id_DeviceUniqueID id) = Some r ->
             issued_token_seq r = seq -> in_bigint (issued_token_seq r + 1) = true) ->
  account_metadata (db (snd (finishAuthProcess cfg ext now id userID seq ec md w))) !! userID
  = Some m
  /\ ((forall r, email_link_sign_ins (db w) !! (id_Email id, id_DeviceUniqueID id) = Some r ->
                 issued_token_seq r <> seq) ->
      fst (finishAuthProcess cfg ext now id userID seq ec md w) = Val (0, Some race_lost_error)).
Proof.
  intros Hmd Hf Hbig. rewrite finishAuthProcess_cases, Hmd, Hf. split.
  - unfold sql_finish_auth. cbv zeta.
    destruct (email_link_sign_ins (db w) !! (id_Email id, id_DeviceUniqueID id)) as [r|] eqn:Hr.
    + destruct (bool_decide_reflect (issued_token_seq r = seq)) as [E|];
        [rewrite (Hbig r eq_refl E)|]; cbn; apply upsert_metadata_lookup.
    + cbn. apply upsert_metadata_lookup.
  - intros Hne. rewrite (sql_finish_auth_none _ _ _ _ _ _ _ _ Hne). reflexivity.
Qed.

(** In the world without rows the race is lost, and the metadata of "u1"
    is written all the same. *)
Lemma finishAuthProcess_stores_metadata_witness :
  account_metadata
    (db (snd (finishAuthProcess Demo.cfg Demo.ext 1000 Demo.id "u1" 5 true None
                Demo.empty_world))) !! "u1"
  = Some ({[ "iceID" := JStr "u1" ]} : JSON)
  /\ fst (finishAuthProcess Demo.cfg Demo.ext 1000 Demo.id "u1" 5 true None Demo.empty_world)
     = Val (0, Some race_lost_error).
Proof.
  destruct (finishAuthProcess_stores_metadata Demo.cfg Demo.ext 1000 Demo.id "u1" 5 true None
              ({[ "iceID" := JStr "u1" ]} : JSON) Demo.empty_world) as [H1 H2].
  - vm_compute. reflexivity.
  - reflexivity.
  - intros r Hr. vm_compute in Hr. discriminate Hr.
  - split; [exact H1|]. apply H2. intros r Hr. vm_compute in Hr. discriminate Hr.
Defined.

(** X7. At the largest sequence number the addition of the statement is
    out of range for BIGINT: [finishAuthProcess] fails with a storage
    failure, which is not [ErrNoConfirmationRequired], and writes nothing,
    the metadata included. *)
Theorem finishAuthProcess_sequence_overflow (cfg : Config) (ext : Extern)
    (now : Z) (id : loginID) (userID : string) (ec : bool) (md : option JSON)
    (m : JSON) (r : Row) (w : World) :
  metadata_to_update cfg ext userID md = Val (inr m) ->
  fault ext (calls w) = None ->
  email_link_sign_ins (db w) !! (id_Email id, id_DeviceUniqueID id) = Some r ->
  issued_token_seq r = max_int64 ->
  finishAuthProcess cfg ext now id userID max_int64 ec md w
  = (Val (0, Some (storage_failure "bigint out of range")), bump w)
  /\ errors_Is (storage_failure "bigint out of range") ErrNoConfirmationRequired = false
  /\ db (bump w) = db w.
Proof.
  intros Hmd Hf Hr Hseq. rewrite finishAuthProcess_cases, Hmd, Hf.
  unfold sql_finish_auth. cbv zeta. rewrite Hr, Hseq.
  rewrite bool_decide_eq_true_2 by reflexivity.
  repeat split.
Qed.

Lemma finishAuthProcess_sequence_overflow_witness :
  finishAuthProcess Demo.cfg Demo.ext 1000 Demo.id "u1" max_int64 true None Demo.saturated_world
  = (Val (0, Some (storage_failure "bigint out of range")), bump Demo.saturated_world).
Proof.
  refine (proj1 (finishAuthProcess_sequence_overflow Demo.cfg Demo.ext 1000 Demo.id "u1" true
                   None ({[ "iceID" := JStr "u1" ]} : JSON) Demo.saturated_row
                   Demo.saturated_world _ _ _ _)).
  - vm_compute. reflexivity.
  - reflexivity.
  - reflexivity.
  - reflexivity.
Defined.

(** ** [resetLoginSession] *)

Lemma resetLoginSession_cases (ext : Extern) (id : loginID) (els : emailLinkSignIn)
    (prev clientIP : string) (n : Z) (w : World) :
  resetLoginSession ext id els prev clientIP n w =
  match fault ext (calls w) with
  | Some msg =>
      (Val (Some (Wrapf "failed to reset login session by id:%#v and confirmationCode:%v"
                        (Base (Opaque msg)))),
       bump w)
  | None =>
      match sql_reset_login_session (UserID els) (id_Email id) (id_DeviceUniqueID id) prev
              (wrap64 (IssuedTokenSeq els + 1))
              (if negb (bool_decide (clientIP = "")) && (0 <? n)
               then Some (clientIP, n) else None) (db w) with
      | inl msg =>
          (Val (Some (Wrapf "failed to reset login session by id:%#v and confirmationCode:%v"
                            (Base (Opaque msg)))),
           bump w)
      | inr (_, d) => (Val None, {| db := d; calls := S (calls w) |})
      end
  end.
Proof.
  unfold resetLoginSession, storage_Exec, run_stmt, bind, ret. cbv zeta.
  destruct (fault ext (calls w)) as [msg|]; [reflexivity|].
  destruct (sql_reset_login_session _ _ _ _ _ _ _) as [msg|[k d]]; reflexivity.
Qed.

Lemma resetLoginSession_effect (ext : Extern) (id : loginID)
    (els : emailLinkSignIn) (prev clientIP : string) (n : Z) (w : World) :
  account_metadata (db (snd (resetLoginSession ext id els prev clientIP n w)))
  = account_metadata (db w)
  /\ (email_link_sign_ins (db (snd (resetLoginSession ext id els prev clientIP n w)))
      = email_link_sign_ins (db w)
      \/ exists r,
           email_link_sign_ins (db w) !! (id_Email id, id_DeviceUniqueID id) = Some r
           /\ confirmation_code r = Some prev
           /\ issued_token_seq r = wrap64 (IssuedTokenSeq els + 1)
           /\ email_link_sign_ins (db (snd (resetLoginSession ext id els prev clientIP n w)))
              = <[(id_Email id, id_DeviceUniqueID id) := with_confirmation_code (UserID els) r]>
                  (email_link_sign_ins (db w)))
  /\ (forall r,
        email_link_sign_ins (db w) !! (id_Email id, id_DeviceUniqueID id) = Some r ->
        confirmation_code r = Some prev ->
        issued_token_seq r = wrap64 (IssuedTokenSeq els + 1) ->
        fst (resetLoginSession ext id els prev clientIP n w) = Val None ->
        email_link_sign_ins (db (snd (resetLoginSession ext id els prev clientIP n w)))
          !! (id_Email id, id_DeviceUniqueID id)
        = Some (with_confirmation_code (UserID els) r)).
Proof.
  rewrite resetLoginSession_cases.
  destruct (fault ext (calls w)) as [msg|].
  { split; [reflexivity|]. split; [left; reflexivity|]. intros r _ _ _ H. discriminate H. }
  unfold sql_reset_login_session.
  destruct (match (if negb (bool_decide (clientIP = "")) && (0 <? n)
                   then Some (clientIP, n) else None) with
            | Some (ip, n0) => sql_decrement_ip ip n0 (sign_ins_per_ip (db w))
            | None => inr (sign_ins_per_ip (db w))
            end) as [msg|ips].
  { split; [reflexivity|]. split; [left; reflexivity|]. intros r _ _ _ H. discriminate H. }
  cbv zeta.
  destruct (email_link_sign_ins (db w) !! (id_Email id, id_DeviceUniqueID id)) as [r|] eqn:Hr.
  - destruct (sql_eq_text (confirmation_code r) prev) eqn:Hc; cbn [andb].
    + destruct (bool_decide_reflect (issued_token_seq r = wrap64 (IssuedTokenSeq els + 1)))
        as [Hs|Hs].
      * cbn [snd fst db email_link_sign_ins account_metadata set_sign_ins set_per_ip].
        split; [reflexivity|]. split.
        -- right. exists r. repeat split; auto.
           unfold sql_eq_text in Hc. destruct (confirmation_code r) as [c|]; [|discriminate].
           apply bool_decide_eq_true_1 in Hc. congruence.
        -- intros r0 [= <-] _ _ _. apply lookup_insert_eq.
      * split; [reflexivity|]. split; [left; reflexivity|].
        intros r0 [= <-] _ Hs'. contradiction.
    + split; [reflexivity|]. split; [left; reflexivity|].
      intros r0 [= <-] Hc' _. rewrite Hc' in Hc. cbn in Hc.
      rewrite bool_decide_eq_true_2 in Hc by reflexivity. discriminate.
  - split; [reflexivity|]. split; [left; reflexivity|]. intros r0 H. discriminate H.
Qed.

(** X8. [resetLoginSession] rewrites nothing of the sign-in table but the
    confirmation code of the row of its key, and that only when the row
    holds the previous confirmation code and the sequence number read plus
    one; it never touches the metadata. When the statement is carried out
    on such a row, the code becomes the record's user id. *)
Theorem resetLoginSession_marks_only_the_finished_row (ext : Extern) (id : loginID)
    (els : emailLinkSignIn) (prev clientIP : string) (n : Z) (w : World) :
  account_metadata (db (snd (resetLoginSession ext id els prev clientIP n w)))
  = account_metadata (db w)
  /\ (email_link_sign_ins (db (snd (resetLoginSession ext id els prev clientIP n w)))
      = email_link_sign_ins (db w)
      \/ exists r,
           email_link_sign_ins (db w) !! (id_Email id, id_DeviceUniqueID id) = Some r
           /\ confirmation_code r = Some prev
           /\ issued_token_seq r = wrap64 (IssuedTokenSeq els + 1)
           /\ email_link_sign_ins (db (snd (resetLoginSession ext id els prev clientIP n w)))
              = <[(id_Email id, id_DeviceUniqueID id) := with_confirmation_code (UserID els) r]>
                  (email_link_sign_ins (db w)))
  /\ (forall r,
        email_link_sign_ins (db w) !! (id_Email id, id_DeviceUniqueID id) = Some r ->
        confirmation_code r = Some prev ->
        issued_token_seq r = wrap64 (IssuedTokenSeq els + 1) ->
        fst (resetLoginSession ext id els prev clientIP n w) = Val None ->
        email_link_sign_ins (db (snd (resetLoginSession ext id els prev clientIP n w)))
          !! (id_Email id, id_DeviceUniqueID id)
        = Some (with_confirmation_code (UserID els) r)).
Proof. apply resetLoginSession_effect. Qed.

(** X9. The refund of [resetLoginSession]: without a client IP or with a
    login session number that is not positive, the per-IP counters are left
    alone; otherwise, when the statement is carried out, the counter of
    that IP and session is one lower, not below zero, and no other counter
    moves. *)
Theorem resetLoginSession_refunds_one_attempt (ext : Extern) (id : loginID)
    (els : emailLinkSignIn) (prev clientIP : string) (n : Z) (w : World) :
  (clientIP = "" \/ n <= 0 ->
   sign_ins_per_ip (db (snd (resetLoginSession ext id els prev clientIP n w)))
   = sign_ins_per_ip (db w))
  /\ (forall k, k <> (n, clientIP) ->
        sign_ins_per_ip (db (snd (resetLoginSession ext id els prev clientIP n w))) !! k
        = sign_ins_per_ip (db w) !! k)
  /\ (forall v,
        clientIP <> "" -> 0 < n ->
        sign_ins_per_ip (db w) !! (n, clientIP) = Some v ->
        min_int64 < v <= 10 ->
        fault ext (calls w) = None ->
        sign_ins_per_ip (db (snd (resetLoginSession ext id els prev clientIP n w)))
          !! (n, clientIP) = Some (Z.max (v - 1) 0)).
Proof.
  rewrite resetLoginSession_cases.
  assert (Hkeep : forall (o : option (string * Z)) (d : DB) (k : Z),
            sql_reset_login_session (UserID els) (id_Email id) (id_DeviceUniqueID id) prev
              (wrap64 (IssuedTokenSeq els + 1)) o (db w) = inr (k, d) ->
            match o with
            | None => sign_ins_per_ip d = sign_ins_per_ip (db w)
            | Some (ip, m) => sql_decrement_ip ip m (sign_ins_per_ip (db w))
                              = inr (sign_ins_per_ip d)
            end).
  { intros o d k. unfold sql_reset_login_session.
    destruct o as [[ip m]|].
    - destruct (sql_decrement_ip ip m (sign_ins_per_ip (db w))) as [msg|ips]; [discriminate|].
      cbv zeta. destruct (email_link_sign_ins (db w) !! _) as [r|];
        [destruct (_ && _)|]; intros [= _ <-]; reflexivity.
    - cbv zeta. destruct (email_link_sign_ins (db w) !! _) as [r|];
        [destruct (_ && _)|]; intros [= _ <-]; reflexivity. }
  split; [|split].
  - intros Hoff.
    assert (E : negb (bool_decide (clientIP = "")) && (0 <? n) = false).
    { destruct Hoff as [-> | Hn].
      - reflexivity.
      - rewrite (proj2 (Z.ltb_ge _ _) Hn). apply andb_false_r. }
    rewrite E.
    destruct (fault ext (calls w)) as [msg|]; [reflexivity|].
    destruct (sql_reset_login_session _ _ _ _ _ _ _) as [msg|[k d]] eqn:Hs; [reflexivity|].
    exact (Hkeep None d k Hs).
  - intros k Hk.
    destruct (fault ext (calls w)) as [msg|]; [reflexivity|].
    destruct (sql_reset_login_session _ _ _ _ _ _ _) as [msg|[k0 d]] eqn:Hs; [reflexivity|].
    apply Hkeep in Hs. cbn [snd db].
    destruct (negb (bool_decide (clientIP = "")) && (0 <? n)); [|rewrite Hs; reflexivity].
    unfold sql_decrement_ip in Hs.
    destruct (sign_ins_per_ip (db w) !! (n, clientIP)) as [v|].
    + destruct (in_bigint _); [|discriminate]. destruct (_ <=? 10); [|discriminate].
      injection Hs as Hs. rewrite <- Hs. apply lookup_insert_ne. congruence.
    + injection Hs as Hs. rewrite <- Hs. reflexivity.
  - intros v Hip Hn Hv Hrange Hf. rewrite Hf.
    rewrite (bool_decide_eq_false_2 _ Hip), (proj2 (Z.ltb_lt _ _) Hn). cbn [negb andb].
    unfold sql_reset_login_session, sql_decrement_ip. rewrite Hv.
    assert (Hb : in_bigint (v - 1) = true).
    { unfold in_bigint, min_int64, max_int64 in *.
      apply andb_true_intro. split; apply Z.leb_le; lia. }
    rewrite Hb, (proj2 (Z.leb_le (Z.max (v - 1) 0) 10)) by lia. cbv zeta.
    destruct (email_link_sign_ins (db w) !! _) as [r|]; [destruct (_ && _)|];
      cbn [fst snd db sign_ins_per_ip set_sign_ins set_per_ip];
      apply lookup_insert_eq.
Qed.

(** ** Invariants of the sign-in table *)

Section RowsRelated.

Variable cfg : Config.
Variable ext : Extern.
Variable P : Row -> Row -> Prop.
Hypothesis P_refl : forall r, P r r.
Hypothesis P_trans : forall a b c, P a b -> P b c -> P a c.
Hypothesis P_increase : forall b r, P r (increase_row b r).
Hypothesis P_finish : forall now u ec r, P r (finish_row now u ec r).
Hypothesis P_code : forall c r, P r (with_confirmation_code c r).

Lemma rows_related_refl (d : DB) : rows_related P d d.
Proof. split; [intros k r H; eauto | auto]. Qed.

Lemma rows_related_trans (a b c : DB) :
  rows_related P a b -> rows_related P b c -> rows_related P a c.
Proof.
  intros [S1 N1] [S2 N2]. split.
  - intros k r H. destruct (S1 k r H) as (r1 & H1 & L1).
    destruct (S2 k r1 H1) as (r2 & H2 & L2). eauto.
  - auto.
Qed.

Lemma rows_related_same (d d' : DB) :
  email_link_sign_ins d' = email_link_sign_ins d -> rows_related P d d'.
Proof. intros E. unfold rows_related. rewrite E. apply rows_related_refl. Qed.

Lemma rows_related_update (d d' : DB) (k0 : string * string) (r0 r0' : Row) :
  email_link_sign_ins d !! k0 = Some r0 ->
  P r0 r0' ->
  email_link_sign_ins d' = <[k0 := r0']> (email_link_sign_ins d) ->
  rows_related P d d'.
Proof.
  intros H0 L E. split.
  - intros k r H. rewrite E. destruct (decide (k0 = k)) as [<-|Hne].
    + exists r0'. rewrite lookup_insert_eq. split; [reflexivity | congruence].
    + exists r. rewrite lookup_insert_ne by exact Hne. auto.
  - intros k H. rewrite E. destruct (decide (k0 = k)) as [<-|Hne]; [congruence|].
    rewrite lookup_insert_ne by exact Hne. exact H.
Qed.

Lemma increase_rows_related (e dv : string) (b : option Z) :
  stmt_keeps (rows_related P) (sql_increase_attempts e dv b).
Proof.
  intros d a d'. unfold sql_increase_attempts.
  destruct (email_link_sign_ins d !! (e, dv)) as [r|] eqn:Hr.
  - destruct (in_bigint _); [|discriminate].
    intros [= _ <-]. eapply rows_related_update; [exact Hr | apply P_increase | reflexivity].
  - intros [= _ <-]. apply rows_related_refl.
Qed.

Lemma finish_rows_related (e : string) (now : Z) (u dv : string) (s : Z) (ec : bool)
    (md : JSON) :
  stmt_keeps (rows_related P) (sql_finish_auth e now u dv s ec md).
Proof.
  intros d a d'. unfold sql_finish_auth. cbv zeta.
  destruct (email_link_sign_ins d !! (e, dv)) as [r|] eqn:Hr.
  - destruct (bool_decide _).
    + destruct (in_bigint _); [|discriminate].
      intros [= _ <-]. eapply rows_related_update; [exact Hr | apply P_finish | reflexivity].
    + intros [= _ <-]. apply rows_related_same. reflexivity.
  - intros [= _ <-]. apply rows_related_same. reflexivity.
Qed.

Lemma reset_rows_related (u : option string) (e dv p : string) (s : Z)
    (rf : option (string * Z)) :
  stmt_keeps (rows_related P) (sql_reset_login_session u e dv p s rf).
Proof.
  intros d a d'. unfold sql_reset_login_session.
  destruct (match rf with
            | Some (ip, n) => sql_decrement_ip ip n (sign_ins_per_ip d)
            | None => inr (sign_ins_per_ip d)
            end) as [msg|ips]; [discriminate|].
  cbv zeta.
  destruct (email_link_sign_ins d !! (e, dv)) as [r|] eqn:Hr.
  - destruct (_ && _); intros [= _ <-].
    + eapply rows_related_update; [exact Hr | apply P_code | reflexivity].
    + apply rows_related_same. reflexivity.
  - intros [= _ <-]. apply rows_related_same. reflexivity.
Qed.

Lemma reset_otp_rows_related (u : option string) (e dv o p : string) (s : Z) :
  stmt_keeps (rows_related P) (sql_reset_login_session_otp u e dv o p s).
Proof.
  intros d a d'. unfold sql_reset_login_session_otp.
  destruct (email_link_sign_ins d !! (e, dv)) as [r|] eqn:Hr.
  - destruct (_ && _); intros [= _ <-].
    + eapply rows_related_update; [exact Hr | apply P_code | reflexivity].
    + apply rows_related_refl.
  - intros [= _ <-]. apply rows_related_refl.
Qed.

Lemma admit_rows_related (ip : string) (n : Z) :
  stmt_keeps (rows_related P) (RateLimiter.sql_admit ip n).
Proof.
  intros d a d'. unfold RateLimiter.sql_admit. cbv zeta.
  destruct (in_bigint _); [|discriminate].
  destruct (_ <=? 10); [|discriminate].
  intros [= _ <-]. apply rows_related_same. reflexivity.
Qed.

Lemma run_rows_related (cs : list call) (w : World) :
  rows_related P (db w) (db (run cfg ext cs w)).
Proof.
  apply (run_keeps cfg ext (rows_related P) rows_related_refl rows_related_trans
           increase_rows_related finish_rows_related reset_rows_related
           reset_otp_rows_related admit_rows_related).
Qed.

End RowsRelated.

Lemma seq_le_refl (r : Row) : seq_le r r.
Proof. unfold seq_le. repeat split; [lia | auto | auto]. Qed.

Lemma seq_le_trans (a b c : Row) : seq_le a b -> seq_le b c -> seq_le a c.
Proof.
  unfold seq_le. intros (H1 & H2 & H3) (H4 & H5 & H6). repeat split; [lia | auto | auto].
Qed.

(** X10. Whatever calls are made into the engine, with any arguments and
    any storage failures: the [issued_token_seq] of a row never goes back,
    a row whose [previously_issued_token_seq] does not exceed its
    [issued_token_seq] stays so, and a [user_id] that is set stays set. *)
Theorem token_sequence_never_goes_back (cfg : Config) (ext : Extern) (cs : list call)
    (w : World) (k : string * string) (r : Row) :
  email_link_sign_ins (db w) !! k = Some r ->
  exists r',
    email_link_sign_ins (db (run cfg ext cs w)) !! k = Some r'
    /\ issued_token_seq r <= issued_token_seq r'
    /\ (previously_issued_token_seq r <= issued_token_seq r ->
        previously_issued_token_seq r' <= issued_token_seq r')
    /\ (is_Some (user_id r) -> is_Some (user_id r')).
Proof.
  intros H.
  assert (R : rows_related seq_le (db w) (db (run cfg ext cs w))).
  { apply run_rows_related.
    - apply seq_le_refl.
    - apply seq_le_trans.
    - intros b r0. unfold seq_le. cbn. repeat split; [lia | auto | auto].
    - intros now u ec r0. unfold seq_le. cbn. repeat split; [lia | intros; lia | eauto].
    - intros c r0. unfold seq_le. cbn. repeat split; [lia | auto | auto]. }
  destruct (proj1 R k r H) as (r' & Hr' & L1 & L2 & L3). eauto.
Qed.

Lemma token_sequence_never_goes_back_witness :
  exists r',
    email_link_sign_ins
      (db (run Demo.cfg Demo.ext_live
             [CallSignIn "token" "000000"; CallSignIn "token" "123456"; CallStatus "token"]
             Demo.fresh_world)) !! ("alice@x.com", "D1") = Some r'
    /\ issued_token_seq Demo.fresh_row <= issued_token_seq r'.
Proof.
  destruct (token_sequence_never_goes_back Demo.cfg Demo.ext_live
              [CallSignIn "token" "000000"; CallSignIn "token" "123456"; CallStatus "token"]
              Demo.fresh_world ("alice@x.com", "D1") Demo.fresh_row eq_refl)
    as (r' & H1 & H2 & _).
  exists r'. auto.
Defined.

(** X11. No call into the engine creates or deletes a row of the sign-in
    table: after any calls the table has exactly the keys it had. *)
Theorem sign_in_rows_are_neither_created_nor_deleted (cfg : Config) (ext : Extern)
    (cs : list call) (w : World) (k : string * string) :
  is_Some (email_link_sign_ins (db (run cfg ext cs w)) !! k)
  <-> is_Some (email_link_sign_ins (db w) !! k).
Proof.
  assert (R : rows_related (fun _ _ => True) (db w) (db (run cfg ext cs w))).
  { apply run_rows_related; auto. }
  destruct R as [S N]. split.
  - intros [r' Hr']. destruct (email_link_sign_ins (db w) !! k) as [r|] eqn:E; [eauto|].
    rewrite (N k E) in Hr'. discriminate.
  - intros [r Hr]. destruct (S k r Hr) as (r' & Hr' & _). eauto.
Qed.

(** ** [signIn] and [SignIn] when they succeed *)

Lemma ErrorOrNil_Append_one (mErr : option (list error)) (f : error) (msg : string) :
  ErrorOrNil (multierror_Append mErr [errors_Wrapf (Some f) msg])
  = Some (Multi (default [] mErr ++ [Wrapf msg f])%list).
Proof.
  unfold multierror_Append. cbn [map concat flatten1 errors_Wrapf]. rewrite app_nil_r.
  destruct (default [] mErr ++ [Wrapf msg f])%list eqn:E; [|reflexivity].
  apply app_eq_nil in E as [_ E]. discriminate.
Qed.

Lemma finishAuthProcess_success_in_range (cfg : Config) (ext : Extern) (now : Z)
    (id : loginID) (userID : string) (seq : Z) (ec : bool) (md : option JSON)
    (w w' : World) (s : Z) :
  finishAuthProcess cfg ext now id userID seq ec md w = (Val (s, None), w') ->
  min_int64 <= seq + 1 <= max_int64.
Proof.
  rewrite finishAuthProcess_cases.
  destruct (metadata_to_update cfg ext userID md) as [[err|m]|why]; try discriminate.
  destruct (fault ext (calls w)) as [msg|]; [discriminate|].
  unfold sql_finish_auth. cbv zeta.
  destruct (email_link_sign_ins (db w) !! _) as [r|]; [|discriminate].
  destruct (bool_decide_reflect (issued_token_seq r = seq)) as [E|]; [|discriminate].
  destruct (in_bigint (issued_token_seq r + 1)) eqn:Hb; [|discriminate].
  intros _. unfold in_bigint in Hb. apply andb_prop in Hb as [H1 H2].
  apply Z.leb_le in H1, H2. lia.
Qed.

Lemma signIn_success_inv (cfg : Config) (ext : Extern) (now : Z) (els els' : emailLinkSignIn)
    (id : loginID) (oldEmail notifyEmail code : string) (w w' : World) (ec : bool) (s : Z) :
  signIn cfg ext now els id oldEmail notifyEmail code w = (Val (els', (ec, s, None)), w') ->
  exists u w0,
    UserID els = Some u
    /\ ConfirmationCode els <> u
    /\ ConfirmationCode els = code
    /\ ConfirmationCodeWrongAttemptsCount els < ConfirmationCode_MaxWrongAttemptsCount cfg
    /\ ec = negb (bool_decide (oldEmail = ""))
    /\ els' = (if email_modification_due els oldEmail then set_Email (id_Email id) els else els)
    /\ db w0 = db w
    /\ finishAuthProcess cfg ext now id u (IssuedTokenSeq els) ec (Metadata els) w0
       = (Val (s, None), w').
Proof.
  unfold signIn.
  destruct (match UserID els with
            | Some userID => bool_decide (ConfirmationCode els = userID)
            | None => false
            end) eqn:Hmark; [discriminate|].
  unfold bind at 1.
  destruct (verifySignIn cfg ext els id code w) as [[[e|]|why] w1] eqn:Hv; try discriminate.
  apply verifySignIn_nil_iff in Hv as (Hlt & Hcode & ->).
  cbv zeta. fold (email_modification_due els oldEmail).
  unfold bind at 1.
  assert (Hfin : forall ec0 els0 w0,
            UserID els0 = UserID els -> IssuedTokenSeq els0 = IssuedTokenSeq els ->
            Metadata els0 = Metadata els -> db w0 = db w ->
            match UserID els0 with
            | Some userID =>
                bind (finishAuthProcess cfg ext now id userID (IssuedTokenSeq els0) ec0
                        (Metadata els0))
                  (fun x => let '(issuedTokenSeq, fErr) := x in
                     match fErr with
                     | Some _ =>
                         bind (if negb (bool_decide (oldEmail = ""))
                               then bind (ask (fun n _ => resetEmailModification ext n userID oldEmail))
                                      (fun r1 =>
                                         bind (ask (fun n _ => resetFirebaseEmailModification ext n
                                                                 (Metadata els0) oldEmail))
                                           (fun r2 =>
                                              ret (multierror_Append None
                                                     [errors_Wrapf r1 "[reset] resetEmailModification failed for email:%v";
                                                      errors_Wrapf r2 "[reset] resetEmailModification failed for email:%v"])))
                               else ret None)
                           (fun mErr =>
                              ret (els0, (false, 0,
                                          ErrorOrNil
                                            (multierror_Append mErr
                                               [errors_Wrapf fErr "can't finish auth process for userID:%v,email:%v"]))))
                     | None => ret (els0, (ec0, issuedTokenSeq, None))
                     end)
            | None => panic "nil pointer dereference: *els.UserID"
            end w0 = (Val (els', (ec, s, None)), w') ->
            exists u,
              UserID els = Some u /\ ec = ec0 /\ els' = els0
              /\ finishAuthProcess cfg ext now id u (IssuedTokenSeq els) ec (Metadata els) w0
                 = (Val (s, None), w')).
  { intros ec0 els0 w0 Hu Hs Hm Hd. rewrite Hu, Hs, Hm.
    destruct (UserID els) as [u|]; [|discriminate].
    unfold bind at 1.
    destruct (finishAuthProcess cfg ext now id u (IssuedTokenSeq els) ec0 (Metadata els) w0)
      as [[[s0 [f|]]|why] w2] eqn:Hf; try discriminate.
    - destruct (negb (bool_decide (oldEmail = ""))).
      + unfold bind, ask, ret. rewrite ErrorOrNil_Append_one. discriminate.
      + unfold bind, ret. rewrite ErrorOrNil_Append_one. discriminate.
    - unfold ret. intros [= <- <- <- <-]. exists u. auto. }
  destruct (email_modification_due els oldEmail) eqn:Hdue.
  - unfold bind at 1. unfold ask at 1.
    destruct (handleEmailModification ext (calls w) els (id_Email id) oldEmail notifyEmail)
      as [e|]; [discriminate|].
    unfold ret at 1. intros H.
    apply Hfin in H as (u & Hu & -> & -> & Hf); try reflexivity.
    exists u, (bump w). rewrite Hu in Hmark.
    apply bool_decide_eq_false_1 in Hmark. repeat split; auto.
  - unfold ret at 1. intros H.
    apply Hfin in H as (u & Hu & -> & -> & Hf); try reflexivity.
    exists u, w. rewrite Hu in Hmark.
    apply bool_decide_eq_false_1 in Hmark. repeat split; auto.
    unfold email_modification_due in Hdue. apply orb_false_iff in Hdue as [H1 _].
    symmetry. exact H1.
Qed.

(** X12. [signIn] succeeds only for a record that has a user id, is not
    consumed, is under budget and carries the presented code; it then has
    advanced the row that held the sequence number read: the returned
    sequence is that number plus one, [emailConfirmed] tells whether the
    flow carried an old email, and the row is the finished one. *)
Theorem signIn_success_has_finalized (cfg : Config) (ext : Extern) (now : Z)
    (els els' : emailLinkSignIn) (id : loginID) (oldEmail notifyEmail code : string)
    (w w' : World) (ec : bool) (s : Z) :
  signIn cfg ext now els id oldEmail notifyEmail code w = (Val (els', (ec, s, None)), w') ->
  exists u r,
    UserID els = Some u
    /\ ConfirmationCode els = code
    /\ code <> u
    /\ ConfirmationCodeWrongAttemptsCount els < ConfirmationCode_MaxWrongAttemptsCount cfg
    /\ ec = negb (bool_decide (oldEmail = ""))
    /\ s = IssuedTokenSeq els + 1
    /\ email_link_sign_ins (db w) !! (id_Email id, id_DeviceUniqueID id) = Some r
    /\ issued_token_seq r = IssuedTokenSeq els
    /\ email_link_sign_ins (db w') !! (id_Email id, id_DeviceUniqueID id)
       = Some (finish_row now u ec r).
Proof.
  intros H.
  apply signIn_success_inv in H as (u & w0 & Hu & Hm & Hc & Hlt & Hec & _ & Hd & Hf).
  apply finishAuthProcess_success in Hf as (r & Hr & Hseq & Hs & Hw').
  exists u, r. rewrite Hd in Hr. rewrite Hw', lookup_insert_eq.
  repeat split; auto; congruence.
Qed.

Lemma signIn_success_has_finalized_witness :
  exists u r,
    UserID Demo.els = Some u
    /\ ConfirmationCode Demo.els = "123456"
    /\ "123456" <> u
    /\ email_link_sign_ins (db Demo.world) !! ("alice@x.com", "D1") = Some r
    /\ email_link_sign_ins
         (db (snd (signIn Demo.cfg Demo.ext 1000 Demo.els Demo.id "" "" "123456" Demo.world)))
         !! ("alice@x.com", "D1") = Some (finish_row 1000 u false r).
Proof.
  destruct (signIn_success_has_finalized Demo.cfg Demo.ext 1000 Demo.els Demo.els Demo.id
              "" "" "123456" Demo.world
              (snd (signIn Demo.cfg Demo.ext 1000 Demo.els Demo.id "" "" "123456" Demo.world))
              false 6)
    as (u & r & H1 & H2 & H3 & _ & _ & _ & H7 & _ & H9).
  - vm_compute. reflexivity.
  - exists u, r. auto.
Defined.

Lemma SignIn_success_inv (cfg : Config) (ext : Extern)
    (loginSession code : string) (w w' : World) (tokens : Tokens) (ec : bool) :
  SignIn cfg ext loginSession code w = (Val (Some tokens, ec, None), w') ->
  exists token els u r r',
    parseJwtToken ext (S (calls w)) loginSession (EmailValidation_JwtSecret cfg) = inr token
    /\ getEmailLinkSignInByPk ext (S (S (calls w))) (db w)
         {| id_Email := Subject token; id_DeviceUniqueID := tok_DeviceUniqueID token |}
         (OldEmail token) = inr els
    /\ UserID els = Some u
    /\ ConfirmationCode els = code
    /\ code <> u
    /\ ConfirmationCodeWrongAttemptsCount els < ConfirmationCode_MaxWrongAttemptsCount cfg
    /\ ec = negb (bool_decide (OldEmail token = ""))
    /\ email_link_sign_ins (db w) !! (Subject token, tok_DeviceUniqueID token) = Some r
    /\ issued_token_seq r = IssuedTokenSeq els
    /\ email_link_sign_ins (db w') !! (Subject token, tok_DeviceUniqueID token) = Some r'
    /\ issued_token_seq r' = IssuedTokenSeq els + 1
    /\ previously_issued_token_seq r' = IssuedTokenSeq els + 1
    /\ user_id r' = Some u
    /\ token_issued_at r' = Some (wall ext (calls w))
    /\ (confirmation_code r = Some code -> confirmation_code r' = Some u).
Proof.
  unfold SignIn. unfold bind at 1. unfold time_Now at 1.
  unfold bind at 1. unfold ask at 1. cbn [calls bump db].
  destruct (parseJwtToken ext (S (calls w)) loginSession (EmailValidation_JwtSecret cfg))
    as [err|token] eqn:Hp; [discriminate|].
  cbv zeta. unfold bind at 1. unfold ask at 1. cbn [calls bump db].
  set (id := {| id_Email := Subject token; id_DeviceUniqueID := tok_DeviceUniqueID token |}).
  destruct (getEmailLinkSignInByPk ext (S (S (calls w))) (db w) id (OldEmail token))
    as [err|els] eqn:Hr.
  { destruct (errors_Is err storage_ErrNotFound); discriminate. }
  unfold bind at 1.
  destruct (signIn cfg ext (wall ext (calls w)) els id (OldEmail token) (NotifyEmail token)
              code _) as [[[els' [[ec0 s] [e|]]]|why] w1] eqn:Hs; try discriminate.
  unfold bind at 1. unfold ask at 1.
  destruct (generateTokens ext (calls w1) _ _ s) as [e|t]; [discriminate|].
  unfold bind.
  destruct (resetLoginSession ext id (set_TokenIssuedAt (Some (wall ext (calls w))) els') code
              (ClientIP token) (LoginSessionNumber token) (bump w1))
    as [[[e|]|why] w2] eqn:Hreset; try discriminate.
  intros [= <- <- <-].
  apply signIn_success_inv in Hs as (u & w0 & Hu & Hm & Hc & Hlt & Hec & Hels' & Hd & Hf).
  pose proof (finishAuthProcess_success_in_range _ _ _ _ _ _ _ _ _ _ _ Hf) as Hrange.
  apply finishAuthProcess_success in Hf as (r & Hrow & Hseq & Hsnew & Hw1).
  cbn [db] in Hd. rewrite Hd in Hrow.
  assert (Hu' : UserID (set_TokenIssuedAt (Some (wall ext (calls w))) els') = Some u).
  { rewrite Hels'. destruct (email_modification_due els (OldEmail token)); exact Hu. }
  assert (Hs' : IssuedTokenSeq (set_TokenIssuedAt (Some (wall ext (calls w))) els')
                = IssuedTokenSeq els).
  { rewrite Hels'. destruct (email_modification_due els (OldEmail token)); reflexivity. }
  pose proof (resetLoginSession_effect ext id
                (set_TokenIssuedAt (Some (wall ext (calls w))) els') code
                (ClientIP token) (LoginSessionNumber token) (bump w1)) as (_ & Heff & Hmark).
  rewrite Hreset in Heff, Hmark. cbn [fst snd db bump] in Heff, Hmark.
  rewrite Hu', Hs', (wrap64_id _ Hrange) in Heff, Hmark.
  assert (Hfin : email_link_sign_ins (db w1) !! (id_Email id, id_DeviceUniqueID id)
                 = Some (finish_row (wall ext (calls w)) u ec0 r)).
  { rewrite Hw1. apply lookup_insert_eq. }
  assert (Hr' : exists r',
             email_link_sign_ins (db w2) !! (id_Email id, id_DeviceUniqueID id) = Some r'
             /\ (r' = finish_row (wall ext (calls w)) u ec0 r
                 \/ r' = with_confirmation_code (Some u)
                           (finish_row (wall ext (calls w)) u ec0 r))).
  { destruct Heff as [E | (r0 & Hr0 & _ & _ & E)].
    - rewrite E. eauto.
    - rewrite E, lookup_insert_eq. rewrite Hfin in Hr0. injection Hr0 as <-. eauto. }
  destruct Hr' as (r' & Hr' & Hshape).
  exists token, els, u, r, r'.
  split; [reflexivity|]. split; [exact Hr|]. split; [exact Hu|].
  split; [exact Hc|]. split; [congruence|]. split; [exact Hlt|]. split; [exact Hec|].
  split; [exact Hrow|]. split; [exact Hseq|]. split; [exact Hr'|].
  assert (Hcols : issued_token_seq r' = IssuedTokenSeq els + 1
                  /\ previously_issued_token_seq r' = IssuedTokenSeq els + 1
                  /\ user_id r' = Some u
                  /\ token_issued_at r' = Some (wall ext (calls w))).
  { destruct Hshape as [-> | ->]; cbn; rewrite Hseq; auto. }
  destruct Hcols as (C1 & C2 & C3 & C4).
  split; [exact C1|]. split; [exact C2|]. split; [exact C3|]. split; [exact C4|].
  intros Hcode.
  specialize (Hmark (finish_row (wall ext (calls w)) u ec0 r) Hfin).
  cbn [confirmation_code issued_token_seq finish_row] in Hmark.
  rewrite Hseq in Hmark. specialize (Hmark Hcode eq_refl eq_refl).
  rewrite Hmark in Hr'. injection Hr' as <-. reflexivity.
Qed.

(** X13. [SignIn] returns tokens only when the token parsed, the record
    was found with a user id, not consumed, under budget and carrying the
    presented code, and the row has been advanced: afterwards both sequence
    columns are the sequence read plus one, [user_id] is the record's user
    id, [token_issued_at] is the first clock reading of the call, and a row
    that held the presented code now holds the user id in its place. *)
Theorem SignIn_tokens_imply_finalized (cfg : Config) (ext : Extern)
    (loginSession code : string) (w w' : World) (tokens : Tokens) (ec : bool) :
  SignIn cfg ext loginSession code w = (Val (Some tokens, ec, None), w') ->
  exists token els u r r',
    parseJwtToken ext (S (calls w)) loginSession (EmailValidation_JwtSecret cfg) = inr token
    /\ getEmailLinkSignInByPk ext (S (S (calls w))) (db w)
         {| id_Email := Subject token; id_DeviceUniqueID := tok_DeviceUniqueID token |}
         (OldEmail token) = inr els
    /\ UserID els = Some u
    /\ ConfirmationCode els = code
    /\ code <> u
    /\ ConfirmationCodeWrongAttemptsCount els < ConfirmationCode_MaxWrongAttemptsCount cfg
    /\ ec = negb (bool_decide (OldEmail token = ""))
    /\ email_link_sign_ins (db w) !! (Subject token, tok_DeviceUniqueID token) = Some r
    /\ issued_token_seq r = IssuedTokenSeq els
    /\ email_link_sign_ins (db w') !! (Subject token, tok_DeviceUniqueID token) = Some r'
    /\ issued_token_seq r' = IssuedTokenSeq els + 1
    /\ previously_issued_token_seq r' = IssuedTokenSeq els + 1
    /\ user_id r' = Some u
    /\ token_issued_at r' = Some (wall ext (calls w))
    /\ (confirmation_code r = Some code -> confirmation_code r' = Some u).
Proof. apply SignIn_success_inv. Qed.

Lemma SignIn_tokens_imply_finalized_witness :
  exists r',
    email_link_sign_ins
      (db (snd (SignIn Demo.cfg Demo.ext_live "token" "123456" Demo.fresh_world)))
      !! ("alice@x.com", "D1") = Some r'
    /\ issued_token_seq r' = 1
    /\ previously_issued_token_seq r' = 1
    /\ confirmation_code r' = Some "u1".
Proof.
  destruct (SignIn_tokens_imply_finalized Demo.cfg Demo.ext_live "token" "123456"
              Demo.fresh_world
              (snd (SignIn Demo.cfg Demo.ext_live "token" "123456" Demo.fresh_world))
              {| RefreshToken := "refresh"; AccessToken := "access" |} false)
    as (token & els & u & r & r' & Hp & Hr & Hu & _ & _ & _ & _ & Hrow & _ & Hr' & H1 & H2
        & _ & _ & Hmark).
  - vm_compute. reflexivity.
  - injection Hp as <-. vm_compute in Hr. injection Hr as <-.
    injection Hu as <-. vm_compute in Hrow. injection Hrow as <-.
    exists r'. split; [exact Hr'|]. split; [exact H1|]. split; [exact H2|].
    apply Hmark. reflexivity.
Defined.

(** X14. [SignIn] with a token that does not parse, or whose record is not
    found, fails before any statement is sent: the tables are as they
    were. A parse failure is returned wrapped; a read that is
    [storage.ErrNotFound] becomes [ErrNoConfirmationRequired]; any other
    read failure is returned wrapped. *)
Theorem SignIn_rejects_before_any_write (cfg : Config) (ext : Extern)
    (loginSession code : string) (w : World) :
  (forall err,
     parseJwtToken ext (S (calls w)) loginSession (EmailValidation_JwtSecret cfg) = inl err ->
     SignIn cfg ext loginSession code w
     = (Val (None, false, Some (Wrapf "invalid login flow token:%v" err)), bump (bump w)))
  /\ (forall token err,
        parseJwtToken ext (S (calls w)) loginSession (EmailValidation_JwtSecret cfg)
        = inr token ->
        getEmailLinkSignInByPk ext (S (S (calls w))) (db w)
          {| id_Email := Subject token; id_DeviceUniqueID := tok_DeviceUniqueID token |}
          (OldEmail token) = inl err ->
        exists e,
          SignIn cfg ext loginSession code w
          = (Val (None, false, Some e), bump (bump (bump w)))
          /\ (errors_Is err storage_ErrNotFound = true ->
              errors_Is e ErrNoConfirmationRequired = true)
          /\ (errors_Is err storage_ErrNotFound = false ->
              e = Wrapf "failed to get user info by email:%v(old email:%v)" err)).
Proof.
  split.
  - intros err Hp. unfold SignIn, bind, time_Now, ask. cbn [calls bump db].
    rewrite Hp. reflexivity.
  - intros token err Hp Hr. unfold SignIn, bind, time_Now, ask. cbn [calls bump db].
    rewrite Hp. cbn [calls bump db]. rewrite Hr.
    destruct (errors_Is err storage_ErrNotFound);
      eexists; (split; [reflexivity|]); split; try reflexivity; discriminate.
Qed.

(** ** The tables under [verifySignIn] and [signIn] with a wrong code *)

Lemma verifySignIn_effect (cfg : Config) (ext : Extern) (els : emailLinkSignIn)
    (id : loginID) (code : string) (w : World) :
  account_metadata (db (snd (verifySignIn cfg ext els id code w))) = account_metadata (db w)
  /\ sign_ins_per_ip (db (snd (verifySignIn cfg ext els id code w))) = sign_ins_per_ip (db w)
  /\ (email_link_sign_ins (db (snd (verifySignIn cfg ext els id code w)))
      = email_link_sign_ins (db w)
      \/ exists r b,
           email_link_sign_ins (db w) !! (id_Email id, id_DeviceUniqueID id) = Some r
           /\ email_link_sign_ins (db (snd (verifySignIn cfg ext els id code w)))
              = <[(id_Email id, id_DeviceUniqueID id) := increase_row b r]>
                  (email_link_sign_ins (db w))).
Proof.
  assert (Hinc : forall b w1,
            db w1 = db w ->
            let w2 := snd (increaseWrongConfirmationCodeAttemptsCount cfg ext id b w1) in
            account_metadata (db w2) = account_metadata (db w)
            /\ sign_ins_per_ip (db w2) = sign_ins_per_ip (db w)
            /\ (email_link_sign_ins (db w2) = email_link_sign_ins (db w)
                \/ exists r b0,
                     email_link_sign_ins (db w) !! (id_Email id, id_DeviceUniqueID id) = Some r
                     /\ email_link_sign_ins (db w2)
                        = <[(id_Email id, id_DeviceUniqueID id) := increase_row b0 r]>
                            (email_link_sign_ins (db w)))).
  { intros b w1 Hd. cbv zeta. rewrite increase_cases. cbv zeta.
    assert (Hd' : db (if b then bump w1 else w1) = db w) by (destruct b; exact Hd).
    destruct (fault ext _) as [msg|].
    { cbn [snd db bump]. rewrite Hd'. auto. }
    unfold sql_increase_attempts. rewrite Hd.
    destruct (email_link_sign_ins (db w) !! (id_Email id, id_DeviceUniqueID id)) as [r|] eqn:Hr.
    - destruct (in_bigint _).
      + cbn [snd db email_link_sign_ins account_metadata sign_ins_per_ip set_sign_ins].
        split; [reflexivity|]. split; [reflexivity|]. right. eauto.
      + cbn [snd db bump]. rewrite Hd'. auto.
    - cbn [snd db]. auto. }
  assert (Hcount : forall sb mErr w1,
            db w1 = db w ->
            snd (count_wrong_attempt cfg ext els id sb mErr w1)
            = snd (increaseWrongConfirmationCodeAttemptsCount cfg ext id
                     (if ConfirmationCode_MaxWrongAttemptsCount cfg
                         <=? wrap64 (ConfirmationCodeWrongAttemptsCount els + 1)
                      then true else sb) w1)).
  { intros sb mErr w1 _. unfold count_wrong_attempt. cbv zeta.
    destruct (increaseWrongConfirmationCodeAttemptsCount _ _ _ _ _) as [[iErr|why] w2];
      reflexivity. }
  rewrite verifySignIn_cases.
  destruct (_ <=? ConfirmationCodeWrongAttemptsCount els).
  - destruct (BlockedUntil els) as [bu|]; [|cbn; auto].
    destruct (bu <? _).
    + destruct (CreatedAt els) as [ca|]; [|cbn; auto].
      destruct (ca <? bu); [cbn; auto|].
      rewrite Hcount by reflexivity. apply Hinc. reflexivity.
    + rewrite Hcount by reflexivity. apply Hinc. reflexivity.
  - destruct (bool_decide _); [cbn; auto|].
    rewrite Hcount by reflexivity. apply Hinc. reflexivity.
Qed.

(** X15. [verifySignIn] never writes anything but the wrong-attempt counter
    and the block of the row of its key: the metadata, the per-IP counters,
    every other row and every other column of that row are as they were. *)
Theorem verifySignIn_writes_only_counter_and_block (cfg : Config) (ext : Extern)
    (els : emailLinkSignIn) (id : loginID) (code : string) (w : World) :
  account_metadata (db (snd (verifySignIn cfg ext els id code w))) = account_metadata (db w)
  /\ sign_ins_per_ip (db (snd (verifySignIn cfg ext els id code w))) = sign_ins_per_ip (db w)
  /\ (forall k, k <> (id_Email id, id_DeviceUniqueID id) ->
        email_link_sign_ins (db (snd (verifySignIn cfg ext els id code w))) !! k
        = email_link_sign_ins (db w) !! k)
  /\ (forall r,
        email_link_sign_ins (db w) !! (id_Email id, id_DeviceUniqueID id) = Some r ->
        exists r',
          email_link_sign_ins (db (snd (verifySignIn cfg ext els id code w)))
            !! (id_Email id, id_DeviceUniqueID id) = Some r'
          /\ issued_token_seq r' = issued_token_seq r
          /\ previously_issued_token_seq r' = previously_issued_token_seq r
          /\ confirmation_code r' = confirmation_code r
          /\ user_id r' = user_id r
          /\ token_issued_at r' = token_issued_at r
          /\ email_confirmed_at r' = email_confirmed_at r
          /\ otp r' = otp r
          /\ created_at r' = created_at r
          /\ phone_number_to_email_migration_user_id r'
             = phone_number_to_email_migration_user_id r
          /\ confirmation_code_wrong_attempts_count r
             <= confirmation_code_wrong_attempts_count r'
             <= confirmation_code_wrong_attempts_count r + 1).
Proof.
  destruct (verifySignIn_effect cfg ext els id code w) as (Hm & Hip & Heff).
  split; [exact Hm|]. split; [exact Hip|]. split.
  - intros k Hk. destruct Heff as [E | (r & b & _ & E)]; rewrite E; [reflexivity|].
    apply lookup_insert_ne. congruence.
  - intros r Hr. destruct Heff as [E | (r0 & b & Hr0 & E)]; rewrite E.
    + exists r. repeat split; auto; lia.
    + rewrite Hr in Hr0. injection Hr0 as <-.
      exists (increase_row b r). rewrite lookup_insert_eq. cbn. repeat split; lia.
Qed.

Lemma signIn_wrong_code_world (cfg : Config) (ext : Extern) (now : Z) (els : emailLinkSignIn)
    (id : loginID) (oldEmail notifyEmail code : string) (w : World) :
  ConfirmationCode els <> code ->
  snd (signIn cfg ext now els id oldEmail notifyEmail code w) = w
  \/ snd (signIn cfg ext now els id oldEmail notifyEmail code w)
     = snd (verifySignIn cfg ext els id code w).
Proof.
  intros Hne. unfold signIn.
  destruct (match UserID els with
            | Some userID => bool_decide (ConfirmationCode els = userID)
            | None => false
            end); [left; reflexivity|].
  right. unfold bind at 1.
  destruct (verifySignIn cfg ext els id code w) as [[[e|]|why] w1] eqn:Hv; try reflexivity.
  apply verifySignIn_nil_iff in Hv as (_ & Hc & _). contradiction.
Qed.

(** X16. With a presented code that is not the stored one, [signIn] never
    succeeds, whatever the collaborators answer, and it does not finalize:
    the metadata is untouched and every row keeps its sequence numbers, its
    user id, its confirmation code and its [token_issued_at]. *)
Theorem signIn_wrong_code_never_finalizes (cfg : Config) (ext : Extern) (now : Z)
    (els : emailLinkSignIn) (id : loginID) (oldEmail notifyEmail code : string) (w : World) :
  ConfirmationCode els <> code ->
  (forall els' ec s w',
     signIn cfg ext now els id oldEmail notifyEmail code w <> (Val (els', (ec, s, None)), w'))
  /\ account_metadata (db (snd (signIn cfg ext now els id oldEmail notifyEmail code w)))
     = account_metadata (db w)
  /\ (forall k r,
        email_link_sign_ins (db w) !! k = Some r ->
        exists r',
          email_link_sign_ins (db (snd (signIn cfg ext now els id oldEmail notifyEmail code w)))
            !! k = Some r'
          /\ issued_token_seq r' = issued_token_seq r
          /\ previously_issued_token_seq r' = previously_issued_token_seq r
          /\ user_id r' = user_id r
          /\ confirmation_code r' = confirmation_code r
          /\ token_issued_at r' = token_issued_at r).
Proof.
  intros Hne. split; [|split].
  - intros els' ec s w' H.
    apply signIn_success_inv in H as (u & w0 & _ & _ & Hc & _). contradiction.
  - destruct (signIn_wrong_code_world cfg ext now els id oldEmail notifyEmail code w Hne)
      as [-> | ->]; [reflexivity|].
    apply verifySignIn_effect.
  - intros k r Hr.
    destruct (signIn_wrong_code_world cfg ext now els id oldEmail notifyEmail code w Hne)
      as [-> | ->]; [exists r; auto 10|].
    destruct (verifySignIn_effect cfg ext els id code w) as (_ & _ & [E | (r0 & b & Hr0 & E)]);
      rewrite E.
    + exists r. auto 10.
    + destruct (decide ((id_Email id, id_DeviceUniqueID id) = k)) as [<-|Hk].
      * rewrite Hr in Hr0. injection Hr0 as <-.
        exists (increase_row b r). rewrite lookup_insert_eq. cbn. auto 10.
      * exists r. rewrite lookup_insert_ne by exact Hk. auto 10.
Qed.

Lemma signIn_wrong_code_never_finalizes_witness :
  account_metadata
    (db (snd (signIn Demo.cfg Demo.ext 1000 Demo.els Demo.id "" "" "000000" Demo.world)))
  = account_metadata (db Demo.world).
Proof.
  refine (proj1 (proj2 (signIn_wrong_code_never_finalizes Demo.cfg Demo.ext 1000 Demo.els
                          Demo.id "" "" "000000" Demo.world _))).
  discriminate.
Defined.

(** X17. [finishAuthProcess] panics exactly when the record's metadata has
    no registered-with-provider claim and carries a Firebase id claim that
    is not a string (the unchecked type assertion); nothing has been sent
    to the store by then. *)
Theorem finishAuthProcess_panics_iff (cfg : Config) (ext : Extern) (now : Z) (id : loginID)
    (userID : string) (seq : Z) (ec : bool) (md : option JSON) (w : World) :
  ((exists why w', finishAuthProcess cfg ext now id userID seq ec md w = (Panicked why, w'))
   <-> ((default ∅ md : JSON) !! auth_RegisteredWithProviderClaim cfg = None
        /\ exists v, (default ∅ md : JSON) !! auth_FirebaseIDClaim cfg = Some v
                     /\ forall firebaseID, v <> JStr firebaseID))
  /\ ((exists why w', finishAuthProcess cfg ext now id userID seq ec md w = (Panicked why, w'))
      -> snd (finishAuthProcess cfg ext now id userID seq ec md w) = w).
Proof.
  assert (Hmd : (exists why, metadata_to_update cfg ext userID md = Panicked why)
                <-> ((default ∅ md : JSON) !! auth_RegisteredWithProviderClaim cfg = None
                     /\ exists v, (default ∅ md : JSON) !! auth_FirebaseIDClaim cfg = Some v
                                  /\ forall firebaseID, v <> JStr firebaseID)).
  { unfold metadata_to_update. cbv zeta.
    destruct ((default ∅ md : JSON) !! auth_RegisteredWithProviderClaim cfg) as [x|].
    { split.
      - intros (why & H). destruct (mergo_Merge ext _ _); discriminate.
      - intros (H & _). discriminate. }
    destruct ((default ∅ md : JSON) !! auth_FirebaseIDClaim cfg) as [v|].
    - destruct v as [f| | | |]; split;
        try (intros _; split; [reflexivity|]; eexists; split; [reflexivity|];
             intros f' Hf'; discriminate Hf');
        try (intros _; eexists; reflexivity).
      + intros (why & H).
        destruct (_ && _); destruct (mergo_Merge ext _ _); discriminate.
      + intros (_ & v & [= <-] & Hv). exfalso. exact (Hv f eq_refl).
    - split.
      + intros (why & H). destruct (mergo_Merge ext _ _); discriminate.
      + intros (_ & v & Hv & _). discriminate. }
  assert (Hfin : (exists why w', finishAuthProcess cfg ext now id userID seq ec md w
                                 = (Panicked why, w'))
                 <-> exists why, metadata_to_update cfg ext userID md = Panicked why).
  { rewrite finishAuthProcess_cases. split.
    - intros (why & w' & H).
      destruct (metadata_to_update cfg ext userID md) as [[err|m]|why0]; [discriminate| |eauto].
      destruct (fault ext (calls w)); [discriminate|].
      destruct (sql_finish_auth _ _ _ _ _ _ _ _) as [msg|[[s|] d]]; discriminate.
    - intros (why & ->). eauto. }
  split.
  - rewrite Hfin. exact Hmd.
  - intros H. apply Hfin in H as (why & H).
    rewrite finishAuthProcess_cases, H. reflexivity.
Qed.

(** ** [Status] and its [resetLoginSession] *)

Lemma Polling_resetLoginSession_cases (ext : Extern) (id : loginID) (els : emailLinkSignIn)
    (prev : string) (w : World) :
  Polling.resetLoginSession ext id els prev w =
  match fault ext (calls w) with
  | Some msg =>
      (Val (Some (Wrapf "failed to reset login session by id:%#v and confirmationCode:%v"
                        (Base (Opaque msg)))),
       bump w)
  | None =>
      match sql_reset_login_session_otp (UserID els) (id_Email id) (id_DeviceUniqueID id)
              (OTP els) prev (IssuedTokenSeq els) (db w) with
      | inl msg =>
          (Val (Some (Wrapf "failed to reset login session by id:%#v and confirmationCode:%v"
                            (Base (Opaque msg)))),
           bump w)
      | inr (_, d) => (Val None, {| db := d; calls := S (calls w) |})
      end
  end.
Proof.
  unfold Polling.resetLoginSession, storage_Exec, run_stmt, bind, ret.
  destruct (fault ext (calls w)) as [msg|]; [reflexivity|].
  destruct (sql_reset_login_session_otp _ _ _ _ _ _ _) as [msg|[k d]]; reflexivity.
Qed.

Lemma Polling_resetLoginSession_effect (ext : Extern) (id : loginID) (els : emailLinkSignIn)
    (prev : string) (w : World) :
  account_metadata (db (snd (Polling.resetLoginSession ext id els prev w)))
  = account_metadata (db w)
  /\ sign_ins_per_ip (db (snd (Polling.resetLoginSession ext id els prev w)))
     = sign_ins_per_ip (db w)
  /\ (email_link_sign_ins (db (snd (Polling.resetLoginSession ext id els prev w)))
      = email_link_sign_ins (db w)
      \/ exists r,
           email_link_sign_ins (db w) !! (id_Email id, id_DeviceUniqueID id) = Some r
           /\ otp r = Some (OTP els)
           /\ confirmation_code r = Some prev
           /\ issued_token_seq r = IssuedTokenSeq els
           /\ email_link_sign_ins (db (snd (Polling.resetLoginSession ext id els prev w)))
              = <[(id_Email id, id_DeviceUniqueID id) := with_confirmation_code (UserID els) r]>
                  (email_link_sign_ins (db w)))
  /\ (forall r,
        email_link_sign_ins (db w) !! (id_Email id, id_DeviceUniqueID id) = Some r ->
        otp r = Some (OTP els) ->
        confirmation_code r = Some prev ->
        issued_token_seq r = IssuedTokenSeq els ->
        fst (Polling.resetLoginSession ext id els prev w) = Val None ->
        email_link_sign_ins (db (snd (Polling.resetLoginSession ext id els prev w)))
          !! (id_Email id, id_DeviceUniqueID id)
        = Some (with_confirmation_code (UserID els) r)).
Proof.
  rewrite Polling_resetLoginSession_cases.
  destruct (fault ext (calls w)) as [msg|].
  { split; [reflexivity|]. split; [reflexivity|]. split; [left; reflexivity|].
    intros r _ _ _ _ H. discriminate H. }
  unfold sql_reset_login_session_otp.
  destruct (email_link_sign_ins (db w) !! (id_Email id, id_DeviceUniqueID id)) as [r|] eqn:Hr.
  - assert (Htext : forall c v, sql_eq_text c v = true <-> c = Some v).
    { intros c v. unfold sql_eq_text. destruct c as [c|].
      - rewrite bool_decide_eq_true. split; congruence.
      - split; discriminate. }
    destruct (sql_eq_text (otp r) (OTP els)) eqn:Ho; cbn [andb].
    + destruct (sql_eq_text (confirmation_code r) prev) eqn:Hc; cbn [andb].
      * destruct (bool_decide_reflect (issued_token_seq r = IssuedTokenSeq els)) as [Hs|Hs].
        -- apply Htext in Ho, Hc.
           cbn [snd fst db email_link_sign_ins account_metadata sign_ins_per_ip set_sign_ins].
           split; [reflexivity|]. split; [reflexivity|]. split.
           ++ right. exists r. auto.
           ++ intros r0 [= <-] _ _ _ _. apply lookup_insert_eq.
        -- split; [reflexivity|]. split; [reflexivity|]. split; [left; reflexivity|].
           intros r0 [= <-] _ _ Hs' _. contradiction.
      * split; [reflexivity|]. split; [reflexivity|]. split; [left; reflexivity|].
        intros r0 [= <-] _ Hc' _ _. apply Htext in Hc'. congruence.
    + split; [reflexivity|]. split; [reflexivity|]. split; [left; reflexivity|].
      intros r0 [= <-] Ho' _ _ _. apply Htext in Ho'. congruence.
  - split; [reflexivity|]. split; [reflexivity|]. split; [left; reflexivity|].
    intros r0 H. discriminate H.
Qed.

(** X18. [Status] returns tokens only when the token parsed and the record
    found has a user id, an OTP equal to that user id and a confirmation
    code different from it; the tokens are generated for the sequence
    number read, which [Status] does not advance, [emailConfirmed] tells
    whether the record has an [EmailConfirmedAt], and a row that held the
    OTP, the code of the token and that sequence number now holds the user
    id as its confirmation code. *)
Theorem Status_tokens_imply_verified (cfg : Config) (ext : Extern) (loginSession : string)
    (w w' : World) (tokens : Tokens) (ec : bool) :
  Polling.Status cfg ext loginSession w = (Val (Some tokens, ec, None), w') ->
  exists token els u,
    parseJwtToken ext (calls w) loginSession (LoginSession_JwtSecret cfg) = inr token
    /\ getConfirmedEmailLinkSignIn ext (S (calls w)) (db w)
         {| id_Email := Subject token; id_DeviceUniqueID := tok_DeviceUniqueID token |}
         (tok_ConfirmationCode token) = inr els
    /\ UserID els = Some u
    /\ OTP els = u
    /\ ConfirmationCode els <> u
    /\ generateTokens ext (S (S (calls w))) (TokenIssuedAt els) els (IssuedTokenSeq els)
       = inr tokens
    /\ ec = match EmailConfirmedAt els with Some _ => true | None => false end
    /\ (forall r,
          email_link_sign_ins (db w) !! (Subject token, tok_DeviceUniqueID token) = Some r ->
          otp r = Some u ->
          confirmation_code r = Some (tok_ConfirmationCode token) ->
          issued_token_seq r = IssuedTokenSeq els ->
          email_link_sign_ins (db w') !! (Subject token, tok_DeviceUniqueID token)
          = Some (with_confirmation_code (Some u) r))
    /\ (forall k r,
          email_link_sign_ins (db w) !! k = Some r ->
          exists r',
            email_link_sign_ins (db w') !! k = Some r'
            /\ issued_token_seq r' = issued_token_seq r
            /\ previously_issued_token_seq r' = previously_issued_token_seq r).
Proof.
  unfold Polling.Status. unfold bind at 1. unfold ask at 1.
  destruct (parseJwtToken ext (calls w) loginSession (LoginSession_JwtSecret cfg))
    as [err|token] eqn:Hp; [discriminate|].
  cbv zeta. unfold bind at 1. unfold ask at 1. cbn [calls bump db].
  set (id := {| id_Email := Subject token; id_DeviceUniqueID := tok_DeviceUniqueID token |}).
  destruct (getConfirmedEmailLinkSignIn ext (S (calls w)) (db w) id (tok_ConfirmationCode token))
    as [err|els] eqn:Hr.
  { destruct (errors_Is err storage_ErrNotFound); discriminate. }
  destruct (UserID els) as [u|] eqn:Hu; [|discriminate].
  destruct (bool_decide_reflect (OTP els = u)) as [Ho|Ho]; cbn [negb]; [|discriminate].
  destruct (bool_decide_reflect (ConfirmationCode els = u)) as [Hc|Hc]; [discriminate|].
  unfold bind at 1. unfold ask at 1. cbn [calls bump db].
  destruct (generateTokens ext (S (S (calls w))) (TokenIssuedAt els) els (IssuedTokenSeq els))
    as [e|t] eqn:Hg; [discriminate|].
  unfold bind.
  destruct (Polling.resetLoginSession ext id els (tok_ConfirmationCode token)
              (bump (bump (bump w)))) as [[[e|]|why] w2] eqn:Hreset; try discriminate.
  unfold ret. intros [= <- <- <-].
  pose proof (Polling_resetLoginSession_effect ext id els (tok_ConfirmationCode token)
                (bump (bump (bump w)))) as (_ & _ & Heff & Hmark).
  rewrite Hreset in Heff, Hmark. cbn [fst snd db bump] in Heff, Hmark.
  rewrite Hu, Ho in Hmark.
  exists token, els, u.
  split; [reflexivity|]. split; [exact Hr|]. split; [exact Hu|].
  split; [exact Ho|]. split; [exact Hc|]. split; [exact Hg|]. split; [reflexivity|].
  split.
  - intros r Hrow Hotp Hcode Hseq. apply Hmark; auto.
  - intros k r Hrow. destruct Heff as [E | (r0 & Hr0 & _ & _ & _ & E)]; rewrite E.
    + exists r. auto.
    + destruct (decide ((id_Email id, id_DeviceUniqueID id) = k)) as [<-|Hk].
      * rewrite Hrow in Hr0. injection Hr0 as <-.
        eexists. rewrite lookup_insert_eq. split; [reflexivity|]. split; reflexivity.
      * exists r. rewrite lookup_insert_ne by exact Hk. auto.
Qed.

Lemma Status_tokens_imply_verified_witness :
  fst (Polling.Status Demo.cfg (Demo.with_reads Demo.verified Demo.ext) "token"
         Demo.verified_world)
  = Val (Some {| RefreshToken := "refresh"; AccessToken := "access" |}, true, None)
  /\ email_link_sign_ins
       (db (snd (Polling.Status Demo.cfg (Demo.with_reads Demo.verified Demo.ext) "token"
                   Demo.verified_world))) !! ("alice@x.com", "D1")
     = Some (with_confirmation_code (Some "u1") Demo.verified_row).
Proof.
  split; [vm_compute; reflexivity|].
  destruct (Status_tokens_imply_verified Demo.cfg (Demo.with_reads Demo.verified Demo.ext)
              "token" Demo.verified_world
              (snd (Polling.Status Demo.cfg (Demo.with_reads Demo.verified Demo.ext) "token"
                      Demo.verified_world))
              {| RefreshToken := "refresh"; AccessToken := "access" |} true)
    as (token & els & u & Hp & Hr & Hu & _ & _ & _ & _ & Hmark & _).
  - vm_compute. reflexivity.
  - injection Hp as <-. injection Hr as <-. injection Hu as <-.
    apply Hmark; reflexivity.
Defined.

(** X19. [Status] with a token that does not parse, a record that is not
    found, a record without a user id or a record whose OTP is not its
    user id fails before [generateTokens] is called and before any
    statement is sent. A read that is [storage.ErrNotFound] becomes
    [ErrNoPendingLoginSession]; a missing user id or a different OTP
    becomes [ErrStatusNotVerified]. *)
Theorem Status_rejects_before_any_write (cfg : Config) (ext : Extern)
    (loginSession : string) (w : World) :
  (forall err,
     parseJwtToken ext (calls w) loginSession (LoginSession_JwtSecret cfg) = inl err ->
     Polling.Status cfg ext loginSession w
     = (Val (None, false, Some (Wrapf "can't parse login session:%v" err)), bump w))
  /\ (forall token err,
        parseJwtToken ext (calls w) loginSession (LoginSession_JwtSecret cfg) = inr token ->
        getConfirmedEmailLinkSignIn ext (S (calls w)) (db w)
          {| id_Email := Subject token; id_DeviceUniqueID := tok_DeviceUniqueID token |}
          (tok_ConfirmationCode token) = inl err ->
        exists e,
          Polling.Status cfg ext loginSession w = (Val (None, false, Some e), bump (bump w))
          /\ (errors_Is err storage_ErrNotFound = true ->
              errors_Is e ErrNoPendingLoginSession = true)
          /\ (errors_Is err storage_ErrNotFound = false ->
              e = Wrapf "failed to get confirmed email link sign in for loginSession:%v,id:%#v"
                        err))
  /\ (forall token els,
        parseJwtToken ext (calls w) loginSession (LoginSession_JwtSecret cfg) = inr token ->
        getConfirmedEmailLinkSignIn ext (S (calls w)) (db w)
          {| id_Email := Subject token; id_DeviceUniqueID := tok_DeviceUniqueID token |}
          (tok_ConfirmationCode token) = inr els ->
        UserID els <> Some (OTP els) ->
        Polling.Status cfg ext loginSession w
        = (Val (None, false, Some (Wrapf "not verified for id:%#v" (Base ErrStatusNotVerified))),
           bump (bump w))).
Proof.
  split; [|split].
  - intros err Hp. unfold Polling.Status, bind, ask. rewrite Hp. reflexivity.
  - intros token err Hp Hr. unfold Polling.Status, bind, ask. rewrite Hp.
    cbn [calls bump db]. rewrite Hr.
    destruct (errors_Is err storage_ErrNotFound);
      eexists; (split; [reflexivity|]); split; try reflexivity; discriminate.
  - intros token els Hp Hr Hne. unfold Polling.Status, bind, ask. rewrite Hp.
    cbn [calls bump db]. rewrite Hr.
    destruct (UserID els) as [u|]; [|reflexivity].
    rewrite bool_decide_eq_false_2 by congruence. reflexivity.
Qed.

Lemma Status_world (cfg : Config) (ext : Extern) (loginSession : string) (w : World) :
  db (snd (Polling.Status cfg ext loginSession w)) = db w
  \/ exists id els prev w1,
       db w1 = db w
       /\ db (snd (Polling.Status cfg ext loginSession w))
          = db (snd (Polling.resetLoginSession ext id els prev w1)).
Proof.
  destruct (Polling.Status cfg ext loginSession w) as [o wS] eqn:HS. cbn [snd].
  revert HS. unfold Polling.Status. unfold bind at 1. unfold ask at 1.
  destruct (parseJwtToken ext (calls w) loginSession (LoginSession_JwtSecret cfg))
    as [err|token]; [intros [= <- <-]; left; reflexivity|].
  cbv zeta. unfold bind at 1. unfold ask at 1. cbn [calls bump db].
  destruct (getConfirmedEmailLinkSignIn ext (S (calls w)) (db w) _ (tok_ConfirmationCode token))
    as [err|els].
  { destruct (errors_Is err storage_ErrNotFound); intros [= <- <-]; left; reflexivity. }
  destruct (UserID els) as [u|]; [|intros [= <- <-]; left; reflexivity].
  destruct (negb (bool_decide (OTP els = u))); [intros [= <- <-]; left; reflexivity|].
  destruct (bool_decide (ConfirmationCode els = u)); [intros [= <- <-]; left; reflexivity|].
  unfold bind at 1. unfold ask at 1. cbn [calls bump db].
  destruct (generateTokens ext (S (S (calls w))) (TokenIssuedAt els) els (IssuedTokenSeq els))
    as [e|t]; [intros [= <- <-]; left; reflexivity|].
  unfold bind.
  destruct (Polling.resetLoginSession ext
              {| id_Email := Subject token; id_DeviceUniqueID := tok_DeviceUniqueID token |}
              els (tok_ConfirmationCode token) (bump (bump (bump w))))
    as [[[e|]|why] w2] eqn:Hre;
    intros [= <- <-]; right;
    exists {| id_Email := Subject token; id_DeviceUniqueID := tok_DeviceUniqueID token |},
           els, (tok_ConfirmationCode token), (bump (bump (bump w)));
    (split; [reflexivity | rewrite Hre; reflexivity]).
Qed.

(** X20. Polling never advances anything: whatever [Status] returns, the
    metadata and the per-IP counters are as they were, and every row of the
    sign-in table keeps all its columns but possibly its confirmation code;
    in particular [issued_token_seq] is not incremented. *)
Theorem Status_changes_only_the_confirmation_code (cfg : Config) (ext : Extern)
    (loginSession : string) (w : World) :
  account_metadata (db (snd (Polling.Status cfg ext loginSession w))) = account_metadata (db w)
  /\ sign_ins_per_ip (db (snd (Polling.Status cfg ext loginSession w)))
     = sign_ins_per_ip (db w)
  /\ (forall k,
        match email_link_sign_ins (db w) !! k with
        | None => email_link_sign_ins (db (snd (Polling.Status cfg ext loginSession w))) !! k
                  = None
        | Some r =>
            exists c,
              email_link_sign_ins (db (snd (Polling.Status cfg ext loginSession w))) !! k
              = Some (with_confirmation_code c r)
        end).
Proof.
  assert (Hid : forall r, with_confirmation_code (confirmation_code r) r = r).
  { intros []; reflexivity. }
  assert (Hsame : forall d,
            email_link_sign_ins d = email_link_sign_ins (db w) ->
            forall k,
              match email_link_sign_ins (db w) !! k with
              | None => email_link_sign_ins d !! k = None
              | Some r => exists c, email_link_sign_ins d !! k
                                    = Some (with_confirmation_code c r)
              end).
  { intros d E k. rewrite E.
    destruct (email_link_sign_ins (db w) !! k) as [r|] eqn:Hk; [|reflexivity].
    exists (confirmation_code r). rewrite Hid. reflexivity. }
  destruct (Status_world cfg ext loginSession w) as [E | (id & els & prev & w1 & Hd & E)].
  - rewrite E. split; [reflexivity|]. split; [reflexivity|]. apply Hsame. reflexivity.
  - rewrite E.
    destruct (Polling_resetLoginSession_effect ext id els prev w1) as (Hm & Hip & Heff & _).
    rewrite Hd in Hm, Hip, Heff.
    split; [exact Hm|]. split; [exact Hip|].
    destruct Heff as [E' | (r0 & Hr0 & _ & _ & _ & E')].
    + apply Hsame. exact E'.
    + intros k. rewrite E'.
      destruct (decide ((id_Email id, id_DeviceUniqueID id) = k)) as [<-|Hk].
      * rewrite Hr0, lookup_insert_eq. eauto.
      * rewrite lookup_insert_ne by exact Hk.
        destruct (email_link_sign_ins (db w) !! k) as [r|] eqn:Hrk; [|reflexivity].
        exists (confirmation_code r). rewrite Hid. reflexivity.
Qed.

(** ** A sign-in cannot be replayed *)

(** X21. After a [SignIn] that returned tokens for a row that held the
    presented code, the row is consumed: [signIn] on any record that
    carries the row's user id and confirmation code is rejected with
    [ErrNoPendingLoginSession], for every presented code, without a
    write. *)
Theorem SignIn_then_replay_is_rejected (cfg : Config) (ext : Extern)
    (loginSession code : string) (w w' : World) (tokens : Tokens) (ec : bool) :
  SignIn cfg ext loginSession code w = (Val (Some tokens, ec, None), w') ->
  exists token r r',
    parseJwtToken ext (S (calls w)) loginSession (EmailValidation_JwtSecret cfg) = inr token
    /\ email_link_sign_ins (db w) !! (Subject token, tok_DeviceUniqueID token) = Some r
    /\ email_link_sign_ins (db w') !! (Subject token, tok_DeviceUniqueID token) = Some r'
    /\ (confirmation_code r = Some code ->
        forall els2 now id oldEmail notifyEmail code2 w2,
          UserID els2 = user_id r' ->
          Some (ConfirmationCode els2) = confirmation_code r' ->
          signIn cfg ext now els2 id oldEmail notifyEmail code2 w2
          = (Val (els2, (false, 0, Some tokens_already_provided)), w2)).
Proof.
  intros H.
  apply SignIn_success_inv in H
    as (token & els & u & r & r' & Hp & _ & _ & _ & _ & _ & _ & Hr & _ & Hr' & _ & _ & Hu
        & _ & Hmark).
  exists token, r, r'. split; [exact Hp|]. split; [exact Hr|]. split; [exact Hr'|].
  intros Hcode els2 now id oldEmail notifyEmail code2 w2 Hu2 Hc2.
  apply signIn_consumed with (u := u).
  - congruence.
  - rewrite (Hmark Hcode) in Hc2. congruence.
Qed.

(** The fresh row after a sign-in is what the consumed record of the
    examples carries; that record is rejected, its original code too. *)
Lemma SignIn_then_replay_is_rejected_witness :
  signIn Demo.cfg Demo.ext_live 2000 Demo.consumed Demo.id "" "" "123456" Demo.world
  = (Val (Demo.consumed, (false, 0, Some tokens_already_provided)), Demo.world).
Proof.
  destruct (SignIn_then_replay_is_rejected Demo.cfg Demo.ext_live "token" "123456"
              Demo.fresh_world
              (snd (SignIn Demo.cfg Demo.ext_live "token" "123456" Demo.fresh_world))
              {| RefreshToken := "refresh"; AccessToken := "access" |} false)
    as (token & r & r' & Hp & Hr & Hr' & Hreplay).
  - vm_compute. reflexivity.
  - injection Hp as <-. vm_compute in Hr. injection Hr as <-.
    vm_compute in Hr'. injection Hr' as <-.
    apply Hreplay; reflexivity.
Defined.
